(** * Portfolio site: model invariants, derived fields, queries and export

    A shallow embedding of the Django application under [core/]:
    [core/models.py] (save overrides and computed properties),
    [core/views.py] (listing filters, the blog detail accessor, the JSON
    endpoint) and [core/management/commands/export_json.py].

    Conventions of the embedding.
    - A database table is a finite map from primary key to row
      ([gmap Z row]); a model instance held in memory is a row together
      with an optional primary key ([Instance]).
    - A Python exception is a value of [Py.exn]; code that may raise
      returns [Py.result A], with [inl] for the exception.
    - Text is a [string], a sequence of bytes: the UTF-8 form of text held
      in the database, the bytes of a header of a request.
    - "Now" ([timezone.now()]) is an explicit argument.
    - Constraint checks done by the database itself (unique columns,
      column widths) are outside the model: [Orm.Model_save] is the write
      that Django issues when no constraint is violated. The range of an
      integer column is modelled where the application itself drives a
      number up, the view counter written through
      [Orm.Model_save_update_fields]. *)

From Stdlib Require Import ZArith Lia List String Ascii Bool.
From stdpp Require Import gmap strings list fin_maps pretty.

Local Open Scope string_scope.
Local Open Scope Z_scope.

#[local] Set Warnings "-clear-no-such-hyp".

(** ** Python values and exceptions *)

Module Py.

Inductive exn : Type :=
| NameError (name : string)
| AttributeError (obj attr : string)
| ValueError (msg : string)
| DoesNotExist (model : string)
| MultipleObjectsReturned (model : string)
| TypeError (msg : string)
| DatabaseError (msg : string)
| OverflowError (msg : string)
| Http404.

Definition result (A : Type) : Type := (exn + A)%type.

Definition ret {A} (a : A) : result A := inr a.
Definition raise {A} (e : exn) : result A := inl e.

Definition bind {A B} (m : result A) (k : A → result B) : result B :=
  match m with
  | inl e => inl e
  | inr a => k a
  end.

(** Truth value of a [str]: only the empty string is false. *)
Definition truthy (s : string) : bool := negb (String.eqb s "").

(** Truth value of an optional object whose class defines neither
    [__bool__] nor [__len__] (dates, datetimes, model instances):
    only [None] is false. *)
Definition is_set {A} (o : option A) : bool :=
  match o with Some _ => true | None => false end.

End Py.

Notation "'do' x <- m ; k" := (Py.bind m (fun x => k))
  (at level 10, x name, m at level 100, k at level 200).

(** ** The persistence layer, as the application uses it *)

Record Instance (F : Type) : Type := Obj { pk : option Z; fields : F }.
Arguments Obj {F} _ _.
Arguments pk {F} _.
Arguments fields {F} _.

Module Orm.
Section Table.
Context {F : Type}.

(** [Model.save()] of the framework: a row with a primary key is written
    at that key (UPDATE, or INSERT when no such row exists); a row
    without one is inserted at a key the table does not use yet, and the
    instance learns its key. *)
Definition Model_save (self : Instance F) (t : gmap Z F)
  : Instance F * gmap Z F :=
  match pk self with
  | Some k => (self, <[k := fields self]> t)
  | None =>
      let k := fresh (dom t) in
      (Obj (Some k) (fields self), <[k := fields self]> t)
  end.

(** The integers an [IntegerField] column can hold. The project's
    default database ([DATABASE_URL] unset in the settings) is SQLite,
    whose INTEGER is a signed 64-bit number; binding a larger Python [int]
    to a statement raises [OverflowError]. (With the PostgreSQL URL of the
    container setup the column is a 32-bit [integer] and the range is
    narrower.) *)
Definition integer_min : Z := - 2 ^ 63.
Definition integer_max : Z := 2 ^ 63 - 1.

Definition integer_in_range (v : Z) : bool :=
  (integer_min <=? v) && (v <=? integer_max).

(** [Model.save(update_fields=names)]: only the named columns of the
    stored row are overwritten. [field_names] are the names the model
    accepts, [copy names src dst] is [dst] with the named columns taken
    from [src], and [bindable names src] tells whether the values of the
    named columns of [src] fit their columns. An empty list makes the call
    a no-op; an unknown name, or an instance without a primary key, is a
    [ValueError]; a number too large for its column makes the UPDATE
    statement fail; when no row has the key the database layer reports
    that nothing was updated. *)
Definition Model_save_update_fields
    (field_names : list string) (copy : list string → F → F → F)
    (bindable : list string → F → bool)
    (update_fields : list string) (self : Instance F) (t : gmap Z F)
  : Py.result (Instance F * gmap Z F) :=
  match update_fields with
  | [] => Py.ret (self, t)
  | _ =>
      if negb (forallb (λ n, bool_decide (n ∈ field_names)) update_fields)
      then Py.raise (Py.ValueError "The following fields do not exist in this model")
      else
        match pk self with
        | None =>
            Py.raise (Py.ValueError "Cannot force an update in save() with no primary key.")
        | Some k =>
            if negb (bindable update_fields (fields self))
            then Py.raise (Py.OverflowError "Python int too large to convert to SQLite INTEGER")
            else
              match t !! k with
              | None =>
                  Py.raise (Py.DatabaseError "Save with update_fields did not affect any rows.")
              | Some row =>
                  Py.ret (self, <[k := copy update_fields (fields self) row]> t)
              end
        end
  end.

(** [qs.filter(P)] *)
Definition qs_filter (P : F → bool) (t : gmap Z F) : gmap Z F :=
  filter (λ kv, P kv.2 = true) t.

(** [qs.filter(P).update(...)]: every row matching [P] is rewritten by
    [f], the others are left alone. *)
Definition qs_update (P : F → bool) (f : F → F) (t : gmap Z F) : gmap Z F :=
  (λ r, if P r then f r else r) <$> t.

(** [qs.get()]: the single row of the query set. *)
Definition qs_get (model : string) (t : gmap Z F) : Py.result (Instance F) :=
  match map_to_list t with
  | [] => Py.raise (Py.DoesNotExist model)
  | [(k, r)] => Py.ret (Obj (Some k) r)
  | _ => Py.raise (Py.MultipleObjectsReturned model)
  end.

(** The row with the smallest primary key among [l]. *)
Fixpoint min_by_pk (l : list (Z * F)) : option (Z * F) :=
  match l with
  | [] => None
  | (k, r) :: l' =>
      match min_by_pk l' with
      | Some (k', r') => if k' <? k then Some (k', r') else Some (k, r)
      | None => Some (k, r)
      end
  end.

(** [qs.first()] on a query set without an ordering: ordered by primary
    key, first row or [None]. *)
Definition qs_first (t : gmap Z F) : option (Instance F) :=
  match min_by_pk (map_to_list t) with
  | Some (k, r) => Some (Obj (Some k) r)
  | None => None
  end.

(** [qs.exists()] *)
Definition qs_exists (t : gmap Z F) : bool :=
  match map_to_list t with [] => false | _ => true end.

End Table.
End Orm.

(** ** [core/models.py] *)

Module Profile.

(** The columns read or written by the code modelled here; the image and
    file columns and the timestamps are left out. *)
Record t : Type := Row {
  name : string;
  job_title : string;
  bio : string;
  summary : string;
  email : string;
  phone : string;
  location : string;
  github_url : option string;
  linkedin_url : option string;
  twitter_url : option string;
  website_url : option string;
  meta_description : string;
  is_active : bool
}.

Definition set_is_active (b : bool) (r : t) : t :=
  Row (name r) (job_title r) (bio r) (summary r) (email r) (phone r)
      (location r) (github_url r) (linkedin_url r) (twitter_url r)
      (website_url r) (meta_description r) b.

(** [Profile.save]: when the instance is active, every active row is
    first switched off, then the instance is written. *)
Definition save (self : Instance t) (db : gmap Z t) : Instance t * gmap Z t :=
  let db :=
    if is_active (fields self)
    then Orm.qs_update is_active (set_is_active false) db
    else db in
  Orm.Model_save self db.

(** A sequence of saves, one after the other; the table is threaded. *)
Definition save_all (objs : list (Instance t)) (db : gmap Z t) : gmap Z t :=
  foldl (λ db o, (save o db).2) db objs.

Definition active_rows (db : gmap Z t) : gmap Z t :=
  Orm.qs_filter is_active db.

End Profile.

Module SiteSettings.

Record t : Type := Row {
  site_title : string;
  site_tagline : string;
  site_description : option string;
  meta_keywords : string;
  google_analytics_id : option string;
  contact_email : string;
  contact_phone : option string;
  github_url : option string;
  linkedin_url : option string;
  twitter_url : option string;
  enable_blog : bool;
  enable_contact_form : bool;
  maintenance_mode : bool;
  is_active : bool
}.

Definition set_is_active (b : bool) (r : t) : t :=
  Row (site_title r) (site_tagline r) (site_description r) (meta_keywords r)
      (google_analytics_id r) (contact_email r) (contact_phone r)
      (github_url r) (linkedin_url r) (twitter_url r) (enable_blog r)
      (enable_contact_form r) (maintenance_mode r) b.

(** [SiteSettings.save] *)
Definition save (self : Instance t) (db : gmap Z t) : Instance t * gmap Z t :=
  let db :=
    if is_active (fields self)
    then Orm.qs_update is_active (set_is_active false) db
    else db in
  Orm.Model_save self db.

Definition save_all (objs : list (Instance t)) (db : gmap Z t) : gmap Z t :=
  foldl (λ db o, (save o db).2) db objs.

Definition active_rows (db : gmap Z t) : gmap Z t :=
  Orm.qs_filter is_active db.

(** The row built by [cls.objects.create(is_active=True, **defaults)]:
    the two given columns, every other column at its declared default. *)
Definition default_row : t :=
  Row "Portfolio" "" None "" None "contact@example.com" None
      None None None true true false true.

(** [SiteSettings.get_settings]: [get_or_create(is_active=True,
    defaults=...)]. [get] answers when exactly one row is active; when
    none is, the default row is created through [save]; several active
    rows make [get] raise. *)
Definition get_settings (db : gmap Z t) : Py.result (Instance t * gmap Z t) :=
  match Orm.qs_get "SiteSettings" (Orm.qs_filter is_active db) with
  | inr settings => Py.ret (settings, db)
  | inl (Py.DoesNotExist _) => Py.ret (save (Obj None default_row) db)
  | inl e => Py.raise e
  end.

End SiteSettings.

(** ** Text: [django.utils.text.slugify] and the string tests used by the
    queries *)

(** [unicodedata.normalize('NFKD', s)] depends on the Unicode character
    database, which is not part of the application; it is taken as an
    operation on text that leaves ASCII text unchanged. *)
Class Unicode : Type := {
  nfkd : string → string;
  nfkd_ascii : ∀ s,
    forallb (λ c, Z.of_N (N_of_ascii c) <? 128) (list_ascii_of_string s) = true →
    nfkd s = s
}.

Module Text.

Definition code (c : ascii) : Z := Z.of_N (N_of_ascii c).

Definition is_ascii (c : ascii) : bool := code c <? 128.
Definition is_upper (c : ascii) : bool := (65 <=? code c) && (code c <=? 90).
Definition is_lower (c : ascii) : bool := (97 <=? code c) && (code c <=? 122).
Definition is_digit (c : ascii) : bool := (48 <=? code c) && (code c <=? 57).
Definition is_underscore (c : ascii) : bool := code c =? 95.
Definition is_hyphen (c : ascii) : bool := code c =? 45.

(** [\w] on ASCII text *)
Definition is_word (c : ascii) : bool :=
  is_upper c || is_lower c || is_digit c || is_underscore c.

(** [\s] on ASCII text: tab, line feed, vertical tab, form feed, carriage
    return, the four separators 0x1c-0x1f and the space. *)
Definition is_space (c : ascii) : bool :=
  ((9 <=? code c) && (code c <=? 13)) || ((28 <=? code c) && (code c <=? 32)).

Definition lower_char (c : ascii) : ascii :=
  if is_upper c then ascii_of_N (N_of_ascii c + 32) else c.

(** [s.lower()] *)
Definition lower (s : list ascii) : list ascii := map lower_char s.

(** [re.sub(r"[-\s]+", "-", s)]: every maximal run of hyphens and white
    space becomes one hyphen. [in_run] says that the previous character
    was part of a run already replaced. *)
Fixpoint sub_runs (in_run : bool) (s : list ascii) : list ascii :=
  match s with
  | [] => []
  | c :: r =>
      if is_hyphen c || is_space c
      then (if in_run then sub_runs true r else "-"%char :: sub_runs true r)
      else c :: sub_runs false r
  end.

Fixpoint lstrip (P : ascii → bool) (s : list ascii) : list ascii :=
  match s with
  | [] => []
  | c :: r => if P c then lstrip P r else s
  end.

Definition rstrip (P : ascii → bool) (s : list ascii) : list ascii :=
  rev (lstrip P (rev s)).

(** [s.strip(chars)] *)
Definition strip (P : ascii → bool) (s : list ascii) : list ascii :=
  rstrip P (lstrip P s).

(** [slugify(value)] with [allow_unicode=False]:
    normalise, keep the ASCII characters, lower-case, delete what is
    neither a word character, white space nor a hyphen, replace runs of
    hyphens and white space by one hyphen, strip hyphens and underscores
    at both ends. *)
Definition slugify `{Unicode} (value : string) : string :=
  let value := filter (λ c, is_ascii c = true)
                 (list_ascii_of_string (nfkd value)) in
  let value := filter (λ c, (is_word c || is_space c || is_hyphen c) = true)
                 (lower value) in
  string_of_list_ascii
    (strip (λ c, is_hyphen c || is_underscore c) (sub_runs false value)).

(** A character a slug is made of: lower-case letter, digit, underscore
    or hyphen. *)
Definition slug_char (c : ascii) : bool :=
  is_lower c || is_digit c || is_underscore c || is_hyphen c.

(** [needle in hay] on byte strings *)
Fixpoint is_prefix (p s : list ascii) : bool :=
  match p, s with
  | [], _ => true
  | _ :: _, [] => false
  | a :: p', b :: s' => if Ascii.eqb a b then is_prefix p' s' else false
  end.

Fixpoint contains (needle hay : list ascii) : bool :=
  is_prefix needle hay ||
  match hay with
  | [] => false
  | _ :: hay' => contains needle hay'
  end.

(** The [icontains] lookup as the default SQLite backend evaluates it
    ([LIKE '%needle%'], which ignores the case of ASCII letters only). *)
Definition icontains (hay needle : string) : bool :=
  contains (lower (list_ascii_of_string needle))
           (lower (list_ascii_of_string hay)).

End Text.

(** ** JSON values, dates and instants *)

#[local] Set Warnings "-register-all".

Inductive json : Type :=
| JNull
| JBool (b : bool)
| JInt (n : Z)
| JFloat (tenths : Z)   (* the float a one-decimal [Decimal] converts to *)
| JStr (s : string)
| JList (items : list json)
| JDict (items : list (string * json)).

(** A nullable text column in a JSON document *)
Definition json_opt (o : option string) : json :=
  match o with Some s => JStr s | None => JNull end.

(** [str(z).zfill(width)] for a non-negative [z] *)
Definition zfill (width : nat) (z : Z) : string :=
  let digits := pretty z in
  string_of_list_ascii
    (replicate (width - String.length digits) "0"%char) +:+ digits.

Module Date.

Record t : Type := Make { year : Z; month : Z; day : Z }.

(** Dates compare by year, then month, then day. *)
Definition ltb (a b : t) : bool :=
  (year a <? year b)
  || ((year a =? year b)
      && ((month a <? month b)
          || ((month a =? month b) && (day a <? day b)))).

Definition is_leap (y : Z) : bool :=
  (y mod 4 =? 0) && (negb (y mod 100 =? 0) || (y mod 400 =? 0)).

(** [calendar.monthrange(y, m)[1]] *)
Definition days_in_month (y m : Z) : Z :=
  if m =? 2 then (if is_leap y then 29 else 28)
  else if (m =? 4) || (m =? 6) || (m =? 9) || (m =? 11) then 30
  else 31.

(** [d.isoformat()] *)
Definition isoformat (d : t) : string :=
  zfill 4 (year d) +:+ "-" +:+ zfill 2 (month d) +:+ "-" +:+ zfill 2 (day d).

End Date.

Module DateTime.

(** An aware instant in UTC ([USE_TZ = True], [TIME_ZONE = 'UTC']). *)
Record t : Type := Make {
  date : Date.t;
  hour : Z; minute : Z; second : Z; microsecond : Z
}.

(** [dt.isoformat()] *)
Definition isoformat (dt : t) : string :=
  Date.isoformat (date dt) +:+ "T" +:+ zfill 2 (hour dt) +:+ ":"
    +:+ zfill 2 (minute dt) +:+ ":" +:+ zfill 2 (second dt)
    +:+ (if microsecond dt =? 0 then "" else "." +:+ zfill 6 (microsecond dt))
    +:+ "+00:00".

End DateTime.

(** [dateutil.relativedelta.relativedelta(dt1, dt2)] on two dates: the
    whole years and months from [dt2] to [dt1]. Only these two components
    are read by the application. *)
Module Relativedelta.

Record t : Type := Make { years : Z; months : Z }.

Definition sign (x : Z) : Z := if x <? 0 then -1 else 1.

(** [_set_months] *)
Definition set_months (m : Z) : t :=
  if Z.abs m >? 11
  then let s := sign m in Make ((m * s) / 12 * s) ((m * s) mod 12 * s)
  else Make 0 m.

(** [dt + delta]: shift year and month, clip the day to the month. *)
Definition add (delta : t) (dt : Date.t) : Date.t :=
  let year := Date.year dt + years delta in
  let month := Date.month dt in
  let '(year, month) :=
    if months delta =? 0 then (year, month)
    else
      let month := month + months delta in
      if month >? 12 then (year + 1, month - 12)
      else if month <? 1 then (year - 1, month + 12)
      else (year, month) in
  Date.Make year month (Z.min (Date.days_in_month year month) (Date.day dt)).

(** The correction loop of the constructor: while the shifted date has
    overshot [dt1], move one month back towards it. *)
Fixpoint adjust (fuel : nat) (dt1 dt2 : Date.t) (increment m : Z) : option t :=
  let dtm := add (set_months m) dt2 in
  let overshot :=
    if increment =? 1 then Date.ltb dtm dt1 else Date.ltb dt1 dtm in
  if overshot
  then match fuel with
       | O => None
       | S fuel => adjust fuel dt1 dt2 increment (m + increment)
       end
  else Some (set_months m).

Definition between (dt1 dt2 : Date.t) : option t :=
  let m := (Date.year dt1 - Date.year dt2) * 12
           + (Date.month dt1 - Date.month dt2) in
  adjust 24 dt1 dt2 (if Date.ltb dt1 dt2 then 1 else -1) m.

End Relativedelta.

(** ** [core/models.py]: the models whose slug is derived on save *)

Module SkillArea.

Record t : Type := Row {
  name : string;
  slug : string;
  description : option string;
  icon : string;
  color : string;
  order : Z
}.

Definition set_slug (s : string) (r : t) : t :=
  Row (name r) s (description r) (icon r) (color r) (order r).

(** [SkillArea.save] *)
Definition save `{Unicode} (self : Instance t) (db : gmap Z t)
  : Instance t * gmap Z t :=
  let self :=
    if negb (Py.truthy (slug (fields self)))
    then Obj (pk self) (set_slug (Text.slugify (name (fields self))) (fields self))
    else self in
  Orm.Model_save self db.

End SkillArea.

Module Skill.

Record t : Type := Row {
  area_id : Z;
  name : string;
  skills : option string;
  slug : string;
  sfia_level : string;
  industry_level : string;
  sector : string;
  description : string;
  years_experience : option Z;   (* in tenths: one decimal place *)
  tags : string;
  is_featured : bool;
  order : Z
}.

Definition set_slug (s : string) (r : t) : t :=
  Row (area_id r) (name r) (skills r) s (sfia_level r) (industry_level r)
      (sector r) (description r) (years_experience r) (tags r)
      (is_featured r) (order r).

(** [self.area]: the related row, fetched through the foreign key. *)
Definition area (areas : gmap Z SkillArea.t) (r : t) : Py.result SkillArea.t :=
  match areas !! area_id r with
  | Some a => Py.ret a
  | None => Py.raise (Py.DoesNotExist "SkillArea")
  end.

(** [Skill.save]: the slug comes from ["{area.name}-{name}"]. *)
Definition save `{Unicode} (areas : gmap Z SkillArea.t)
    (self : Instance t) (db : gmap Z t)
  : Py.result (Instance t * gmap Z t) :=
  do self <-
    (if negb (Py.truthy (slug (fields self)))
     then
       do a <- area areas (fields self);
       Py.ret (Obj (pk self)
                 (set_slug
                    (Text.slugify (SkillArea.name a +:+ "-" +:+ name (fields self)))
                    (fields self)))
     else Py.ret self);
  Py.ret (Orm.Model_save self db).

End Skill.

Module ProjectCategory.

Record t : Type := Row {
  name : string;
  slug : string;
  description : option string
}.

Definition set_slug (s : string) (r : t) : t :=
  Row (name r) s (description r).

(** [ProjectCategory.save] *)
Definition save `{Unicode} (self : Instance t) (db : gmap Z t)
  : Instance t * gmap Z t :=
  let self :=
    if negb (Py.truthy (slug (fields self)))
    then Obj (pk self) (set_slug (Text.slugify (name (fields self))) (fields self))
    else self in
  Orm.Model_save self db.

End ProjectCategory.

Module Project.

Record t : Type := Row {
  title : string;
  slug : string;
  summary : option string;
  category_id : option Z;
  start_date : Date.t;
  end_date : option Date.t;
  is_ongoing : bool;
  situation : string;
  task : string;
  action : string;
  result : string;
  github_url : option string;
  live_demo_url : option string;
  technologies : json;
  is_featured : bool;
  order : Z
}.

Definition set_slug (s : string) (r : t) : t :=
  Row (title r) s (summary r) (category_id r) (start_date r) (end_date r)
      (is_ongoing r) (situation r) (task r) (action r) (result r)
      (github_url r) (live_demo_url r) (technologies r) (is_featured r)
      (order r).

Definition set_title (s : string) (r : t) : t :=
  Row s (slug r) (summary r) (category_id r) (start_date r) (end_date r)
      (is_ongoing r) (situation r) (task r) (action r) (result r)
      (github_url r) (live_demo_url r) (technologies r) (is_featured r)
      (order r).

(** [Project.save] *)
Definition save `{Unicode} (self : Instance t) (db : gmap Z t)
  : Instance t * gmap Z t :=
  let self :=
    if negb (Py.truthy (slug (fields self)))
    then Obj (pk self) (set_slug (Text.slugify (title (fields self))) (fields self))
    else self in
  Orm.Model_save self db.

End Project.

Module BlogSeries.

Record t : Type := Row {
  name : string;
  slug : string;
  description : string;
  order : Z
}.

Definition set_slug (s : string) (r : t) : t :=
  Row (name r) s (description r) (order r).

(** [BlogSeries.save] *)
Definition save `{Unicode} (self : Instance t) (db : gmap Z t)
  : Instance t * gmap Z t :=
  let self :=
    if negb (Py.truthy (slug (fields self)))
    then Obj (pk self) (set_slug (Text.slugify (name (fields self))) (fields self))
    else self in
  Orm.Model_save self db.

End BlogSeries.

Module BlogCategory.

Record t : Type := Row {
  name : string;
  slug : string;
  description : option string
}.

Definition set_slug (s : string) (r : t) : t :=
  Row (name r) s (description r).

(** [BlogCategory.save] *)
Definition save `{Unicode} (self : Instance t) (db : gmap Z t)
  : Instance t * gmap Z t :=
  let self :=
    if negb (Py.truthy (slug (fields self)))
    then Obj (pk self) (set_slug (Text.slugify (name (fields self))) (fields self))
    else self in
  Orm.Model_save self db.

End BlogCategory.

Module BlogTag.

Record t : Type := Row {
  name : string;
  slug : string
}.

Definition set_slug (s : string) (r : t) : t := Row (name r) s.

(** [BlogTag.save] *)
Definition save `{Unicode} (self : Instance t) (db : gmap Z t)
  : Instance t * gmap Z t :=
  let self :=
    if negb (Py.truthy (slug (fields self)))
    then Obj (pk self) (set_slug (Text.slugify (name (fields self))) (fields self))
    else self in
  Orm.Model_save self db.

End BlogTag.

Module BlogPost.

Record t : Type := Row {
  title : string;
  slug : string;
  series_id : option Z;
  category_id : option Z;
  excerpt : string;
  content : string;
  status : string;
  published_date : option DateTime.t;
  meta_description : string;
  meta_keywords : string;
  reading_time : Z;
  view_count : Z;
  is_featured : bool;
  order : Z
}.

Definition set_slug (s : string) (r : t) : t :=
  Row (title r) s (series_id r) (category_id r) (excerpt r) (content r)
      (status r) (published_date r) (meta_description r) (meta_keywords r)
      (reading_time r) (view_count r) (is_featured r) (order r).

Definition set_published_date (d : option DateTime.t) (r : t) : t :=
  Row (title r) (slug r) (series_id r) (category_id r) (excerpt r) (content r)
      (status r) d (meta_description r) (meta_keywords r)
      (reading_time r) (view_count r) (is_featured r) (order r).

Definition set_view_count (n : Z) (r : t) : t :=
  Row (title r) (slug r) (series_id r) (category_id r) (excerpt r) (content r)
      (status r) (published_date r) (meta_description r) (meta_keywords r)
      (reading_time r) n (is_featured r) (order r).

(** The names [save(update_fields=...)] accepts for this model. *)
Definition field_names : list string :=
  ["title"; "slug"; "series"; "series_id"; "category"; "category_id";
   "excerpt"; "content"; "featured_image"; "status"; "published_date";
   "meta_description"; "meta_keywords"; "reading_time"; "view_count";
   "is_featured"; "order"; "created_at"; "updated_at"].

(** [dst] with the columns named in [names] taken from [src]. *)
Definition copy_fields (names : list string) (src dst : t) : t :=
  let pick {A} (aliases : list string) (f : t → A) : A :=
    if existsb (λ n, bool_decide (n ∈ names)) aliases then f src else f dst in
  Row (pick ["title"] title) (pick ["slug"] slug)
      (pick ["series"; "series_id"] series_id)
      (pick ["category"; "category_id"] category_id)
      (pick ["excerpt"] excerpt) (pick ["content"] content)
      (pick ["status"] status) (pick ["published_date"] published_date)
      (pick ["meta_description"] meta_description)
      (pick ["meta_keywords"] meta_keywords)
      (pick ["reading_time"] reading_time) (pick ["view_count"] view_count)
      (pick ["is_featured"] is_featured) (pick ["order"] order).

(** Whether the integer columns named in [names] hold, in [src], numbers
    the database can store. *)
Definition bindable (names : list string) (src : t) : bool :=
  let named (aliases : list string) : bool :=
    existsb (λ n, bool_decide (n ∈ names)) aliases in
  let fits (aliases : list string) (v : option Z) : bool :=
    negb (named aliases) || from_option Orm.integer_in_range true v in
  fits ["series"; "series_id"] (series_id src)
  && fits ["category"; "category_id"] (category_id src)
  && fits ["reading_time"] (Some (reading_time src))
  && fits ["view_count"] (Some (view_count src))
  && fits ["order"] (Some (order src)).

(** The part of [BlogPost.save] that runs before [super().save()]:
    derive the slug, default the publication date. *)
Definition before_save `{Unicode} (now : DateTime.t) (self : Instance t)
  : Instance t :=
  let self :=
    if negb (Py.truthy (slug (fields self)))
    then Obj (pk self) (set_slug (Text.slugify (title (fields self))) (fields self))
    else self in
  if String.eqb (status (fields self)) "published"
     && negb (Py.is_set (published_date (fields self)))
  then Obj (pk self) (set_published_date (Some now) (fields self))
  else self.

(** [BlogPost.save]; [update_fields] is the keyword argument of that
    name, [None] when absent. *)
Definition save `{Unicode} (now : DateTime.t)
    (update_fields : option (list string))
    (self : Instance t) (db : gmap Z t)
  : Py.result (Instance t * gmap Z t) :=
  let self := before_save now self in
  match update_fields with
  | None => Py.ret (Orm.Model_save self db)
  | Some names =>
      Orm.Model_save_update_fields field_names copy_fields bindable names self db
  end.

(** [is_published] *)
Definition is_published (r : t) : bool :=
  String.eqb (status r) "published" && Py.is_set (published_date r).

End BlogPost.

(** ** [core/models.py]: computed properties *)

(** What an import statement binds a name of the module's global scope
    to. Only the objects that [Experience.duration] could be given are
    listed. *)
Inductive binding : Type :=
| datetime_timezone        (* from datetime import timezone *)
| django_utils_timezone    (* from django.utils import timezone *)
| dateutil_relativedelta.  (* from dateutil.relativedelta import relativedelta *)

Module Scope.

(** Reading a global name: bound, or [NameError]. *)
Definition load_global (globals : gmap string binding) (name : string)
  : Py.result binding :=
  match globals !! name with
  | Some b => Py.ret b
  | None => Py.raise (Py.NameError name)
  end.

(** [b.now()]: only Django's [timezone] module has it; the class
    [datetime.timezone] has no such attribute. *)
Definition call_now (b : binding) (now : DateTime.t) : Py.result DateTime.t :=
  match b with
  | django_utils_timezone => Py.ret now
  | datetime_timezone => Py.raise (Py.AttributeError "datetime.timezone" "now")
  | dateutil_relativedelta => Py.raise (Py.AttributeError "relativedelta" "now")
  end.

(** [b(dt1, dt2)] *)
Definition call_delta (b : binding) (dt1 dt2 : Date.t)
  : Py.result Relativedelta.t :=
  match b with
  | dateutil_relativedelta =>
      match Relativedelta.between dt1 dt2 with
      | Some d => Py.ret d
      | None => Py.raise (Py.ValueError "relativedelta: no result")
      end
  | datetime_timezone =>
      Py.raise (Py.TypeError "timezone() argument 1 must be datetime.timedelta")
  | django_utils_timezone =>
      Py.raise (Py.TypeError "'module' object is not callable")
  end.

(** The names that the import statements at the top of [core/models.py]
    bind and that [Experience.duration] reads: [timezone] comes from
    [datetime]; nothing binds [relativedelta]. *)
Definition models_globals : gmap string binding :=
  {[ "timezone" := datetime_timezone ]}.

(** The scope the property needs in order to run: Django's [timezone]
    and dateutil's [relativedelta]. *)
Definition intended_globals : gmap string binding :=
  {[ "timezone" := django_utils_timezone;
     "relativedelta" := dateutil_relativedelta ]}.

End Scope.

Module Experience.

Record t : Type := Row {
  role : string;
  company : string;
  location : string;
  start_date : Date.t;
  end_date : option Date.t;
  is_current : bool;
  situation : string;
  task : string;
  action : string;
  result : string;
  company_url : option string;
  order : Z
}.

(** [" ".join(parts)] *)
Fixpoint join (sep : string) (parts : list string) : string :=
  match parts with
  | [] => ""
  | [p] => p
  | p :: rest => p +:+ sep +:+ join sep rest
  end.

(** [Experience.duration], run in the global scope [globals]. *)
Definition duration (globals : gmap string binding) (now : DateTime.t)
    (self : t) : Py.result string :=
  do end_ <-
    (match end_date self with
     | Some d => Py.ret d
     | None =>
         do tz <- Scope.load_global globals "timezone";
         do n <- Scope.call_now tz now;
         Py.ret (DateTime.date n)
     end);
  do rd <- Scope.load_global globals "relativedelta";
  do delta <- Scope.call_delta rd end_ (start_date self);
  let years := Relativedelta.years delta in
  let months := Relativedelta.months delta in
  let parts : list string := [] in
  let parts :=
    if years >? 0
    then (parts ++ [pretty years +:+ " yr" +:+ (if years >? 1 then "s" else "")])%list
    else parts in
  let parts :=
    if months >? 0
    then (parts ++ [pretty months +:+ " mo" +:+ (if months >? 1 then "s" else "")])%list
    else parts in
  Py.ret (match parts with
          | [] => "Less than 1 month"
          | _ => join " " parts
          end).

End Experience.

Module Certification.

Record t : Type := Row {
  title : string;
  cert_type : string;
  issuing_authority : string;
  issue_date : Date.t;
  expiry_date : option Date.t;
  credential_id : string;
  credential_url : option string;
  icon_class : string;
  color_class : string;
  is_featured : bool
}.

(** [Certification.is_expired]; [now] is [timezone.now()]. *)
Definition is_expired (now : DateTime.t) (self : t) : bool :=
  match expiry_date self with
  | None => false
  | Some d => Date.ltb d (DateTime.date now)
  end.

End Certification.

(** ** [core/views.py] *)

Record HttpRequest : Type := { GET : gmap string string }.

Record JsonResponse : Type := { status_code : Z; data : json }.

Module ProjectsListView.

(** The lookup [category__slug=c]: the project's category exists and has
    slug [c]. *)
Definition category_slug_is (categories : gmap Z ProjectCategory.t)
    (c : string) (p : Project.t) : bool :=
  match Project.category_id p with
  | Some cid =>
      match categories !! cid with
      | Some cat => String.eqb (ProjectCategory.slug cat) c
      | None => false
      end
  | None => false
  end.

(** [ProjectsListView.get_queryset]. The result is the set of rows the
    query selects; the listing order and the pages are applied to it
    afterwards by the framework. *)
Definition get_queryset (request : HttpRequest)
    (categories : gmap Z ProjectCategory.t) (projects : gmap Z Project.t)
  : gmap Z Project.t :=
  let qs := projects in
  let qs :=
    match GET request !! "category" with
    | Some category =>
        if Py.truthy category
        then Orm.qs_filter (category_slug_is categories category) qs
        else qs
    | None => qs
    end in
  let qs :=
    match GET request !! "q" with
    | Some search =>
        if Py.truthy search
        then Orm.qs_filter
               (λ p, Text.icontains (Project.title p) search
                     || Text.icontains (Project.situation p) search
                     || Text.icontains (Project.action p) search) qs
        else qs
    | None => qs
    end in
  qs.

End ProjectsListView.

Module BlogPostDetailView.

(** [get_queryset] *)
Definition get_queryset (posts : gmap Z BlogPost.t) : gmap Z BlogPost.t :=
  Orm.qs_filter (λ p, String.eqb (BlogPost.status p) "published") posts.

(** [DetailView.get_object] for the route [blog/<slug:slug>/]: the row of
    the query set with that slug, [Http404] when there is none. *)
Definition super_get_object (slug : string) (posts : gmap Z BlogPost.t)
  : Py.result (Instance BlogPost.t) :=
  match Orm.qs_get "BlogPost"
          (Orm.qs_filter (λ p, String.eqb (BlogPost.slug p) slug)
             (get_queryset posts)) with
  | inl (Py.DoesNotExist _) => Py.raise Py.Http404
  | r => r
  end.

(** [BlogPostDetailView.get_object] *)
Definition get_object `{Unicode} (now : DateTime.t) (slug : string)
    (posts : gmap Z BlogPost.t)
  : Py.result (Instance BlogPost.t * gmap Z BlogPost.t) :=
  do obj <- super_get_object slug posts;
  let obj :=
    Obj (pk obj)
      (BlogPost.set_view_count (BlogPost.view_count (fields obj) + 1)
         (fields obj)) in
  BlogPost.save now (Some ["view_count"]) obj posts.

(** The accessor called once per instant of [nows], in sequence. *)
Fixpoint views `{Unicode} (nows : list DateTime.t) (slug : string)
    (posts : gmap Z BlogPost.t) : Py.result (gmap Z BlogPost.t) :=
  match nows with
  | [] => Py.ret posts
  | now :: rest =>
      do r <- get_object now slug posts;
      views rest slug r.2
  end.

End BlogPostDetailView.

(** [profile_json] *)
Definition profile_json (request : HttpRequest) (profiles : gmap Z Profile.t)
  : JsonResponse :=
  match Orm.qs_first (Orm.qs_filter Profile.is_active profiles) with
  | None => {| status_code := 200; data := JDict [] |}
  | Some profile =>
      let profile := fields profile in
      {| status_code := 200;
         data := JDict [
           ("name", JStr (Profile.name profile));
           ("title", JStr (Profile.job_title profile));
           ("bio", JStr (Profile.bio profile));
           ("summary", JStr (Profile.summary profile));
           ("email", JStr (Profile.email profile));
           ("social", JDict [
              ("github", json_opt (Profile.github_url profile));
              ("linkedin", json_opt (Profile.linkedin_url profile));
              ("twitter", json_opt (Profile.twitter_url profile))])] |}
  end.

(** ** [core/management/commands/export_json.py] *)

Record Database : Type := {
  profiles : gmap Z Profile.t;
  skill_areas : gmap Z SkillArea.t;
  skills : gmap Z Skill.t;
  project_categories : gmap Z ProjectCategory.t;
  projects : gmap Z Project.t;
  experiences : gmap Z Experience.t;
  certifications : gmap Z Certification.t;
  blog_series : gmap Z BlogSeries.t;
  blog_categories : gmap Z BlogCategory.t;
  blog_posts : gmap Z BlogPost.t;
  site_settings : gmap Z SiteSettings.t
}.

Definition set_site_settings (t : gmap Z SiteSettings.t) (d : Database)
  : Database :=
  {| profiles := profiles d; skill_areas := skill_areas d; skills := skills d;
     project_categories := project_categories d; projects := projects d;
     experiences := experiences d; certifications := certifications d;
     blog_series := blog_series d; blog_categories := blog_categories d;
     blog_posts := blog_posts d; site_settings := t |}.

Module Command.

Inductive style : Type := PLAIN | SUCCESS | WARNING.

(** What a run of the command acts on: the database, the files under
    the data directory (path to dumped document) and the lines written
    to standard output. *)
Record World : Type := {
  db : Database;
  files : gmap string json;
  stdout : list (style * string)
}.

Definition data_dir : string := "portfolio_project/data".

(** [json.dump(content, open(data_dir / name, 'w'))] *)
Definition dump (name : string) (content : json) (w : World) : World :=
  {| db := db w;
     files := <[data_dir +:+ "/" +:+ name := content]> (files w);
     stdout := stdout w |}.

(** [self.stdout.write(msg)] *)
Definition write (s : style) (msg : string) (w : World) : World :=
  {| db := db w; files := files w; stdout := (stdout w ++ [(s, msg)])%list |}.

(** Iterating a query set: one element for each of its rows. The model
    lists the rows by key; the database lists them in the order of the
    model's [Meta.ordering]. What is stated about the export below is about
    which entries a file holds, not about their order. *)
Definition rows {F} (t : gmap Z F) : list F := (map_to_list t).*2.

Fixpoint mapM {A B} (f : A → Py.result B) (l : list A) : Py.result (list B) :=
  match l with
  | [] => Py.ret []
  | a :: l' => do b <- f a; do bs <- mapM f l'; Py.ret (b :: bs)
  end.

(** [len(data)] in a message *)
Definition count {A} (l : list A) : string := pretty (Z.of_nat (length l)).

(** The name of an optional related row reached through a nullable
    foreign key: [x.name if x else None]. A key that points at no row
    makes the attribute access raise. *)
Definition related_name {F} (model : string) (name : F → string)
    (t : gmap Z F) (fk : option Z) : Py.result json :=
  match fk with
  | None => Py.ret JNull
  | Some k =>
      match t !! k with
      | Some r => Py.ret (JStr (name r))
      | None => Py.raise (Py.DoesNotExist model)
      end
  end.

Definition json_date (d : option Date.t) : json :=
  match d with Some d => JStr (Date.isoformat d) | None => JNull end.

(** [export_profile] *)
Definition export_profile (w : World) : Py.result World :=
  match Orm.qs_get "Profile"
          (Orm.qs_filter Profile.is_active (profiles (db w))) with
  | inr profile =>
      let profile := fields profile in
      let data := JDict [
        ("name", JStr (Profile.name profile));
        ("title", JStr (Profile.job_title profile));
        ("bio", JStr (Profile.bio profile));
        ("summary", JStr (Profile.summary profile));
        ("email", JStr (Profile.email profile));
        ("phone", JStr (Profile.phone profile));
        ("location", JStr (Profile.location profile));
        ("social", JDict [
           ("github", json_opt (Profile.github_url profile));
           ("linkedin", json_opt (Profile.linkedin_url profile));
           ("twitter", json_opt (Profile.twitter_url profile));
           ("website", json_opt (Profile.website_url profile))])] in
      Py.ret (write PLAIN "  ✓ Exported profile.json"
                (dump "profile.json" data w))
  | inl (Py.DoesNotExist _) =>
      Py.ret (write WARNING "  ✗ No profile found" w)
  | inl e => Py.raise e
  end.

(** [export_skills]; [select_related('area')] joins every skill with its
    area. *)
Definition export_skills (w : World) : Py.result World :=
  let data :=
    omap (λ skill,
            match skill_areas (db w) !! Skill.area_id skill with
            | None => None
            | Some area =>
                Some (JDict [
                  ("area", JStr (SkillArea.name area));
                  ("name", JStr (Skill.name skill));
                  ("slug", JStr (Skill.slug skill));
                  ("sfia_level", JStr (Skill.sfia_level skill));
                  ("industry_level", JStr (Skill.industry_level skill));
                  ("sector", JStr (Skill.sector skill));
                  ("description", JStr (Skill.description skill));
                  ("years_experience",
                     match Skill.years_experience skill with
                     | Some y => if y =? 0 then JNull else JFloat y
                     | None => JNull
                     end);
                  ("is_featured", JBool (Skill.is_featured skill))])
            end)
         (rows (skills (db w))) in
  Py.ret (write PLAIN ("  ✓ Exported " +:+ count data +:+ " skills")
            (dump "skills.json" (JList data) w)).

(** [export_projects] *)
Definition export_projects (w : World) : Py.result World :=
  do data <-
    mapM (λ project,
            do category <-
              related_name "ProjectCategory" ProjectCategory.name
                (project_categories (db w)) (Project.category_id project);
            Py.ret (JDict [
              ("title", JStr (Project.title project));
              ("slug", JStr (Project.slug project));
              ("category", category);
              ("start_date", JStr (Date.isoformat (Project.start_date project)));
              ("end_date", json_date (Project.end_date project));
              ("is_ongoing", JBool (Project.is_ongoing project));
              ("star", JDict [
                 ("situation", JStr (Project.situation project));
                 ("task", JStr (Project.task project));
                 ("action", JStr (Project.action project));
                 ("result", JStr (Project.result project))]);
              ("technologies", Project.technologies project);
              ("github_url", json_opt (Project.github_url project));
              ("live_demo_url", json_opt (Project.live_demo_url project));
              ("is_featured", JBool (Project.is_featured project))]))
         (rows (projects (db w)));
  Py.ret (write PLAIN ("  ✓ Exported " +:+ count data +:+ " projects")
            (dump "projects.json" (JList data) w)).

(** [export_experience] *)
Definition export_experience (w : World) : Py.result World :=
  let data :=
    map (λ exp,
           JDict [
             ("role", JStr (Experience.role exp));
             ("company", JStr (Experience.company exp));
             ("location", JStr (Experience.location exp));
             ("start_date", JStr (Date.isoformat (Experience.start_date exp)));
             ("end_date", json_date (Experience.end_date exp));
             ("is_current", JBool (Experience.is_current exp));
             ("star", JDict [
                ("situation", JStr (Experience.situation exp));
                ("task", JStr (Experience.task exp));
                ("action", JStr (Experience.action exp));
                ("result", JStr (Experience.result exp))]);
             ("company_url", json_opt (Experience.company_url exp))])
        (rows (experiences (db w))) in
  Py.ret (write PLAIN ("  ✓ Exported " +:+ count data +:+ " experiences")
            (dump "experience.json" (JList data) w)).

(** [export_certifications] *)
Definition export_certifications (w : World) : Py.result World :=
  let data :=
    map (λ cert,
           JDict [
             ("title", JStr (Certification.title cert));
             ("type", JStr (Certification.cert_type cert));
             ("issuing_authority", JStr (Certification.issuing_authority cert));
             ("issue_date", JStr (Date.isoformat (Certification.issue_date cert)));
             ("expiry_date", json_date (Certification.expiry_date cert));
             ("credential_id", JStr (Certification.credential_id cert));
             ("credential_url", json_opt (Certification.credential_url cert));
             ("icon_class", JStr (Certification.icon_class cert));
             ("color_class", JStr (Certification.color_class cert));
             ("is_featured", JBool (Certification.is_featured cert))])
        (rows (certifications (db w))) in
  Py.ret (write PLAIN ("  ✓ Exported " +:+ count data +:+ " certifications")
            (dump "certifications.json" (JList data) w)).

(** [export_blog] *)
Definition export_blog (w : World) : Py.result World :=
  let posts :=
    Orm.qs_filter (λ p, String.eqb (BlogPost.status p) "published")
      (blog_posts (db w)) in
  do data <-
    mapM (λ post,
            do series <-
              related_name "BlogSeries" BlogSeries.name
                (blog_series (db w)) (BlogPost.series_id post);
            do category <-
              related_name "BlogCategory" BlogCategory.name
                (blog_categories (db w)) (BlogPost.category_id post);
            Py.ret (JDict [
              ("title", JStr (BlogPost.title post));
              ("slug", JStr (BlogPost.slug post));
              ("series", series);
              ("category", category);
              ("excerpt", JStr (BlogPost.excerpt post));
              ("content", JStr (BlogPost.content post));
              ("published_date",
                 match BlogPost.published_date post with
                 | Some d => JStr (DateTime.isoformat d)
                 | None => JNull
                 end);
              ("reading_time", JInt (BlogPost.reading_time post));
              ("is_featured", JBool (BlogPost.is_featured post))]))
         (rows posts);
  Py.ret (write PLAIN ("  ✓ Exported " +:+ count data +:+ " blog posts")
            (dump "blog.json" (JList data) w)).

(** [export_site_settings]: the settings come from
    [SiteSettings.get_settings], and the bare [except] turns any exception
    into the warning. *)
Definition export_site_settings (w : World) : Py.result World :=
  match SiteSettings.get_settings (site_settings (db w)) with
  | inr (settings, table) =>
      let w := {| db := set_site_settings table (db w);
                  files := files w; stdout := stdout w |} in
      let settings := fields settings in
      let data := JDict [
        ("site_title", JStr (SiteSettings.site_title settings));
        ("site_tagline", JStr (SiteSettings.site_tagline settings));
        ("site_description", json_opt (SiteSettings.site_description settings));
        ("contact_email", JStr (SiteSettings.contact_email settings));
        ("contact_phone", json_opt (SiteSettings.contact_phone settings));
        ("social", JDict [
           ("github", json_opt (SiteSettings.github_url settings));
           ("linkedin", json_opt (SiteSettings.linkedin_url settings));
           ("twitter", json_opt (SiteSettings.twitter_url settings))]);
        ("features", JDict [
           ("enable_blog", JBool (SiteSettings.enable_blog settings));
           ("enable_contact_form",
              JBool (SiteSettings.enable_contact_form settings))])] in
      Py.ret (write PLAIN "  ✓ Exported site.json" (dump "site.json" data w))
  | inl _ =>
      Py.ret (write WARNING "  ✗ No site settings found" w)
  end.

(** [handle]: the seven exports in order; an exception that an export
    does not catch ends the run. *)
Definition handle (w : World) : Py.result World :=
  let w := write PLAIN "Exporting portfolio data to JSON..." w in
  do w <- export_profile w;
  do w <- export_skills w;
  do w <- export_projects w;
  do w <- export_experience w;
  do w <- export_certifications w;
  do w <- export_blog w;
  do w <- export_site_settings w;
  Py.ret (write SUCCESS "✓ Export completed!" w).

End Command.

(** ** Vocabulary of the statements *)

(** The singleton invariant of the data model: at most one row of the
    table is active. *)
Definition at_most_one_active {F} (active : F → bool) (db : gmap Z F) : Prop :=
  ∀ k1 k2 r1 r2,
    db !! k1 = Some r1 → db !! k2 = Some r2 →
    active r1 = true → active r2 = true → k1 = k2.

(** The slug [slug] names the published post [p], stored under [k], and
    no other published post (the slug column is unique). *)
Definition names_published (slug : string) (k : Z) (p : BlogPost.t)
    (posts : gmap Z BlogPost.t) : Prop :=
  posts !! k = Some p
  ∧ BlogPost.status p = "published"
  ∧ BlogPost.slug p = slug
  ∧ ∀ k' p', posts !! k' = Some p' → BlogPost.status p' = "published" →
             BlogPost.slug p' = slug → k' = k.

(** Letters and digits, spelled out; the statements about letter case and
    about slugs are written with these, not with the character tests of
    the code. *)
Module Alphabet.

Definition capitals : list ascii :=
  list_ascii_of_string "ABCDEFGHIJKLMNOPQRSTUVWXYZ".
Definition smalls : list ascii :=
  list_ascii_of_string "abcdefghijklmnopqrstuvwxyz".
Definition digits : list ascii := list_ascii_of_string "0123456789".

(** [c] looked up in [from] and replaced by the character at the same
    place of [to]; a character that is not in [from] stays. *)
Fixpoint translate (from to : list ascii) (c : ascii) : ascii :=
  match from, to with
  | f :: from', t :: to' => if Ascii.eqb c f then t else translate from' to' c
  | _, _ => c
  end.

(** The small letter of a capital letter A-Z. *)
Definition small (c : ascii) : ascii := translate capitals smalls c.

Definition is_letter_or_digit (c : ascii) : bool :=
  existsb (Ascii.eqb c) (capitals ++ smalls ++ digits).

(** The letters and digits of a text, in their order. *)
Definition letters_and_digits (s : list ascii) : list ascii :=
  filter (λ c, is_letter_or_digit c = true) s.

(** The words [words] written one after the other with [sep] between
    them. *)
Fixpoint join (sep : ascii) (words : list (list ascii)) : list ascii :=
  match words with
  | [] => []
  | w :: rest =>
      match rest with
      | [] => w
      | _ :: _ => (w ++ sep :: join sep rest)%list
      end
  end.

(** A capital letter of the Latin-1 supplement (À to Þ, without the
    multiplication sign) as UTF-8 writes it: the byte 0xC3, then a byte
    from 0x80 to 0x9E other than 0x97. The small letter has the second
    byte 0x20 higher. *)
Definition is_latin1_capital (lead c : ascii) : bool :=
  (N_of_ascii lead =? 195)%N
  && (128 <=? N_of_ascii c)%N && (N_of_ascii c <=? 158)%N
  && negb (N_of_ascii c =? 151)%N.

(** Case folding of text held as UTF-8, for the letters A-Z and the
    letters of the Latin-1 supplement; every other character is left as
    it is. *)
Fixpoint fold_case (s : list ascii) : list ascii :=
  match s with
  | [] => []
  | c :: tail =>
      match tail with
      | d :: rest =>
          if is_latin1_capital c d
          then c :: ascii_of_N (N_of_ascii d + 32) :: fold_case rest
          else small c :: fold_case tail
      | [] => [small c]
      end
  end.

End Alphabet.

(** [q] occurs in [s] as a substring once the case of letters is
    ignored: of the letters A-Z and of accented letters alike. *)
Definition case_insensitive_substring (q s : string) : Prop :=
  ∃ pre post,
    Alphabet.fold_case (list_ascii_of_string s)
    = (pre ++ Alphabet.fold_case (list_ascii_of_string q) ++ post)%list.

(** [q] occurs in [s] as a substring once the case of the letters A-Z is
    ignored; every other character has to be the same. *)
Definition ascii_case_insensitive_substring (q s : string) : Prop :=
  ∃ pre post,
    map Alphabet.small (list_ascii_of_string s)
    = (pre ++ map Alphabet.small (list_ascii_of_string q) ++ post)%list.

(** The project [p] passes the free-text filter of the request: no [q]
    parameter selects every project, a parameter [q] the projects whose
    title, situation or action has it as a substring. *)
Definition search_matches (request : HttpRequest) (p : Project.t) : Prop :=
  match GET request !! "q" with
  | None => True
  | Some q =>
      ascii_case_insensitive_substring q (Project.title p)
      ∨ ascii_case_insensitive_substring q (Project.situation p)
      ∨ ascii_case_insensitive_substring q (Project.action p)
  end.

(** The project [p] passes the category filter of the request: no
    [category] parameter or an empty one selects every project, any other
    value selects the projects whose category has that slug. *)
Definition category_matches (request : HttpRequest)
    (categories : gmap Z ProjectCategory.t) (p : Project.t) : Prop :=
  match GET request !! "category" with
  | None => True
  | Some c =>
      c = "" ∨ ∃ cid cat, Project.category_id p = Some cid
                          ∧ categories !! cid = Some cat
                          ∧ ProjectCategory.slug cat = c
  end.

(** Every foreign key that the export follows points at a stored row:
    the category of a project, the series and the category of a blog
    post. *)
Definition references_resolve (d : Database) : Prop :=
  (∀ k p cid, projects d !! k = Some p → Project.category_id p = Some cid →
              is_Some (project_categories d !! cid))
  ∧ (∀ k p sid, blog_posts d !! k = Some p → BlogPost.series_id p = Some sid →
                is_Some (blog_series d !! sid))
  ∧ (∀ k p cid, blog_posts d !! k = Some p → BlogPost.category_id p = Some cid →
                is_Some (blog_categories d !! cid)).

(** The path of an exported file. *)
Definition exported (name : string) : string :=
  Command.data_dir +:+ "/" +:+ name.

(** ** Sample data for the worked examples *)

Module Sample.

(** ASCII text, which NFKD normalisation leaves as it is. *)
Definition ascii_text : Unicode :=
  {| nfkd := λ s, s; nfkd_ascii := λ s _, eq_refl |}.

Definition now : DateTime.t := DateTime.Make (Date.Make 2024 1 15) 9 30 0 0.
Definition later : DateTime.t := DateTime.Make (Date.Make 2024 2 1) 8 0 0 0.

Definition profile (name : string) : Profile.t :=
  Profile.Row name "Engineer" "bio" "summary" "me@example.com" ""
    "Hanoi" None None None None "" true.

Definition settings : SiteSettings.t :=
  SiteSettings.Row "My site" "" None "" None "owner@example.com" None
    None None None true true false true.

Definition project (title slug : string) (category : option Z) : Project.t :=
  Project.Row title slug None category (Date.Make 2023 5 1) None false
    "A shop needed an API" "Build it" "Built with Django REST" "Shipped"
    None None (JList [JStr "Python"]) false 0.

Definition post (status : string) (published : option DateTime.t) : BlogPost.t :=
  BlogPost.Row "Hello World" "hello-world" None None "excerpt" "content"
    status published "" "" 5 41 false 0.

Definition experience : Experience.t :=
  Experience.Row "Developer" "ACME" "Hanoi" (Date.Make 2020 1 15)
    (Some (Date.Make 2021 3 15)) false "s" "t" "a" "r" None 0.

Definition current_experience : Experience.t :=
  Experience.Row "Developer" "ACME" "Hanoi" (Date.Make 2024 1 1)
    None true "s" "t" "a" "r" None 0.

Definition certification (expiry : option Date.t) : Certification.t :=
  Certification.Row "Cloud Architect" "certification" "Vendor"
    (Date.Make 2022 6 1) expiry "" None "" "bg-blue-500" false.

Definition empty_database : Database :=
  {| profiles := ∅; skill_areas := ∅; skills := ∅; project_categories := ∅;
     projects := ∅; experiences := ∅; certifications := ∅; blog_series := ∅;
     blog_categories := ∅; blog_posts := ∅; site_settings := ∅ |}.

Definition empty_world : Command.World :=
  {| Command.db := empty_database; Command.files := ∅; Command.stdout := [] |}.

Definition search (q : string) : HttpRequest := {| GET := {[ "q" := q ]} |}.

End Sample.

(** ** [core/models.py], [core/views.py]: the contact form *)

(** [django.utils.ipv6.clean_ipv6_address], which parses the text with the
    [ipaddress] module of the standard library and is not part of the
    application: the address in its canonical short form, or [None] where
    the library raises [ValidationError]. It is taken as an operation on
    text. *)
Class Ipv6 : Type := { clean_ipv6_address : string → option string }.

(** Text as Python sees it: a sequence of characters, held here as the
    bytes of its UTF-8 form. A character begins at every byte that is not a
    continuation byte (binary 10xxxxxx). *)
Module Utf8.

Definition is_continuation (c : ascii) : bool :=
  (128 <=? Text.code c) && (Text.code c <=? 191).

(** [len(s)] *)
Definition len (s : list ascii) : nat :=
  length (filter (λ c, is_continuation c = false) s).

(** [s[:n]]: the first [n] characters, each with its continuation
    bytes. *)
Fixpoint slice_to (n : nat) (s : list ascii) : list ascii :=
  match s with
  | [] => []
  | c :: r =>
      if is_continuation c then c :: slice_to n r
      else match n with
           | O => []
           | S n' => c :: slice_to n' r
           end
  end.

End Utf8.

Module ContactMessage.

Record t : Type := Row {
  name : string;
  email : string;
  subject : string;
  message : string;
  status : string;
  ip_address : option string;
  user_agent : string;
  admin_notes : option string;
  replied_at : option DateTime.t
}.

Definition set_status (s : string) (r : t) : t :=
  Row (name r) (email r) (subject r) (message r) s (ip_address r)
      (user_agent r) (admin_notes r) (replied_at r).

Definition set_replied_at (d : option DateTime.t) (r : t) : t :=
  Row (name r) (email r) (subject r) (message r) (status r) (ip_address r)
      (user_agent r) (admin_notes r) d.

(** [GenericIPAddressField.get_db_prep_value]: what is written to the
    column for the attribute [value]. Text with a colon that parses as an
    IPv6 address is written in its canonical form, other text as it is, and
    the empty text as NULL. (The column of the default database, SQLite, is
    a [char(39)] that takes any text.) *)
Definition ip_address_column `{Ipv6} (value : option string) : option string :=
  match value with
  | None => None
  | Some value =>
      let prepared :=
        if Py.truthy value
           && existsb (Ascii.eqb ":"%char) (list_ascii_of_string value)
        then match clean_ipv6_address value with
             | Some address => address
             | None => value
             end
        else value in
      if Py.truthy prepared then Some prepared else None
  end.

(** The row that [Model.save] writes for an instance: every attribute
    goes through its field; only the address field changes its value. *)
Definition stored `{Ipv6} (r : t) : t :=
  Row (name r) (email r) (subject r) (message r) (status r)
      (ip_address_column (ip_address r)) (user_agent r) (admin_notes r)
      (replied_at r).

End ContactMessage.

Module ContactView.

(** The four fields of [ContactForm], after validation. *)
Record cleaned_data : Type := Form {
  form_name : string;
  form_email : string;
  form_subject : string;
  form_message : string
}.

(** [s.split(sep)[0]]: the characters before the first separator. *)
Fixpoint before (sep : ascii) (s : list ascii) : list ascii :=
  match s with
  | [] => []
  | c :: r => if Ascii.eqb c sep then [] else c :: before sep r
  end.

(** [s[:n]] on a value of [request.META]. The server hands a header over
    with every byte of it as one character (headers are decoded as
    ISO-8859-1), so the characters of such a value are its bytes. *)
Definition slice_to (n : nat) (s : string) : string :=
  string_of_list_ascii (take n (list_ascii_of_string s)).

(** [get_client_ip]; [META] is [request.META]. *)
Definition get_client_ip (META : gmap string string) : option string :=
  match META !! "HTTP_X_FORWARDED_FOR" with
  | Some x_forwarded_for =>
      if Py.truthy x_forwarded_for
      then Some (string_of_list_ascii
                   (before ","%char (list_ascii_of_string x_forwarded_for)))
      else META !! "REMOTE_ADDR"
  | None => META !! "REMOTE_ADDR"
  end.

(** What [form_valid] leaves behind: the message instance, the table, the
    flash message and the address of the redirect. *)
Record outcome : Type := {
  contact : Instance ContactMessage.t;
  contact_messages : gmap Z ContactMessage.t;
  flash : string;
  redirect_to : string
}.

(** [form_valid]: [form.save(commit=False)] builds a new message from the
    four form fields, every other column at its default; the address and
    the first 500 characters of the user agent are filled in and the
    message is saved. The instance keeps the attributes it was given; the
    table receives the row the fields make of them. *)
Definition form_valid `{Ipv6} (META : gmap string string) (form : cleaned_data)
    (db : gmap Z ContactMessage.t) : outcome :=
  let contact :=
    ContactMessage.Row (form_name form) (form_email form) (form_subject form)
      (form_message form) "new" None "" None None in
  let contact :=
    ContactMessage.Row (ContactMessage.name contact)
      (ContactMessage.email contact) (ContactMessage.subject contact)
      (ContactMessage.message contact) (ContactMessage.status contact)
      (get_client_ip META)
      (slice_to 500 (default "" (META !! "HTTP_USER_AGENT")))
      (ContactMessage.admin_notes contact) (ContactMessage.replied_at contact) in
  let saved := Orm.Model_save (Obj None (ContactMessage.stored contact)) db in
  {| contact := Obj (pk saved.1) contact; contact_messages := saved.2;
     flash := "Thank you for your message! I will get back to you soon.";
     redirect_to := "/contact/" |}.

End ContactView.

(** ** [core/views.py]: the other listings and detail pages *)

Module SkillsListView.

(** The lookup [area__slug=a] *)
Definition area_slug_is (areas : gmap Z SkillArea.t) (a : string)
    (s : Skill.t) : bool :=
  match areas !! Skill.area_id s with
  | Some area => String.eqb (SkillArea.slug area) a
  | None => false
  end.

(** [SkillsListView.get_queryset]; [select_related('area')] joins every
    skill with its area. *)
Definition get_queryset (request : HttpRequest)
    (areas : gmap Z SkillArea.t) (skills : gmap Z Skill.t) : gmap Z Skill.t :=
  let qs :=
    Orm.qs_filter (λ s, bool_decide (is_Some (areas !! Skill.area_id s))) skills in
  let qs :=
    match GET request !! "level" with
    | Some level =>
        if Py.truthy level
        then Orm.qs_filter (λ s, String.eqb (Skill.sfia_level s) level) qs
        else qs
    | None => qs
    end in
  let qs :=
    match GET request !! "sector" with
    | Some sector =>
        if Py.truthy sector
        then Orm.qs_filter (λ s, String.eqb (Skill.sector s) sector) qs
        else qs
    | None => qs
    end in
  let qs :=
    match GET request !! "area" with
    | Some area =>
        if Py.truthy area then Orm.qs_filter (area_slug_is areas area) qs else qs
    | None => qs
    end in
  qs.

End SkillsListView.

Module ProjectDetailView.

(** [ProjectDetailView.get_object]: [get_object_or_404(..., slug=slug)]. *)
Definition get_object (slug : string) (projects : gmap Z Project.t)
  : Py.result (Instance Project.t) :=
  match Orm.qs_get "Project"
          (Orm.qs_filter (λ p, String.eqb (Project.slug p) slug) projects) with
  | inl (Py.DoesNotExist _) => Py.raise Py.Http404
  | r => r
  end.

End ProjectDetailView.

Module BlogListView.

(** [BlogListView.get_queryset] *)
Definition get_queryset (posts : gmap Z BlogPost.t) : gmap Z BlogPost.t :=
  Orm.qs_filter (λ p, String.eqb (BlogPost.status p) "published") posts.

End BlogListView.

(** ** [core/context_processors.py] *)

Record TemplateContext : Type := {
  ctx_site_settings : option (Instance SiteSettings.t);
  ctx_sfia_levels : json;
  ctx_portfolio_settings : json
}.

Module ContextProcessors.

(** [site_settings(request)]: the settings come from [get_settings], [None]
    when it raises; [SFIA_LEVELS] and [PORTFOLIO_SETTINGS] are the two
    values of the settings module. The second component is the settings
    table after the call. *)
Definition site_settings (SFIA_LEVELS PORTFOLIO_SETTINGS : json)
    (request : HttpRequest) (db : gmap Z SiteSettings.t)
  : TemplateContext * gmap Z SiteSettings.t :=
  let '(site_config, db) :=
    match SiteSettings.get_settings db with
    | inr (settings, db') => (Some settings, db')
    | inl _ => (None, db)
    end in
  ({| ctx_site_settings := site_config;
      ctx_sfia_levels := SFIA_LEVELS;
      ctx_portfolio_settings := PORTFOLIO_SETTINGS |}, db).

End ContextProcessors.

(** ** [core/admin.py] *)

Module Admin.

(** [queryset.update(...)] for an admin action: the query set is the rows
    the administrator ticked, given by their keys. The rows are rewritten
    by [f]; the count of rows matched is returned with the table. *)
Definition update_selected {F} (selected : gset Z) (f : F → F)
    (t : gmap Z F) : gmap Z F * Z :=
  (map_imap (λ k r, Some (if bool_decide (k ∈ selected) then f r else r)) t,
   Z.of_nat (size (filter (λ kv, kv.1 ∈ selected) t))).

End Admin.

Module BlogPostAdmin.

Definition set_status (s : string) (r : BlogPost.t) : BlogPost.t :=
  BlogPost.Row (BlogPost.title r) (BlogPost.slug r) (BlogPost.series_id r)
    (BlogPost.category_id r) (BlogPost.excerpt r) (BlogPost.content r) s
    (BlogPost.published_date r) (BlogPost.meta_description r)
    (BlogPost.meta_keywords r) (BlogPost.reading_time r)
    (BlogPost.view_count r) (BlogPost.is_featured r) (BlogPost.order r).

(** [publish_posts]: the new table and the message shown to the user. *)
Definition publish_posts (now : DateTime.t) (queryset : gset Z)
    (posts : gmap Z BlogPost.t) : gmap Z BlogPost.t * string :=
  let '(posts, updated) :=
    Admin.update_selected queryset
      (λ r, BlogPost.set_published_date (Some now) (set_status "published" r))
      posts in
  (posts, pretty updated +:+ " post(s) published successfully.").

(** [archive_posts] *)
Definition archive_posts (queryset : gset Z) (posts : gmap Z BlogPost.t)
  : gmap Z BlogPost.t * string :=
  let '(posts, updated) :=
    Admin.update_selected queryset (set_status "archived") posts in
  (posts, pretty updated +:+ " post(s) archived.").

End BlogPostAdmin.

Module ContactMessageAdmin.

(** [subject_preview]; the subject is text of the database, counted and
    cut in characters. *)
Definition subject_preview (obj : ContactMessage.t) : string :=
  if (50 <? Utf8.len (list_ascii_of_string (ContactMessage.subject obj)))%nat
  then string_of_list_ascii
         (Utf8.slice_to 50 (list_ascii_of_string (ContactMessage.subject obj)))
       +:+ "..."
  else ContactMessage.subject obj.

(** [mark_as_read] *)
Definition mark_as_read (queryset : gset Z) (msgs : gmap Z ContactMessage.t)
  : gmap Z ContactMessage.t * string :=
  let '(msgs, updated) :=
    Admin.update_selected queryset (ContactMessage.set_status "read") msgs in
  (msgs, pretty updated +:+ " message(s) marked as read.").

(** [mark_as_replied] *)
Definition mark_as_replied (now : DateTime.t) (queryset : gset Z)
    (msgs : gmap Z ContactMessage.t) : gmap Z ContactMessage.t * string :=
  let '(msgs, updated) :=
    Admin.update_selected queryset
      (λ r, ContactMessage.set_replied_at (Some now)
              (ContactMessage.set_status "replied" r)) msgs in
  (msgs, pretty updated +:+ " message(s) marked as replied.").

End ContactMessageAdmin.

Module ExperienceAdmin.

(** [duration_display]: the duration, or a dash when reading it raises. *)
Definition duration_display (globals : gmap string binding)
    (now : DateTime.t) (obj : Experience.t) : string :=
  match Experience.duration globals now obj with
  | inr d => d
  | inl _ => "-"
  end.

End ExperienceAdmin.

Module SiteSettingsAdmin.

(** [has_add_permission] *)
Definition has_add_permission (request : HttpRequest)
    (db : gmap Z SiteSettings.t) : bool :=
  negb (Orm.qs_exists db).

(** [has_delete_permission] *)
Definition has_delete_permission (request : HttpRequest)
    (obj : option (Instance SiteSettings.t)) : bool := false.

End SiteSettingsAdmin.

(** ** [core/sitemaps.py] and the route of a blog post in [core/urls.py] *)

Module Urls.

(** The [slug] path converter accepts [[-a-zA-Z0-9_]+]. *)
Definition slug_converter_char (c : ascii) : bool :=
  Text.is_hyphen c || Text.is_upper c || Text.is_lower c || Text.is_digit c
  || Text.is_underscore c.

Definition slug_converter_matches (s : string) : bool :=
  Py.truthy s && forallb slug_converter_char (list_ascii_of_string s).

(** The outcome of [reverse]: a URL, or [NoReverseMatch]. *)
Inductive reversed : Type :=
| Url (path : string)
| NoReverseMatch.

(** [reverse('core:blog_post', args=[slug])] for the route
    [blog/<slug:slug>/] of the application mounted at the site root. *)
Definition reverse_blog_post (slug : string) : reversed :=
  if slug_converter_matches slug
  then Url ("/blog/" +:+ slug +:+ "/")
  else NoReverseMatch.

End Urls.

Module BlogPostSitemap.

(** [items] *)
Definition items (posts : gmap Z BlogPost.t) : gmap Z BlogPost.t :=
  Orm.qs_filter (λ p, String.eqb (BlogPost.status p) "published") posts.

(** [location] *)
Definition location (obj : BlogPost.t) : Urls.reversed :=
  Urls.reverse_blog_post (BlogPost.slug obj).

End BlogPostSitemap.

(** ** Vocabulary of the further statements *)

(** The files after an export step that wrote the document [doc] to
    [name], or wrote nothing. *)
Definition put_file (name : string) (doc : option json)
    (files : gmap string json) : gmap string json :=
  match doc with
  | Some content => <[exported name := content]> files
  | None => files
  end.

(** The world after an export step that printed [out] and wrote [doc]. *)
Definition after_step (name : string) (out : Command.style * string)
    (doc : option json) (w : Command.World) : Command.World :=
  {| Command.db := Command.db w;
     Command.files := put_file name doc (Command.files w);
     Command.stdout := (Command.stdout w ++ [out])%list |}.

(** [d'] holds the same content as [d], the settings table apart. *)
Definition same_content (d d' : Database) : Prop :=
  d' = set_site_settings (site_settings d') d.

(** ** Sample data for the further examples *)

Module Demo.

Definition two_settings : gmap Z SiteSettings.t :=
  {[ 1 := Sample.settings; 2 := SiteSettings.default_row ]}.

Definition two_profiles : gmap Z Profile.t :=
  {[ 1 := Sample.profile "Ann"; 2 := Sample.profile "Bao" ]}.

Definition world (profiles : gmap Z Profile.t)
    (settings : gmap Z SiteSettings.t) : Command.World :=
  {| Command.db :=
       {| profiles := profiles; skill_areas := ∅; skills := ∅;
          project_categories := ∅; projects := ∅; experiences := ∅;
          certifications := ∅; blog_series := ∅; blog_categories := ∅;
          blog_posts := ∅; site_settings := settings |};
     Command.files := ∅; Command.stdout := [] |}.

Definition untitled_post : BlogPost.t :=
  BlogPost.Row "Hello, World!" "" None None "excerpt" "content" "draft" None
    "" "" 5 0 false 0.

Definition backend : SkillArea.t :=
  SkillArea.Row "Backend" "backend" None "" "bg-blue-500" 0.

Definition python : Skill.t :=
  Skill.Row 1 "Python" None "backend-python" "L3" "practitioner" "other"
    "Python development" None "" false 0.

Definition message (subject : string) : ContactMessage.t :=
  ContactMessage.Row "Ann" "ann@example.com" subject "Hello" "new" None ""
    None None.

Definition behind_proxy : gmap string string :=
  {[ "HTTP_X_FORWARDED_FOR" := "203.0.113.7, 10.0.0.1";
     "REMOTE_ADDR" := "10.0.0.1" ]}.

(** The IPv6 addresses of the examples, as the library writes them. *)
Definition known_addresses : Ipv6 :=
  {| clean_ipv6_address := λ s,
       if String.eqb s "2001:0DB8:0000:0000:0000:0000:0000:0001"
       then Some "2001:db8::1"
       else if String.eqb s "::1" then Some "::1"
       else None |}.

Definition from_ipv6 : gmap string string :=
  {[ "REMOTE_ADDR" := "2001:0DB8:0000:0000:0000:0000:0000:0001";
     "HTTP_USER_AGENT" := "curl/8.5.0" ]}.

(** A series, its published post and a draft. *)
Definition blog_world : Command.World :=
  {| Command.db :=
       {| profiles := ∅; skill_areas := ∅; skills := ∅;
          project_categories := ∅; projects := ∅; experiences := ∅;
          certifications := ∅;
          blog_series := {[ 2 := BlogSeries.Row "Django notes" "django-notes" "" 0 ]};
          blog_categories := ∅;
          blog_posts :=
            {[ 1 := BlogPost.Row "Hello World" "hello-world" (Some 2) None
                      "excerpt" "content" "published" (Some Sample.now)
                      "" "" 5 41 true 0;
               2 := BlogPost.Row "Not yet" "not-yet" None None "excerpt"
                      "content" "draft" None "" "" 3 0 false 0 ]};
          site_settings := ∅ |};
     Command.files := ∅; Command.stdout := [] |}.

(** A profile with two of its links filled in. *)
Definition linked_profile (name : string) : Profile.t :=
  Profile.Row name "Engineer" "bio" "summary" "me@example.com" "+84 24 0000"
    "Hanoi" (Some "https://github.com/ann") None
    (Some "https://twitter.com/ann") (Some "https://ann.example.com") "" true.

(** A profile that has been switched off. *)
Definition retired_profile : Profile.t :=
  Profile.Row "Ann" "Engineer" "bio" "summary" "me@example.com" ""
    "Hanoi" None None None None "" false.

(** A published post whose view counter stands at the top of the range. *)
Definition most_viewed : BlogPost.t :=
  BlogPost.Row "Hello World" "hello-world" None None "excerpt" "content"
    "published" (Some Sample.now) "" "" 5 9223372036854775807 false 0.

End Demo.

(** * Properties *)

(** ** Singleton enforcement *)

Section Singleton.
Context {F : Type} (active : F → bool) (off : F → F).
Hypothesis off_inactive : ∀ r, active (off r) = false.

Let save (self : Instance F) (db : gmap Z F) : Instance F * gmap Z F :=
  Orm.Model_save self
    (if active (fields self) then Orm.qs_update active off db else db).

Lemma update_lookup (db : gmap Z F) k r :
  Orm.qs_update active off db !! k = Some r → active r = false.
Proof.
  unfold Orm.qs_update. rewrite lookup_fmap.
  destruct (db !! k) as [r0|] eqn:E; simpl; [|done].
  intros [= <-]. destruct (active r0) eqn:Ea; auto.
Qed.

Lemma update_no_active (db : gmap Z F) :
  Orm.qs_filter active (Orm.qs_update active off db) = ∅.
Proof.
  unfold Orm.qs_filter. apply map_empty. intros k.
  apply map_lookup_filter_None. right. intros r Hr. simpl.
  apply update_lookup in Hr. congruence.
Qed.

Lemma Model_save_pk (self : Instance F) (db : gmap Z F) :
  ∃ k, pk (Orm.Model_save self db).1 = Some k
       ∧ fields (Orm.Model_save self db).1 = fields self
       ∧ (Orm.Model_save self db).2 = <[k := fields self]> db
       ∧ (pk self = None → db !! k = None)
       ∧ (∀ k0, pk self = Some k0 → k = k0).
Proof.
  unfold Orm.Model_save. destruct (pk self) as [k|] eqn:E.
  - exists k. simpl. repeat split; auto; congruence.
  - exists (fresh (dom db)). simpl. repeat split; auto; try congruence.
    intros _. apply not_elem_of_dom. apply is_fresh.
Qed.

Lemma save_active_rows (self : Instance F) (db : gmap Z F) :
  active (fields self) = true →
  ∃ k, pk (save self db).1 = Some k
       ∧ Orm.qs_filter active (save self db).2 = {[ k := fields self ]}.
Proof.
  intros Ha. unfold save. rewrite Ha.
  destruct (Model_save_pk self (Orm.qs_update active off db))
    as (k & Hk & _ & Hdb & _).
  exists k. split; [done|]. rewrite Hdb. unfold Orm.qs_filter.
  rewrite map_filter_insert_True by done.
  fold (Orm.qs_filter active (Orm.qs_update active off db)).
  rewrite update_no_active. apply insert_empty.
Qed.


(** At most one active row is an invariant of [save]. *)
Lemma save_keeps_at_most_one (self : Instance F) (db : gmap Z F) :
  at_most_one_active active db → at_most_one_active active (save self db).2.
Proof.
  intros Hinv. destruct (active (fields self)) eqn:Ha.
  - destruct (save_active_rows self db Ha) as (k & _ & Hf).
    intros k1 k2 r1 r2 H1 H2 A1 A2.
    assert (Orm.qs_filter active (save self db).2 !! k1 = Some r1) as E1
      by (apply map_lookup_filter_Some; done).
    assert (Orm.qs_filter active (save self db).2 !! k2 = Some r2) as E2
      by (apply map_lookup_filter_Some; done).
    rewrite Hf in E1, E2.
    apply lookup_singleton_Some in E1 as [<- _].
    apply lookup_singleton_Some in E2 as [<- _]. done.
  - unfold save. rewrite Ha.
    destruct (Model_save_pk self db) as (k & _ & _ & -> & _).
    intros k1 k2 r1 r2 H1 H2 A1 A2.
    apply lookup_insert_Some in H1 as [[_ <-]|[N1 H1]]; [congruence|].
    apply lookup_insert_Some in H2 as [[_ <-]|[N2 H2]]; [congruence|].
    eauto.
Qed.



End Singleton.


(** ** Publication date *)

Lemma before_save_published_date `{Unicode} now (self : Instance BlogPost.t) :
  BlogPost.published_date (fields (BlogPost.before_save now self))
  = match BlogPost.published_date (fields self) with
    | Some d => Some d
    | None =>
        if String.eqb (BlogPost.status (fields self)) "published"
        then Some now else None
    end.
Proof.
  unfold BlogPost.before_save.
  destruct (negb (Py.truthy (BlogPost.slug (fields self)))); simpl;
    destruct (BlogPost.published_date (fields self)) eqn:Ed; simpl;
    rewrite ?andb_false_r, ?andb_true_r; simpl; try (rewrite Ed; done);
    destruct (String.eqb (BlogPost.status (fields self)) "published");
    simpl; try rewrite Ed; done.
Qed.

Lemma before_save_status `{Unicode} now (self : Instance BlogPost.t) :
  BlogPost.status (fields (BlogPost.before_save now self))
  = BlogPost.status (fields self).
Proof.
  unfold BlogPost.before_save.
  destruct (negb (Py.truthy (BlogPost.slug (fields self)))); simpl;
    match goal with |- context [if ?c then _ else _] => destruct c end; done.
Qed.

Lemma before_save_view_count `{Unicode} now (self : Instance BlogPost.t) :
  BlogPost.view_count (fields (BlogPost.before_save now self))
  = BlogPost.view_count (fields self).
Proof.
  unfold BlogPost.before_save.
  destruct (negb (Py.truthy (BlogPost.slug (fields self)))); simpl;
    match goal with |- context [if ?c then _ else _] => destruct c end; done.
Qed.

Lemma before_save_pk `{Unicode} now (self : Instance BlogPost.t) :
  pk (BlogPost.before_save now self) = pk self.
Proof.
  unfold BlogPost.before_save.
  destruct (negb (Py.truthy (BlogPost.slug (fields self)))); simpl;
    match goal with |- context [if ?c then _ else _] => destruct c end; done.
Qed.

Lemma Model_save_stores {F} (self : Instance F) (db : gmap Z F) :
  ∃ k, pk (Orm.Model_save self db).1 = Some k
       ∧ fields (Orm.Model_save self db).1 = fields self
       ∧ (Orm.Model_save self db).2 !! k = Some (fields self).
Proof.
  destruct (Model_save_pk self db) as (k & Hk & Hf & Hdb & _).
  exists k. repeat split; [done..|]. rewrite Hdb. apply lookup_insert_eq.
Qed.

(** C3. A plain save of a blog post always goes through and stores the
    saved instance. When the post's status is "published" and it has no
    publication date, the save sets the date to the current instant; when
    the post already has a publication date, the save leaves it as it is,
    so a second save at a later instant keeps the date of the first. *)
Theorem publish_date_defaulting `{Unicode}
    (now later : DateTime.t) (self : Instance BlogPost.t)
    (db : gmap Z BlogPost.t) :
  ∃ self1 db1 self2 db2 k,
    BlogPost.save now None self db = inr (self1, db1)
    ∧ pk self1 = Some k ∧ db1 !! k = Some (fields self1)
    ∧ (BlogPost.status (fields self) = "published" →
       BlogPost.published_date (fields self) = None →
       BlogPost.published_date (fields self1) = Some now)
    ∧ (∀ d, BlogPost.published_date (fields self) = Some d →
            BlogPost.published_date (fields self1) = Some d)
    ∧ BlogPost.save later None self1 db1 = inr (self2, db2)
    ∧ pk self2 = Some k ∧ db2 !! k = Some (fields self2)
    ∧ (BlogPost.status (fields self) = "published" →
       BlogPost.published_date (fields self) = None →
       BlogPost.published_date (fields self2) = Some now).
Proof.
  unfold BlogPost.save.
  destruct (Model_save_stores (BlogPost.before_save now self) db)
    as (k & Hk & Hf & Hl).
  set (r1 := Orm.Model_save (BlogPost.before_save now self) db) in *.
  destruct (Model_save_pk (BlogPost.before_save later r1.1) r1.2)
    as (k2 & Hk2 & Hf2 & Hdb2 & _ & Hsame).
  assert (k2 = k) as ->.
  { apply Hsame. rewrite before_save_pk. exact Hk. }
  set (r2 := Orm.Model_save (BlogPost.before_save later r1.1) r1.2) in *.
  exists r1.1, r1.2, r2.1, r2.2, k.
  assert (∀ d, BlogPost.published_date (fields r1.1) = Some d →
               BlogPost.published_date (fields r2.1) = Some d) as Hkeep.
  { intros d Hd. rewrite Hf2, before_save_published_date, Hd. done. }
  repeat split.
  - unfold Py.ret. f_equal. apply surjective_pairing.
  - done.
  - by rewrite Hf.
  - intros Hs Hd. rewrite Hf, before_save_published_date, Hd, Hs. done.
  - intros d Hd. rewrite Hf, before_save_published_date, Hd. done.
  - unfold Py.ret. f_equal. apply surjective_pairing.
  - done.
  - rewrite Hdb2, Hf2. apply lookup_insert_eq.
  - intros Hs Hd. apply Hkeep.
    rewrite Hf, before_save_published_date, Hd, Hs. done.
Qed.

(** ** Certification expiry *)

Lemma Date_ltb_irrefl (d : Date.t) : Date.ltb d d = false.
Proof.
  unfold Date.ltb. rewrite !Z.ltb_irrefl, !Z.eqb_refl. reflexivity.
Qed.

(** C5. [is_expired] is false without an expiry date, true when the expiry
    date is strictly before the current date, false otherwise; in
    particular it is false when the expiry date is the current date. *)
Theorem is_expired_cases (now : DateTime.t) (c : Certification.t) :
  (Certification.expiry_date c = None → Certification.is_expired now c = false)
  ∧ (∀ d, Certification.expiry_date c = Some d →
          Date.ltb d (DateTime.date now) = true →
          Certification.is_expired now c = true)
  ∧ (∀ d, Certification.expiry_date c = Some d →
          Date.ltb d (DateTime.date now) = false →
          Certification.is_expired now c = false)
  ∧ (Certification.expiry_date c = Some (DateTime.date now) →
     Certification.is_expired now c = false).
Proof.
  unfold Certification.is_expired. repeat split.
  - intros ->. done.
  - intros d -> Hd. done.
  - intros d -> Hd. done.
  - intros ->. apply Date_ltb_irrefl.
Qed.

(** ** Experience duration *)

Lemma duration_always_raises (now : DateTime.t) (e : Experience.t) :
  Experience.duration Scope.models_globals now e
  = match Experience.end_date e with
    | Some _ => inl (Py.NameError "relativedelta")
    | None => inl (Py.AttributeError "datetime.timezone" "now")
    end.
Proof.
  unfold Experience.duration. destruct (Experience.end_date e); reflexivity.
Qed.

(** C4. In the global scope that [core/models.py] sets up, reading
    [duration] of the experience 2020-01-15 to 2021-03-15 raises
    [NameError] for [relativedelta] instead of rendering a string; run in
    a scope that binds [relativedelta] (and Django's [timezone]) the same
    body renders "1 yr 2 mos", and "Less than 1 month" for an experience
    started 2024-01-01 and read on 2024-01-15. *)
Theorem duration_name_error :
  Experience.duration Scope.models_globals Sample.now Sample.experience
  = inl (Py.NameError "relativedelta")
  ∧ Experience.duration Scope.models_globals Sample.now Sample.current_experience
    = inl (Py.AttributeError "datetime.timezone" "now")
  ∧ Experience.duration Scope.intended_globals Sample.now Sample.experience
    = inr "1 yr 2 mos"
  ∧ Experience.duration Scope.intended_globals Sample.now
      Sample.current_experience
    = inr "Less than 1 month".
Proof. split_and!; vm_compute; reflexivity. Qed.

(** ** Query sets *)

Section QuerySets.
Context {F : Type}.
Implicit Types (t : gmap Z F) (P : F → bool).

Lemma qs_filter_lookup P t k r :
  Orm.qs_filter P t !! k = Some r ↔ t !! k = Some r ∧ P r = true.
Proof. unfold Orm.qs_filter. apply map_lookup_filter_Some. Qed.

Lemma qs_filter_none P t :
  (∀ k r, t !! k = Some r → P r = false) → Orm.qs_filter P t = ∅.
Proof.
  intros Hno. apply map_empty. intros k.
  destruct (Orm.qs_filter P t !! k) as [r|] eqn:E; [|done].
  apply qs_filter_lookup in E as [E1 E2].
  rewrite (Hno _ _ E1) in E2. done.
Qed.

Lemma qs_filter_unique P t k r :
  t !! k = Some r → P r = true →
  (∀ k' r', t !! k' = Some r' → P r' = true → k' = k) →
  Orm.qs_filter P t = {[ k := r ]}.
Proof.
  intros Hk HP Huniq. apply map_eq. intros j.
  destruct (decide (j = k)) as [->|Hne].
  - rewrite lookup_singleton_eq. by apply qs_filter_lookup.
  - rewrite lookup_singleton_ne by done.
    destruct (Orm.qs_filter P t !! j) as [r'|] eqn:E; [|done].
    apply qs_filter_lookup in E as [E1 E2].
    destruct Hne. eauto.
Qed.

Lemma qs_get_empty model : Orm.qs_get model (∅ : gmap Z F) = inl (Py.DoesNotExist model).
Proof. unfold Orm.qs_get. by rewrite map_to_list_empty. Qed.

Lemma qs_get_singleton model k (r : F) :
  Orm.qs_get model ({[ k := r ]} : gmap Z F) = inr (Obj (Some k) r).
Proof. unfold Orm.qs_get. by rewrite map_to_list_singleton. Qed.

Lemma min_by_pk_None (l : list (Z * F)) : Orm.min_by_pk l = None → l = [].
Proof.
  destruct l as [|[k r] l]; [done|]. simpl.
  destruct (Orm.min_by_pk l) as [[k' r']|]; [|done].
  by destruct (k' <? k).
Qed.

Lemma min_by_pk_elem (l : list (Z * F)) kr : Orm.min_by_pk l = Some kr → kr ∈ l.
Proof.
  revert kr. induction l as [|[k r] l IH]; intros kr; [done|]. simpl.
  destruct (Orm.min_by_pk l) as [[k' r']|].
  - destruct (k' <? k); intros [= <-].
    + right. by apply IH.
    + left.
  - intros [= <-]. left.
Qed.

Lemma min_by_pk_least (l : list (Z * F)) k r :
  NoDup l.*1 → (k, r) ∈ l → (∀ k' r', (k', r') ∈ l → k ≤ k') →
  Orm.min_by_pk l = Some (k, r).
Proof.
  induction l as [|[k0 r0] l IH]; intros Hnd Hin Hmin; [by inversion Hin|].
  simpl in Hnd. apply NoDup_cons in Hnd as [Hk0 Hnd]. simpl.
  apply elem_of_cons in Hin as [[= <- <-]|Hin].
  - destruct (Orm.min_by_pk l) as [[k' r']|] eqn:E; [|done].
    apply min_by_pk_elem in E.
    assert (k ≤ k') by (eapply Hmin; right; exact E).
    destruct (Z.ltb_spec k' k); [lia|done].
  - rewrite IH; [|done|done|].
    + assert (k ≤ k0) by (eapply Hmin; left).
      assert (k ≠ k0).
      { intros ->. apply Hk0. apply list_elem_of_fmap. by exists (k0, r). }
      destruct (Z.ltb_spec k k0); [done|lia].
    + intros k' r' H'. eapply Hmin. right. exact H'.
Qed.

Lemma qs_first_empty : Orm.qs_first (∅ : gmap Z F) = None.
Proof. unfold Orm.qs_first. by rewrite map_to_list_empty. Qed.

Lemma qs_first_least t k r :
  t !! k = Some r → (∀ k' r', t !! k' = Some r' → k ≤ k') →
  Orm.qs_first t = Some (Obj (Some k) r).
Proof.
  intros Hk Hmin. unfold Orm.qs_first.
  rewrite (min_by_pk_least (map_to_list t) k r); [done| | |].
  - apply NoDup_fst_map_to_list.
  - by apply elem_of_map_to_list.
  - intros k' r' H'. apply elem_of_map_to_list in H'. eauto.
Qed.

End QuerySets.

(** ** The profile endpoint *)

(** C10. With no active profile the endpoint answers status 200 and the
    empty object; with an active profile it answers status 200 and the
    name, title, bio, summary and e-mail of the active profile (the one
    with the smallest key, should several be active) and its three social
    links, each as the stored address, or as [null] when the profile has
    none. *)
Theorem profile_json_response (request : HttpRequest)
    (profiles : gmap Z Profile.t) :
  ((∀ k p, profiles !! k = Some p → Profile.is_active p = false) →
   profile_json request profiles = {| status_code := 200; data := JDict [] |})
  ∧ (∀ k p,
       profiles !! k = Some p → Profile.is_active p = true →
       (∀ k' p', profiles !! k' = Some p' → Profile.is_active p' = true → k ≤ k') →
       profile_json request profiles =
       {| status_code := 200;
          data := JDict [
            ("name", JStr (Profile.name p));
            ("title", JStr (Profile.job_title p));
            ("bio", JStr (Profile.bio p));
            ("summary", JStr (Profile.summary p));
            ("email", JStr (Profile.email p));
            ("social", JDict [
               ("github", match Profile.github_url p with
                          | Some url => JStr url
                          | None => JNull
                          end);
               ("linkedin", match Profile.linkedin_url p with
                            | Some url => JStr url
                            | None => JNull
                            end);
               ("twitter", match Profile.twitter_url p with
                           | Some url => JStr url
                           | None => JNull
                           end)])] |}).
Proof.
  split.
  - intros Hno. unfold profile_json.
    rewrite (qs_filter_none Profile.is_active profiles Hno), qs_first_empty.
    done.
  - intros k p Hk Ha Hmin. unfold profile_json.
    rewrite (qs_first_least (Orm.qs_filter Profile.is_active profiles) k p).
    + reflexivity.
    + by apply qs_filter_lookup.
    + intros k' p' [H1 H2]%qs_filter_lookup. eauto.
Qed.

(** ** The settings accessor *)

Lemma active_rows_cases (db : gmap Z SiteSettings.t) :
  at_most_one_active SiteSettings.is_active db →
  Orm.qs_filter SiteSettings.is_active db = ∅
  ∨ ∃ k r, db !! k = Some r ∧ SiteSettings.is_active r = true
           ∧ Orm.qs_filter SiteSettings.is_active db = {[ k := r ]}.
Proof.
  intros Hinv.
  destruct (decide (Orm.qs_filter SiteSettings.is_active db = ∅)) as [|Hne];
    [by left|right].
  apply map_choose in Hne as (k & r & Hkr).
  apply qs_filter_lookup in Hkr as [Hk Ha].
  exists k, r. repeat split; [done..|].
  apply qs_filter_unique; [done..|].
  intros k' r' Hk' Ha'. by eapply Hinv.
Qed.

(** C9, for the states with at most one active row (the states [save]
    leaves; see [save_keeps_at_most_one]). In every such state of the
    settings table [get_settings] does not raise: it returns an active
    settings row that is stored in the resulting table; when no row is
    active it creates the default row
    (title "Portfolio", contact "contact@example.com") under an unused key
    and returns it; when a row is active it returns that row and leaves
    the table unchanged. *)
Theorem get_settings_never_fails (db : gmap Z SiteSettings.t) :
  at_most_one_active SiteSettings.is_active db →
  ∃ settings db' k,
    SiteSettings.get_settings db = inr (settings, db')
    ∧ pk settings = Some k
    ∧ db' !! k = Some (fields settings)
    ∧ SiteSettings.is_active (fields settings) = true
    ∧ ((∀ j r, db !! j = Some r → SiteSettings.is_active r = false) →
       db !! k = None
       ∧ db' = <[k := SiteSettings.default_row]> db
       ∧ fields settings = SiteSettings.default_row
       ∧ SiteSettings.site_title (fields settings) = "Portfolio"
       ∧ SiteSettings.contact_email (fields settings) = "contact@example.com")
    ∧ (∀ j r, db !! j = Some r → SiteSettings.is_active r = true →
              settings = Obj (Some j) r ∧ db' = db).
Proof.
  intros Hinv. unfold SiteSettings.get_settings.
  destruct (active_rows_cases db Hinv) as [He|(k & r & Hk & Ha & He)];
    rewrite He.
  - rewrite qs_get_empty.
    assert (∀ j r, db !! j = Some r → SiteSettings.is_active r = false) as Hno.
    { intros j r Hj. destruct (SiteSettings.is_active r) eqn:E; [|done].
      assert (Orm.qs_filter SiteSettings.is_active db !! j = Some r) as Hf
        by by apply qs_filter_lookup.
      by rewrite He in Hf. }
    unfold SiteSettings.save. simpl.
    assert (Orm.qs_update SiteSettings.is_active
              (SiteSettings.set_is_active false) db = db) as ->.
    { apply map_eq. intros j. unfold Orm.qs_update. rewrite lookup_fmap.
      destruct (db !! j) as [r|] eqn:E; [|done]. simpl.
      by rewrite (Hno _ _ E). }
    unfold Orm.Model_save. simpl.
    exists (Obj (Some (fresh (dom db))) SiteSettings.default_row),
      (<[fresh (dom db) := SiteSettings.default_row]> db), (fresh (dom db)).
    split_and!; try done.
    + apply lookup_insert_eq.
    + intros _. split_and!; try done. apply not_elem_of_dom, is_fresh.
    + intros j r Hj Hact. rewrite (Hno _ _ Hj) in Hact. done.
  - rewrite qs_get_singleton. exists (Obj (Some k) r), db, k. simpl.
    split_and!; try done.
    + intros Hno. rewrite (Hno _ _ Hk) in Ha. done.
    + intros j r' Hj Hact. assert (j = k) as -> by by eapply Hinv.
      split; [|done]. congruence.
Qed.

(** ** The blog post accessor *)

Lemma copy_fields_view_count (src dst : BlogPost.t) :
  BlogPost.copy_fields ["view_count"] src dst
  = BlogPost.set_view_count (BlogPost.view_count src) dst.
Proof. reflexivity. Qed.

Lemma bindable_view_count (r : BlogPost.t) :
  BlogPost.bindable ["view_count"] r
  = Orm.integer_in_range (BlogPost.view_count r).
Proof.
  change (BlogPost.bindable ["view_count"] r)
    with (Orm.integer_in_range (BlogPost.view_count r) && true).
  apply andb_true_r.
Qed.

Lemma integer_in_range_spec (v : Z) :
  Orm.integer_in_range v = true ↔ Orm.integer_min ≤ v ≤ Orm.integer_max.
Proof. unfold Orm.integer_in_range. rewrite andb_true_iff. lia. Qed.

Section BlogViews.
Context `{Unicode}.

Lemma super_get_object_found slug k p posts :
  names_published slug k p posts →
  BlogPostDetailView.super_get_object slug posts = inr (Obj (Some k) p).
Proof.
  intros (Hk & Hs & Hslug & Huniq).
  unfold BlogPostDetailView.super_get_object, BlogPostDetailView.get_queryset.
  rewrite (qs_filter_unique _ _ k p).
  - by rewrite qs_get_singleton.
  - apply qs_filter_lookup. split; [done|]. by apply String.eqb_eq.
  - by apply String.eqb_eq.
  - intros k' p' [Hk' Hs']%qs_filter_lookup Hslug'.
    apply String.eqb_eq in Hs', Hslug'. eauto.
Qed.

Lemma super_get_object_missing slug posts :
  (∀ k p, posts !! k = Some p → BlogPost.slug p = slug →
          BlogPost.status p ≠ "published") →
  BlogPostDetailView.super_get_object slug posts = inl Py.Http404.
Proof.
  intros Hno.
  unfold BlogPostDetailView.super_get_object, BlogPostDetailView.get_queryset.
  rewrite qs_filter_none; [by rewrite qs_get_empty|].
  intros k p [Hk Hs]%qs_filter_lookup.
  apply String.eqb_eq in Hs. apply String.eqb_neq.
  intros Hslug. by eapply Hno.
Qed.

Lemma get_object_counts now slug k p posts :
  names_published slug k p posts →
  Orm.integer_in_range (BlogPost.view_count p + 1) = true →
  ∃ obj,
    BlogPostDetailView.get_object now slug posts
    = inr (obj, <[k := BlogPost.set_view_count (BlogPost.view_count p + 1) p]> posts)
    ∧ pk obj = Some k
    ∧ BlogPost.view_count (fields obj) = BlogPost.view_count p + 1.
Proof.
  intros Hnp Hfit. pose proof Hnp as (Hk & _).
  unfold BlogPostDetailView.get_object.
  rewrite (super_get_object_found _ _ _ _ Hnp). simpl.
  unfold BlogPost.save, Orm.Model_save_update_fields. simpl.
  rewrite before_save_pk. simpl.
  rewrite bindable_view_count, before_save_view_count. simpl.
  rewrite Hfit. simpl. rewrite Hk.
  eexists. split; [|split].
  - unfold Py.ret. do 2 f_equal.
    rewrite copy_fields_view_count, before_save_view_count. reflexivity.
  - by rewrite before_save_pk.
  - by rewrite before_save_view_count.
Qed.

Lemma get_object_overflows now slug k p posts :
  names_published slug k p posts →
  Orm.integer_in_range (BlogPost.view_count p + 1) = false →
  BlogPostDetailView.get_object now slug posts
  = inl (Py.OverflowError "Python int too large to convert to SQLite INTEGER").
Proof.
  intros Hnp Hfit.
  unfold BlogPostDetailView.get_object.
  rewrite (super_get_object_found _ _ _ _ Hnp). simpl.
  unfold BlogPost.save, Orm.Model_save_update_fields. simpl.
  rewrite before_save_pk. simpl.
  rewrite bindable_view_count, before_save_view_count. simpl.
  by rewrite Hfit.
Qed.

Lemma names_published_after slug k p posts n :
  names_published slug k p posts →
  names_published slug k (BlogPost.set_view_count n p)
    (<[k := BlogPost.set_view_count n p]> posts).
Proof.
  intros (Hk & Hs & Hslug & Huniq). split_and!; try done.
  - apply lookup_insert_eq.
  - intros k' p' Hk' Hs' Hslug'.
    destruct (decide (k' = k)) as [|Hne]; [done|].
    rewrite lookup_insert_ne in Hk' by done. eauto.
Qed.

Lemma views_count nows slug k p posts :
  names_published slug k p posts →
  Orm.integer_min ≤ BlogPost.view_count p →
  BlogPost.view_count p + Z.of_nat (length nows) ≤ Orm.integer_max →
  BlogPostDetailView.views nows slug posts
  = inr (match nows with
         | [] => posts
         | _ => <[k := BlogPost.set_view_count
                          (BlogPost.view_count p + Z.of_nat (length nows)) p]> posts
         end).
Proof.
  revert p posts.
  induction nows as [|now rest IH]; intros p posts Hnp Hlo Hhi; [done|].
  cbn [BlogPostDetailView.views].
  cbn [length] in Hhi.
  destruct (get_object_counts now slug k p posts Hnp) as (obj & -> & _ & _).
  { apply integer_in_range_spec. lia. }
  cbn [Py.bind snd].
  rewrite (IH _ _ (names_published_after slug k p posts _ Hnp)).
  - f_equal. destruct rest as [|now' rest].
    + simpl. do 2 f_equal.
    + rewrite insert_insert_eq. cbn [BlogPost.set_view_count BlogPost.view_count].
      f_equal. unfold BlogPost.set_view_count. simpl. f_equal. lia.
  - simpl. lia.
  - simpl. lia.
Qed.

End BlogViews.

(** C6, within the range of the counter. Let [slug] name a published post
    whose stored view count is a number the integer column holds.
    - As long as the count raised by N does not pass [Orm.integer_max],
      calling the detail accessor N times in sequence succeeds every time
      and leaves the post stored with its view count raised by exactly N,
      every other column of the post and every other post as they were.
    - Below the top of the range a single call returns the post with its
      count raised by one and stores that count.
    - At the top of the range the call raises [OverflowError]: nothing is
      returned and nothing is counted.
    When no published post has the slug (in particular when the post with
    that slug is a draft or archived), the accessor raises the not-found
    error and returns no post. *)
Theorem view_count_sequential `{Unicode} (nows : list DateTime.t)
    (now : DateTime.t) (slug : string) (k : Z) (p : BlogPost.t)
    (posts : gmap Z BlogPost.t) :
  names_published slug k p posts →
  Orm.integer_in_range (BlogPost.view_count p) = true →
  (BlogPost.view_count p + Z.of_nat (length nows) ≤ Orm.integer_max →
   ∃ posts',
      BlogPostDetailView.views nows slug posts = inr posts'
      ∧ posts' !! k
        = Some (BlogPost.Row (BlogPost.title p) (BlogPost.slug p)
                  (BlogPost.series_id p) (BlogPost.category_id p)
                  (BlogPost.excerpt p) (BlogPost.content p)
                  (BlogPost.status p) (BlogPost.published_date p)
                  (BlogPost.meta_description p) (BlogPost.meta_keywords p)
                  (BlogPost.reading_time p)
                  (BlogPost.view_count p + Z.of_nat (length nows))
                  (BlogPost.is_featured p) (BlogPost.order p))
      ∧ ∀ j, j ≠ k → posts' !! j = posts !! j)
  ∧ (BlogPost.view_count p < Orm.integer_max →
     ∃ obj posts',
        BlogPostDetailView.get_object now slug posts = inr (obj, posts')
        ∧ pk obj = Some k
        ∧ BlogPost.view_count (fields obj) = BlogPost.view_count p + 1
        ∧ BlogPost.view_count <$> posts' !! k
          = Some (BlogPost.view_count p + 1))
  ∧ (BlogPost.view_count p = Orm.integer_max →
     ∃ msg,
        BlogPostDetailView.get_object now slug posts
        = inl (Py.OverflowError msg)
        ∧ ∀ rest, BlogPostDetailView.views (now :: rest) slug posts
                  = inl (Py.OverflowError msg))
  ∧ (∀ other unpublished,
        (∀ j q, unpublished !! j = Some q → BlogPost.slug q = other →
                BlogPost.status q ≠ "published") →
        BlogPostDetailView.get_object now other unpublished = inl Py.Http404).
Proof.
  intros Hnp Hfit. apply integer_in_range_spec in Hfit as [Hlo Hhi].
  split_and!.
  - intros Hle. rewrite (views_count nows slug k p posts Hnp Hlo Hle).
    eexists. split; [reflexivity|].
    destruct nows as [|n0 rest].
    + destruct Hnp as (Hk & _). split.
      * rewrite Hk. f_equal. destruct p. simpl. f_equal. lia.
      * done.
    + split; [apply lookup_insert_eq|].
      intros j Hj. by apply lookup_insert_ne.
  - intros Hlt.
    destruct (get_object_counts now slug k p posts Hnp) as (obj & Hg & Hpk & Hvc).
    { apply integer_in_range_spec. lia. }
    exists obj. eexists. split_and!; [exact Hg|done|done|].
    by rewrite lookup_insert_eq.
  - intros Htop. eexists.
    assert (BlogPostDetailView.get_object now slug posts
            = inl (Py.OverflowError
                     "Python int too large to convert to SQLite INTEGER"))
      as Hraise.
    { apply (get_object_overflows now slug k p posts Hnp).
      apply not_true_iff_false. rewrite integer_in_range_spec. lia. }
    split; [exact Hraise|].
    intros rest. cbn [BlogPostDetailView.views]. by rewrite Hraise.
  - intros other unpublished Hno.
    unfold BlogPostDetailView.get_object.
    by rewrite (super_get_object_missing other unpublished Hno).
Qed.

(** ** The project listing *)

Lemma is_prefix_spec (p s : list ascii) :
  Text.is_prefix p s = true ↔ ∃ post, s = (p ++ post)%list.
Proof.
  revert s. induction p as [|a p IH]; intros s; simpl.
  - split; [intros _; by exists s|done].
  - destruct s as [|b s].
    + split; [done|]. intros (post & Hpost). discriminate.
    + destruct (Ascii.eqb_spec a b) as [->|Hne].
      * rewrite IH. split; intros (post & Hpost); exists post; simpl in *; congruence.
      * split; [done|]. intros (post & Hpost). simpl in Hpost. congruence.
Qed.

Lemma contains_spec (needle hay : list ascii) :
  Text.contains needle hay = true
  ↔ ∃ pre post, hay = (pre ++ needle ++ post)%list.
Proof.
  induction hay as [|b hay IH]; simpl.
  - rewrite orb_false_r, is_prefix_spec. split.
    + intros (post & Hpost). by exists [], post.
    + intros (pre & post & Hpp). destruct pre; [by exists post|discriminate].
  - rewrite orb_true_iff, is_prefix_spec, IH. split.
    + intros [(post & Hpost)|(pre & post & Hpp)].
      * by exists [], post.
      * exists (b :: pre), post. simpl. congruence.
    + intros (pre & post & Hpp). destruct pre as [|c pre]; simpl in Hpp.
      * left. by exists post.
      * right. exists pre, post. congruence.
Qed.

Lemma lower_char_small (c : ascii) : Text.lower_char c = Alphabet.small c.
Proof. destruct c as [[] [] [] [] [] [] [] []]; reflexivity. Qed.

Lemma lower_small (l : list ascii) : Text.lower l = map Alphabet.small l.
Proof. unfold Text.lower. apply map_ext. intros c. apply lower_char_small. Qed.

Lemma icontains_spec (hay needle : string) :
  Text.icontains hay needle = true
  ↔ ascii_case_insensitive_substring needle hay.
Proof.
  unfold Text.icontains, ascii_case_insensitive_substring.
  rewrite !lower_small. apply contains_spec.
Qed.

Lemma truthy_false (s : string) : Py.truthy s = false ↔ s = "".
Proof.
  unfold Py.truthy. rewrite negb_false_iff. apply String.eqb_eq.
Qed.

Lemma truthy_true (s : string) : Py.truthy s = true ↔ s ≠ "".
Proof.
  unfold Py.truthy. rewrite negb_true_iff. apply String.eqb_neq.
Qed.

Lemma empty_substring (s : string) : ascii_case_insensitive_substring "" s.
Proof. exists [], (map Alphabet.small (list_ascii_of_string s)). reflexivity. Qed.

Lemma category_filter_lookup request categories projects k p :
  (match GET request !! "category" with
   | Some category =>
       if Py.truthy category
       then Orm.qs_filter
              (ProjectsListView.category_slug_is categories category) projects
       else projects
   | None => projects
   end) !! k = Some p
  ↔ projects !! k = Some p ∧ category_matches request categories p.
Proof.
  unfold category_matches.
  destruct (GET request !! "category") as [c|]; [|naive_solver].
  destruct (Py.truthy c) eqn:Ht.
  - apply truthy_true in Ht. rewrite qs_filter_lookup.
    unfold ProjectsListView.category_slug_is. split.
    + intros [Hk Hc]. split; [done|]. right.
      destruct (Project.category_id p) as [cid|]; [|done].
      destruct (categories !! cid) as [cat|] eqn:Ec; [|done].
      apply String.eqb_eq in Hc. by exists cid, cat.
    + intros [Hk [?|(cid & cat & -> & Hc & Hs)]]; [done|].
      split; [done|]. rewrite Hc. by apply String.eqb_eq.
  - apply truthy_false in Ht. naive_solver.
Qed.

Lemma search_filter_lookup request (qs : gmap Z Project.t) k p :
  (match GET request !! "q" with
   | Some search =>
       if Py.truthy search
       then Orm.qs_filter
              (λ p, Text.icontains (Project.title p) search
                    || Text.icontains (Project.situation p) search
                    || Text.icontains (Project.action p) search) qs
       else qs
   | None => qs
   end) !! k = Some p
  ↔ qs !! k = Some p ∧ search_matches request p.
Proof.
  unfold search_matches.
  destruct (GET request !! "q") as [q|]; [|naive_solver].
  destruct (Py.truthy q) eqn:Ht.
  - rewrite qs_filter_lookup, !orb_true_iff, !icontains_spec. naive_solver.
  - apply truthy_false in Ht. subst q.
    pose proof (empty_substring (Project.title p)). naive_solver.
Qed.

(** C7, for the letters A-Z. The query set of a listing request holds
    exactly the projects that pass the category filter and, when the
    request has a free-text parameter [q], whose title, situation or
    action contains [q] as a substring, the case of the letters A-Z
    ignored and every other character compared as it is. A non-empty
    [category] parameter that is the slug of no category gives the empty
    query set, with or without [q]. *)
Theorem projects_search (request : HttpRequest)
    (categories : gmap Z ProjectCategory.t) (projects : gmap Z Project.t) :
  (∀ k p,
     ProjectsListView.get_queryset request categories projects !! k = Some p
     ↔ projects !! k = Some p
       ∧ category_matches request categories p
       ∧ search_matches request p)
  ∧ (∀ q, GET request !! "q" = Some q →
       ∀ k p,
         ProjectsListView.get_queryset request categories projects !! k = Some p
         ↔ projects !! k = Some p
           ∧ category_matches request categories p
           ∧ (ascii_case_insensitive_substring q (Project.title p)
              ∨ ascii_case_insensitive_substring q (Project.situation p)
              ∨ ascii_case_insensitive_substring q (Project.action p)))
  ∧ (∀ c, GET request !! "category" = Some c → c ≠ "" →
          (∀ cid cat, categories !! cid = Some cat →
                      ProjectCategory.slug cat ≠ c) →
          ProjectsListView.get_queryset request categories projects = ∅).
Proof.
  assert (∀ k p,
     ProjectsListView.get_queryset request categories projects !! k = Some p
     ↔ projects !! k = Some p
       ∧ category_matches request categories p
       ∧ search_matches request p) as Hiff.
  { intros k p. unfold ProjectsListView.get_queryset.
    rewrite search_filter_lookup, category_filter_lookup. naive_solver. }
  split_and!.
  - exact Hiff.
  - intros q Hq k p. rewrite Hiff. unfold search_matches. by rewrite Hq.
  - intros c Hc Hne Hnone. apply map_empty. intros k.
    destruct (ProjectsListView.get_queryset request categories projects !! k)
      as [p|] eqn:E; [|done].
    apply Hiff in E as (_ & Hm & _).
    unfold category_matches in Hm. rewrite Hc in Hm.
    destruct Hm as [?|(cid & cat & _ & Hcat & Hs)]; [done|].
    destruct (Hnone _ _ Hcat Hs).
Qed.

(** ** Slug derivation *)

Lemma lower_kept_char (c : ascii) :
  (Text.is_word (Text.lower_char c) || Text.is_space (Text.lower_char c)
   || Text.is_hyphen (Text.lower_char c)) = true →
  (Text.is_hyphen (Text.lower_char c) || Text.is_space (Text.lower_char c)) = false →
  Text.slug_char (Text.lower_char c) = true.
Proof.
  destruct c as [[] [] [] [] [] [] [] []]; vm_compute; intros; congruence.
Qed.

Lemma sub_runs_chars (in_run : bool) (l : list ascii) :
  Forall (λ c, (Text.is_hyphen c || Text.is_space c) = false →
               Text.slug_char c = true) l →
  Forall (λ c, Text.slug_char c = true) (Text.sub_runs in_run l).
Proof.
  intros Hl. revert in_run. induction Hl as [|c l Hc Hl IH]; intros in_run; simpl.
  - constructor.
  - destruct (Text.is_hyphen c || Text.is_space c) eqn:E.
    + destruct in_run; [apply IH|]. constructor; [reflexivity|apply IH].
    + constructor; [by apply Hc|apply IH].
Qed.

Lemma lstrip_chars (Q : ascii → Prop) (P : ascii → bool) (l : list ascii) :
  Forall Q l → Forall Q (Text.lstrip P l).
Proof.
  induction 1 as [|c l Hc Hl IH]; simpl; [constructor|].
  destruct (P c); [done|by constructor].
Qed.

Lemma strip_chars (Q : ascii → Prop) (P : ascii → bool) (l : list ascii) :
  Forall Q l → Forall Q (Text.strip P l).
Proof.
  intros Hl. unfold Text.strip, Text.rstrip.
  apply Forall_rev, lstrip_chars, Forall_rev, lstrip_chars, Hl.
Qed.

Lemma slugify_chars `{Unicode} (value : string) :
  Forall (λ c, Text.slug_char c = true)
    (list_ascii_of_string (Text.slugify value)).
Proof.
  unfold Text.slugify. rewrite list_ascii_of_string_of_list_ascii.
  apply strip_chars, sub_runs_chars.
  apply Forall_forall. intros c Hc.
  apply list_elem_of_filter in Hc as [Hkept Hc].
  unfold Text.lower in Hc. apply (proj1 (list_elem_of_In _ _)) in Hc.
  apply in_map_iff in Hc as (c0 & <- & _).
  by apply lower_kept_char.
Qed.

(** *** The letters and digits of a slug *)

Lemma letter_or_digit_facts (c : ascii) :
  Alphabet.is_letter_or_digit c = true →
  Text.is_ascii c = true
  ∧ (Text.is_word c || Text.is_space c || Text.is_hyphen c) = true
  ∧ (Text.is_hyphen c || Text.is_space c) = false
  ∧ (Text.is_hyphen c || Text.is_underscore c) = false
  ∧ Alphabet.is_letter_or_digit (Alphabet.small c) = true.
Proof.
  destruct c as [[] [] [] [] [] [] [] []]; vm_compute; intros; try congruence;
    by split_and!.
Qed.

Lemma small_letter_or_digit (c : ascii) :
  Alphabet.is_letter_or_digit (Alphabet.small c)
  = Alphabet.is_letter_or_digit c.
Proof. destruct c as [[] [] [] [] [] [] [] []]; reflexivity. Qed.

Lemma separator_no_letter (c : ascii) :
  (Text.is_hyphen c || Text.is_space c) = true →
  Alphabet.is_letter_or_digit c = false.
Proof. destruct c as [[] [] [] [] [] [] [] []]; vm_compute; congruence. Qed.

Lemma trimmed_no_letter (c : ascii) :
  (Text.is_hyphen c || Text.is_underscore c) = true →
  Alphabet.is_letter_or_digit c = false.
Proof. destruct c as [[] [] [] [] [] [] [] []]; vm_compute; congruence. Qed.

Lemma letters_cons (c : ascii) (l : list ascii) :
  Alphabet.letters_and_digits (c :: l)
  = if Alphabet.is_letter_or_digit c
    then c :: Alphabet.letters_and_digits l
    else Alphabet.letters_and_digits l.
Proof.
  unfold Alphabet.letters_and_digits. rewrite filter_cons.
  destruct (Alphabet.is_letter_or_digit c); by case_decide.
Qed.

Lemma letters_app (l1 l2 : list ascii) :
  Alphabet.letters_and_digits (l1 ++ l2)
  = (Alphabet.letters_and_digits l1 ++ Alphabet.letters_and_digits l2)%list.
Proof. apply filter_app. Qed.

Lemma letters_rev (l : list ascii) :
  Alphabet.letters_and_digits (rev l) = rev (Alphabet.letters_and_digits l).
Proof.
  induction l as [|c l IH]; [done|]. simpl.
  rewrite letters_app, IH, !letters_cons.
  destruct (Alphabet.is_letter_or_digit c); simpl.
  - reflexivity.
  - by rewrite app_nil_r.
Qed.

Lemma letters_lstrip (P : ascii → bool) (l : list ascii) :
  (∀ c, P c = true → Alphabet.is_letter_or_digit c = false) →
  Alphabet.letters_and_digits (Text.lstrip P l) = Alphabet.letters_and_digits l.
Proof.
  intros HP. induction l as [|c l IH]; [done|]. simpl.
  destruct (P c) eqn:E; [|done].
  by rewrite IH, letters_cons, (HP c E).
Qed.

Lemma letters_strip (P : ascii → bool) (l : list ascii) :
  (∀ c, P c = true → Alphabet.is_letter_or_digit c = false) →
  Alphabet.letters_and_digits (Text.strip P l) = Alphabet.letters_and_digits l.
Proof.
  intros HP. unfold Text.strip, Text.rstrip.
  rewrite letters_rev, (letters_lstrip P _ HP), letters_rev, rev_involutive.
  by apply letters_lstrip.
Qed.

Lemma letters_sub_runs (in_run : bool) (l : list ascii) :
  Alphabet.letters_and_digits (Text.sub_runs in_run l)
  = Alphabet.letters_and_digits l.
Proof.
  revert in_run. induction l as [|c l IH]; intros in_run; [done|]. simpl.
  destruct (Text.is_hyphen c || Text.is_space c) eqn:E.
  - rewrite (letters_cons c), (separator_no_letter c E).
    destruct in_run; [apply IH|]. rewrite letters_cons. simpl. apply IH.
  - by rewrite !letters_cons, IH.
Qed.

Lemma letters_kept (l : list ascii) :
  Alphabet.letters_and_digits
    (filter (λ c, (Text.is_word c || Text.is_space c || Text.is_hyphen c) = true) l)
  = Alphabet.letters_and_digits l.
Proof.
  induction l as [|c l IH]; [done|].
  rewrite filter_cons, (letters_cons c l). case_decide as Hk.
  - by rewrite letters_cons, IH.
  - rewrite IH. destruct (Alphabet.is_letter_or_digit c) eqn:E; [|done].
    by apply letter_or_digit_facts in E as (_ & ? & _).
Qed.

Lemma letters_lower (l : list ascii) :
  Alphabet.letters_and_digits (Text.lower l)
  = map Alphabet.small (Alphabet.letters_and_digits l).
Proof.
  rewrite lower_small. induction l as [|c l IH]; [done|]. simpl.
  rewrite !letters_cons, small_letter_or_digit, IH.
  by destruct (Alphabet.is_letter_or_digit c).
Qed.

Lemma filter_all {A} (P : A → bool) (l : list A) :
  Forall (λ c, P c = true) l → filter (λ c, P c = true) l = l.
Proof.
  induction 1 as [|c l Hc Hl IH]; [done|].
  rewrite filter_cons. case_decide; [by rewrite IH|done].
Qed.

Lemma ascii_text_kept `{Unicode} (l : list ascii) :
  Forall (λ c, Text.is_ascii c = true) l →
  filter (λ c, Text.is_ascii c = true)
    (list_ascii_of_string (nfkd (string_of_list_ascii l))) = l.
Proof.
  intros Hl. rewrite nfkd_ascii.
  - rewrite list_ascii_of_string_of_list_ascii. by apply filter_all.
  - rewrite list_ascii_of_string_of_list_ascii.
    apply forallb_forall. intros c Hc.
    rewrite Forall_forall in Hl. apply Hl. by apply list_elem_of_In.
Qed.

Lemma slugify_letters `{Unicode} (value : list ascii) :
  Forall (λ c, Text.is_ascii c = true) value →
  Alphabet.letters_and_digits
    (list_ascii_of_string (Text.slugify (string_of_list_ascii value)))
  = map Alphabet.small (Alphabet.letters_and_digits value).
Proof.
  intros Hv. unfold Text.slugify.
  rewrite list_ascii_of_string_of_list_ascii, (ascii_text_kept value Hv).
  rewrite letters_strip by apply trimmed_no_letter.
  by rewrite letters_sub_runs, letters_kept, letters_lower.
Qed.

(** *** Names made of words *)

Lemma map_join {f : ascii → ascii} (sep : ascii) (ws : list (list ascii)) :
  map f (Alphabet.join sep ws) = Alphabet.join (f sep) (map (map f) ws).
Proof.
  induction ws as [|w ws IH]; [done|]. simpl.
  destruct ws as [|w' ws]; [done|].
  rewrite map_app. f_equal.
  change (map f (sep :: Alphabet.join sep (w' :: ws)))
    with (f sep :: map f (Alphabet.join sep (w' :: ws))).
  f_equal. exact IH.
Qed.

Lemma Forall_join (Q : ascii → Prop) (sep : ascii) (ws : list (list ascii)) :
  Q sep → Forall (Forall Q) ws → Forall Q (Alphabet.join sep ws).
Proof.
  intros Hsep. induction 1 as [|w ws Hw Hws IH]; [constructor|]. simpl.
  destruct ws as [|w' ws]; [done|].
  apply Forall_app. split; [done|]. by constructor.
Qed.

Lemma sub_runs_word (in_run : bool) (w rest : list ascii) :
  w ≠ [] →
  Forall (λ c, (Text.is_hyphen c || Text.is_space c) = false) w →
  Text.sub_runs in_run (w ++ rest) = (w ++ Text.sub_runs false rest)%list.
Proof.
  intros Hne Hw. revert in_run. induction Hw as [|c w Hc Hw IH]; [done|].
  intros in_run. simpl. rewrite Hc. f_equal.
  destruct w as [|c' w]; [done|]. by apply IH.
Qed.

Lemma sub_runs_join (in_run : bool) (ws : list (list ascii)) :
  Forall (λ w, w ≠ []
               ∧ Forall (λ c, (Text.is_hyphen c || Text.is_space c) = false) w)
    ws →
  Text.sub_runs in_run (Alphabet.join " " ws) = Alphabet.join "-" ws.
Proof.
  intros Hws. revert in_run.
  induction Hws as [|w ws [Hne Hw] Hws IH]; intros in_run; [done|]. simpl.
  destruct ws as [|w' ws].
  - rewrite <- (app_nil_r w) at 1. rewrite sub_runs_word by done.
    simpl. apply app_nil_r.
  - rewrite sub_runs_word by done. f_equal.
    change (Text.sub_runs false (" "%char :: Alphabet.join " " (w' :: ws)))
      with ("-"%char :: Text.sub_runs true (Alphabet.join " " (w' :: ws))).
    f_equal. apply IH.
Qed.

Lemma join_first (Q : ascii → Prop) (sep : ascii) (ws : list (list ascii)) :
  ws ≠ [] → Forall (λ w, w ≠ [] ∧ Forall Q w) ws →
  ∃ c rest, Alphabet.join sep ws = c :: rest ∧ Q c.
Proof.
  intros Hne Hws. destruct Hws as [|w ws [Hw HQ] Hws]; [done|].
  destruct HQ as [|c w Hc HQ]; [done|]. simpl.
  destruct ws; eauto.
Qed.

Lemma join_last (Q : ascii → Prop) (sep : ascii) (ws : list (list ascii)) :
  ws ≠ [] → Forall (λ w, w ≠ [] ∧ Forall Q w) ws →
  ∃ front c, Alphabet.join sep ws = (front ++ [c])%list ∧ Q c.
Proof.
  intros Hne Hws. induction Hws as [|w ws [Hw HQ] Hws IH]; [done|]. simpl.
  destruct ws as [|w' ws].
  - destruct (exists_last Hw) as (front & c & ->).
    exists front, c. split; [done|].
    apply Forall_app in HQ as [_ HQ]. by apply Forall_inv in HQ.
  - destruct IH as (front & c & -> & Hc); [done|].
    exists (w ++ sep :: front)%list, c. split; [|done].
    by rewrite <- app_assoc.
Qed.

Lemma strip_untouched (P : ascii → bool) (l : list ascii) :
  (∀ c rest, l = c :: rest → P c = false) →
  (∀ front c, l = (front ++ [c])%list → P c = false) →
  Text.strip P l = l.
Proof.
  intros Hfirst Hlast. unfold Text.strip, Text.rstrip.
  assert (Text.lstrip P l = l) as ->.
  { destruct l as [|c rest]; [done|]. simpl. by rewrite (Hfirst c rest). }
  destruct (rev l) as [|c rest] eqn:E.
  - simpl. by rewrite <- (rev_involutive l), E.
  - simpl. rewrite (Hlast (rev rest) c).
    + by rewrite <- E, rev_involutive.
    + by rewrite <- (rev_involutive l), E.
Qed.

Lemma slugify_words `{Unicode} (words : list (list ascii)) :
  Forall (λ w, w ≠ []
               ∧ Forall (λ c, Alphabet.is_letter_or_digit c = true) w) words →
  Text.slugify (string_of_list_ascii (Alphabet.join " " words))
  = string_of_list_ascii
      (Alphabet.join "-" (map (map Alphabet.small) words)).
Proof.
  intros Hws. unfold Text.slugify. f_equal.
  rewrite ascii_text_kept.
  2:{ apply Forall_join; [reflexivity|].
      eapply Forall_impl; [exact Hws|]. intros w [_ Hw].
      eapply Forall_impl; [exact Hw|]. intros c Hc.
      by apply letter_or_digit_facts in Hc as (? & _). }
  rewrite lower_small, map_join.
  change (Alphabet.small " ") with " "%char.
  assert (Forall (λ w, w ≠ []
                       ∧ Forall (λ c, Alphabet.is_letter_or_digit c = true) w)
            (map (map Alphabet.small) words)) as Hsmall.
  { apply Forall_map. eapply Forall_impl; [exact Hws|]. intros w [Hne Hw].
    split; [by destruct w|].
    apply Forall_map. eapply Forall_impl; [exact Hw|]. intros c Hc. simpl.
    by rewrite small_letter_or_digit. }
  set (ws := map (map Alphabet.small) words) in *.
  rewrite filter_all.
  2:{ apply Forall_join; [reflexivity|].
      eapply Forall_impl; [exact Hsmall|]. intros w [_ Hw].
      eapply Forall_impl; [exact Hw|]. intros c Hc.
      by apply letter_or_digit_facts in Hc as (_ & ? & _). }
  rewrite sub_runs_join.
  2:{ eapply Forall_impl; [exact Hsmall|]. intros w [Hne Hw].
      split; [done|]. eapply Forall_impl; [exact Hw|]. intros c Hc.
      by apply letter_or_digit_facts in Hc as (_ & _ & ? & _). }
  destruct (decide (ws = [])) as [->|Hne]; [done|].
  apply strip_untouched.
  - intros c rest E.
    destruct (join_first _ "-" ws Hne Hsmall) as (c' & rest' & E' & Hc').
    rewrite E in E'. injection E' as -> _.
    by apply letter_or_digit_facts in Hc' as (_ & _ & _ & ? & _).
  - intros front c E.
    destruct (join_last _ "-" ws Hne Hsmall) as (front' & c' & E' & Hc').
    rewrite E in E'. apply app_inj_tail in E' as [_ ->].
    by apply letter_or_digit_facts in Hc' as (_ & _ & _ & ? & _).
Qed.

Lemma slug_char_spelled (c : ascii) :
  Text.slug_char c = true →
  existsb (Ascii.eqb c)
    (Alphabet.smalls ++ Alphabet.digits ++ ["_"%char; "-"%char]) = true.
Proof. destruct c as [[] [] [] [] [] [] [] []]; vm_compute; congruence. Qed.

Lemma is_ascii_spec (c : ascii) :
  Text.is_ascii c = true ↔ (N_of_ascii c < 128)%N.
Proof. unfold Text.is_ascii, Text.code. rewrite Z.ltb_lt. lia. Qed.

Ltac slug_save :=
  match goal with
  | |- context [Orm.Model_save ?self ?db] =>
      let k := fresh "k" in
      destruct (Model_save_stores self db) as (k & ? & ? & ?)
  end.

Lemma derive_slug_cases {F} (slug : F → string) (derived : F)
    (self : Instance F) (db : gmap Z F) :
  let saved :=
    Orm.Model_save
      (if negb (Py.truthy (slug (fields self)))
       then Obj (pk self) derived else self) db in
  (slug (fields self) = "" → fields saved.1 = derived)
  ∧ (slug (fields self) ≠ "" → fields saved.1 = fields self)
  ∧ ∃ k, pk saved.1 = Some k ∧ saved.2 !! k = Some (fields saved.1).
Proof.
  intros saved. subst saved. slug_save. split_and!.
  - intros Hs. apply truthy_false in Hs. rewrite Hs in *. done.
  - intros Hs. apply truthy_true in Hs. rewrite Hs in *. done.
  - exists k. split; [done|]. congruence.
Qed.

(** C2, with the empty slug set apart. A save of a SkillArea,
    ProjectCategory, Project, BlogSeries, BlogCategory, BlogTag, BlogPost or
    Skill row whose slug is empty sets the slug to [slugify] of its name or
    title (for Skill, of the area name, a hyphen and the skill name) and
    stores the row; a save of a row whose slug is not empty leaves the slug
    as it is, whatever the name or title has become.

    The last three parts say what form [slugify] gives a name.
    - The slug is made of small letters, digits, underscores and hyphens
      only.
    - The letters and digits of an ASCII name all survive, in their order,
      capitals as small letters: read without its hyphens and underscores,
      the slug is the name read without anything but its letters and
      digits.
    - A name made of words of letters and digits with one space between
      them becomes the same words in small letters with one hyphen between
      them. *)
Theorem slug_derivation `{Unicode} :
  (∀ (self : Instance SkillArea.t) db,
     (SkillArea.slug (fields self) = "" →
      SkillArea.slug (fields (SkillArea.save self db).1)
      = Text.slugify (SkillArea.name (fields self)))
     ∧ (SkillArea.slug (fields self) ≠ "" →
        fields (SkillArea.save self db).1 = fields self)
     ∧ ∃ k, pk (SkillArea.save self db).1 = Some k
            ∧ (SkillArea.save self db).2 !! k
              = Some (fields (SkillArea.save self db).1))
  ∧ (∀ (self : Instance ProjectCategory.t) db,
       (ProjectCategory.slug (fields self) = "" →
        ProjectCategory.slug (fields (ProjectCategory.save self db).1)
        = Text.slugify (ProjectCategory.name (fields self)))
       ∧ (ProjectCategory.slug (fields self) ≠ "" →
          fields (ProjectCategory.save self db).1 = fields self)
       ∧ ∃ k, pk (ProjectCategory.save self db).1 = Some k
              ∧ (ProjectCategory.save self db).2 !! k
                = Some (fields (ProjectCategory.save self db).1))
  ∧ (∀ (self : Instance Project.t) db,
       (Project.slug (fields self) = "" →
        Project.slug (fields (Project.save self db).1)
        = Text.slugify (Project.title (fields self)))
       ∧ (Project.slug (fields self) ≠ "" →
          fields (Project.save self db).1 = fields self)
       ∧ ∃ k, pk (Project.save self db).1 = Some k
              ∧ (Project.save self db).2 !! k
                = Some (fields (Project.save self db).1))
  ∧ (∀ (self : Instance BlogSeries.t) db,
       (BlogSeries.slug (fields self) = "" →
        BlogSeries.slug (fields (BlogSeries.save self db).1)
        = Text.slugify (BlogSeries.name (fields self)))
       ∧ (BlogSeries.slug (fields self) ≠ "" →
          fields (BlogSeries.save self db).1 = fields self)
       ∧ ∃ k, pk (BlogSeries.save self db).1 = Some k
              ∧ (BlogSeries.save self db).2 !! k
                = Some (fields (BlogSeries.save self db).1))
  ∧ (∀ (self : Instance BlogCategory.t) db,
       (BlogCategory.slug (fields self) = "" →
        BlogCategory.slug (fields (BlogCategory.save self db).1)
        = Text.slugify (BlogCategory.name (fields self)))
       ∧ (BlogCategory.slug (fields self) ≠ "" →
          fields (BlogCategory.save self db).1 = fields self)
       ∧ ∃ k, pk (BlogCategory.save self db).1 = Some k
              ∧ (BlogCategory.save self db).2 !! k
                = Some (fields (BlogCategory.save self db).1))
  ∧ (∀ (self : Instance BlogTag.t) db,
       (BlogTag.slug (fields self) = "" →
        BlogTag.slug (fields (BlogTag.save self db).1)
        = Text.slugify (BlogTag.name (fields self)))
       ∧ (BlogTag.slug (fields self) ≠ "" →
          fields (BlogTag.save self db).1 = fields self)
       ∧ ∃ k, pk (BlogTag.save self db).1 = Some k
              ∧ (BlogTag.save self db).2 !! k
                = Some (fields (BlogTag.save self db).1))
  ∧ (∀ now (self : Instance BlogPost.t) db,
       ∃ self' db' k,
         BlogPost.save now None self db = inr (self', db')
         ∧ pk self' = Some k ∧ db' !! k = Some (fields self')
         ∧ (BlogPost.slug (fields self) = "" →
            BlogPost.slug (fields self')
            = Text.slugify (BlogPost.title (fields self)))
         ∧ (BlogPost.slug (fields self) ≠ "" →
            BlogPost.slug (fields self') = BlogPost.slug (fields self)
            ∧ BlogPost.title (fields self') = BlogPost.title (fields self)))
  ∧ (∀ areas (self : Instance Skill.t) db,
       (Skill.slug (fields self) = "" →
        ∀ a, areas !! Skill.area_id (fields self) = Some a →
          ∃ self' db' k,
            Skill.save areas self db = inr (self', db')
            ∧ pk self' = Some k ∧ db' !! k = Some (fields self')
            ∧ Skill.slug (fields self')
              = Text.slugify
                  (SkillArea.name a +:+ "-" +:+ Skill.name (fields self)))
       ∧ (Skill.slug (fields self) ≠ "" →
          ∃ self' db' k,
            Skill.save areas self db = inr (self', db')
            ∧ pk self' = Some k ∧ db' !! k = Some (fields self')
            ∧ fields self' = fields self))
  ∧ (∀ value,
       Forall (λ c, existsb (Ascii.eqb c)
                      (Alphabet.smalls ++ Alphabet.digits
                       ++ ["_"%char; "-"%char]) = true)
         (list_ascii_of_string (Text.slugify value)))
  ∧ (∀ value : list ascii,
       Forall (λ c, (N_of_ascii c < 128)%N) value →
       Alphabet.letters_and_digits
         (list_ascii_of_string (Text.slugify (string_of_list_ascii value)))
       = map Alphabet.small (Alphabet.letters_and_digits value))
  ∧ (∀ words : list (list ascii),
       Forall (λ w, w ≠ []
                    ∧ Forall (λ c, Alphabet.is_letter_or_digit c = true) w)
         words →
       Text.slugify (string_of_list_ascii (Alphabet.join " " words))
       = string_of_list_ascii
           (Alphabet.join "-" (map (map Alphabet.small) words))).
Proof.
  split_and!.
  - intros self db.
    destruct (derive_slug_cases SkillArea.slug
                (SkillArea.set_slug (Text.slugify (SkillArea.name (fields self)))
                   (fields self)) self db) as (H1 & H2 & H3).
    split_and!; [|exact H2|exact H3].
    intros Hs. unfold SkillArea.save. by rewrite (H1 Hs).
  - intros self db.
    destruct (derive_slug_cases ProjectCategory.slug
                (ProjectCategory.set_slug
                   (Text.slugify (ProjectCategory.name (fields self)))
                   (fields self)) self db) as (H1 & H2 & H3).
    split_and!; [|exact H2|exact H3].
    intros Hs. unfold ProjectCategory.save. by rewrite (H1 Hs).
  - intros self db.
    destruct (derive_slug_cases Project.slug
                (Project.set_slug (Text.slugify (Project.title (fields self)))
                   (fields self)) self db) as (H1 & H2 & H3).
    split_and!; [|exact H2|exact H3].
    intros Hs. unfold Project.save. by rewrite (H1 Hs).
  - intros self db.
    destruct (derive_slug_cases BlogSeries.slug
                (BlogSeries.set_slug (Text.slugify (BlogSeries.name (fields self)))
                   (fields self)) self db) as (H1 & H2 & H3).
    split_and!; [|exact H2|exact H3].
    intros Hs. unfold BlogSeries.save. by rewrite (H1 Hs).
  - intros self db.
    destruct (derive_slug_cases BlogCategory.slug
                (BlogCategory.set_slug
                   (Text.slugify (BlogCategory.name (fields self)))
                   (fields self)) self db) as (H1 & H2 & H3).
    split_and!; [|exact H2|exact H3].
    intros Hs. unfold BlogCategory.save. by rewrite (H1 Hs).
  - intros self db.
    destruct (derive_slug_cases BlogTag.slug
                (BlogTag.set_slug (Text.slugify (BlogTag.name (fields self)))
                   (fields self)) self db) as (H1 & H2 & H3).
    split_and!; [|exact H2|exact H3].
    intros Hs. unfold BlogTag.save. by rewrite (H1 Hs).
  - intros now self db. unfold BlogPost.save.
    destruct (Model_save_stores (BlogPost.before_save now self) db)
      as (k & Hk & Hf & Hl).
    eexists _, _, k. split_and!.
    + unfold Py.ret. f_equal. apply surjective_pairing.
    + done.
    + by rewrite Hf.
    + intros Hs. rewrite Hf. unfold BlogPost.before_save.
      apply truthy_false in Hs. rewrite Hs. simpl.
      by match goal with |- context [if ?c then _ else _] => destruct c end.
    + intros Hs. rewrite Hf. unfold BlogPost.before_save.
      apply truthy_true in Hs. rewrite Hs. simpl.
      by match goal with |- context [if ?c then _ else _] => destruct c end.
  - intros areas self db. split.
    + intros Hs a Ha. unfold Skill.save, Skill.area.
      apply truthy_false in Hs. rewrite Hs, Ha. simpl.
      slug_save. eexists _, _, k. split_and!.
      * unfold Py.ret. f_equal. apply surjective_pairing.
      * done.
      * congruence.
      * match goal with Hf : fields _ = _ |- _ => by rewrite Hf end.
    + intros Hs. unfold Skill.save.
      apply truthy_true in Hs. rewrite Hs. simpl.
      slug_save. eexists _, _, k. split_and!.
      * unfold Py.ret. f_equal. apply surjective_pairing.
      * done.
      * congruence.
      * done.
  - intros value. eapply Forall_impl; [apply slugify_chars|].
    intros c. apply slug_char_spelled.
  - intros value Hv. apply slugify_letters.
    eapply Forall_impl; [exact Hv|]. intros c. apply is_ascii_spec.
  - apply slugify_words.
Qed.

(** ** The export command *)

Lemma get_settings_creates (db : gmap Z SiteSettings.t) :
  (∀ j r, db !! j = Some r → SiteSettings.is_active r = false) →
  SiteSettings.get_settings db
  = inr (Obj (Some (fresh (dom db))) SiteSettings.default_row,
         <[fresh (dom db) := SiteSettings.default_row]> db).
Proof.
  intros Hno. unfold SiteSettings.get_settings.
  rewrite (qs_filter_none _ _ Hno), qs_get_empty.
  unfold SiteSettings.save. simpl.
  assert (Orm.qs_update SiteSettings.is_active
            (SiteSettings.set_is_active false) db = db) as ->; [|done].
  apply map_eq. intros j. unfold Orm.qs_update. rewrite lookup_fmap.
  destruct (db !! j) as [r|] eqn:E; [|done]. simpl.
  by rewrite (Hno _ _ E).
Qed.

Lemma get_settings_found (db : gmap Z SiteSettings.t) k r :
  at_most_one_active SiteSettings.is_active db →
  db !! k = Some r → SiteSettings.is_active r = true →
  SiteSettings.get_settings db = inr (Obj (Some k) r, db).
Proof.
  intros Hinv Hk Ha. unfold SiteSettings.get_settings.
  rewrite (qs_filter_unique _ _ k r); [by rewrite qs_get_singleton|done..|].
  intros k' r' Hk' Ha'. by eapply Hinv.
Qed.

Lemma mapM_total {A B} (f : A → Py.result B) (l : list A) :
  (∀ a, a ∈ l → ∃ b, f a = inr b) → ∃ bs, Command.mapM f l = inr bs.
Proof.
  induction l as [|a l IH]; intros Hall; simpl; [by eexists|].
  destruct (Hall a) as (b & ->); [left|].
  destruct IH as (bs & ->); [intros a' Ha'; apply Hall; by right|].
  simpl. by eexists.
Qed.

Lemma related_name_total {F} model (name : F → string) (t : gmap Z F) fk :
  (∀ k, fk = Some k → is_Some (t !! k)) →
  ∃ j, Command.related_name model name t fk = inr j.
Proof.
  intros Hfk. unfold Command.related_name. destruct fk as [k|]; [|by eexists].
  destruct (Hfk k eq_refl) as (r & ->). by eexists.
Qed.

Lemma rows_elem {F} (t : gmap Z F) (r : F) :
  r ∈ Command.rows t → ∃ k, t !! k = Some r.
Proof.
  unfold Command.rows. intros ([k r'] & -> & Hin)%list_elem_of_fmap.
  exists k. by apply elem_of_map_to_list.
Qed.

Lemma export_profile_missing (w : Command.World) :
  (∀ k p, profiles (Command.db w) !! k = Some p → Profile.is_active p = false) →
  Command.export_profile w
  = inr (Command.write Command.WARNING "  ✗ No profile found" w).
Proof.
  intros Hno. unfold Command.export_profile.
  by rewrite (qs_filter_none _ _ Hno), qs_get_empty.
Qed.

Lemma export_projects_total (w : Command.World) :
  references_resolve (Command.db w) →
  ∃ data,
    Command.export_projects w
    = inr (Command.write Command.PLAIN
             ("  ✓ Exported " +:+ Command.count data +:+ " projects")
             (Command.dump "projects.json" (JList data) w)).
Proof.
  intros (Hcat & _). unfold Command.export_projects.
  match goal with |- context [Command.mapM ?f ?l] =>
    destruct (mapM_total f l) as (data & ->) end.
  - intros p (k & Hk)%rows_elem.
    destruct (related_name_total "ProjectCategory" ProjectCategory.name
                (project_categories (Command.db w)) (Project.category_id p))
      as (j & ->); [by eauto|].
    simpl. by eexists.
  - by exists data.
Qed.

Lemma export_blog_total (w : Command.World) :
  references_resolve (Command.db w) →
  ∃ data,
    Command.export_blog w
    = inr (Command.write Command.PLAIN
             ("  ✓ Exported " +:+ Command.count data +:+ " blog posts")
             (Command.dump "blog.json" (JList data) w)).
Proof.
  intros (_ & Hser & Hcat). unfold Command.export_blog.
  match goal with |- context [Command.mapM ?f ?l] =>
    destruct (mapM_total f l) as (data & ->) end.
  - intros p (k & [Hk _]%qs_filter_lookup)%rows_elem.
    destruct (related_name_total "BlogSeries" BlogSeries.name
                (blog_series (Command.db w)) (BlogPost.series_id p))
      as (j1 & ->); [by eauto|].
    destruct (related_name_total "BlogCategory" BlogCategory.name
                (blog_categories (Command.db w)) (BlogPost.category_id p))
      as (j2 & ->); [by eauto|].
    simpl. by eexists.
  - by exists data.
Qed.

Lemma export_skills_total (w : Command.World) :
  ∃ data,
    Command.export_skills w
    = inr (Command.write Command.PLAIN
             ("  ✓ Exported " +:+ Command.count data +:+ " skills")
             (Command.dump "skills.json" (JList data) w)).
Proof. unfold Command.export_skills. by eexists. Qed.

Lemma export_experience_total (w : Command.World) :
  ∃ data,
    Command.export_experience w
    = inr (Command.write Command.PLAIN
             ("  ✓ Exported " +:+ Command.count data +:+ " experiences")
             (Command.dump "experience.json" (JList data) w)).
Proof. unfold Command.export_experience. by eexists. Qed.

Lemma export_certifications_total (w : Command.World) :
  ∃ data,
    Command.export_certifications w
    = inr (Command.write Command.PLAIN
             ("  ✓ Exported " +:+ Command.count data +:+ " certifications")
             (Command.dump "certifications.json" (JList data) w)).
Proof. unfold Command.export_certifications. by eexists. Qed.

Lemma exported_ne (a b : string) :
  bool_decide (a = b) = false → exported a ≠ exported b.
Proof.
  intros Hne%bool_decide_eq_false Heq. apply Hne.
  unfold exported in Heq. by simplify_eq.
Qed.

Lemma set_site_settings_same (d : Database) :
  d = set_site_settings (site_settings d) d.
Proof. by destruct d. Qed.

Ltac lookup_exported :=
  repeat first
    [ rewrite lookup_insert_eq
    | rewrite lookup_insert_ne by (apply exported_ne; reflexivity) ].

Ltac not_in_log :=
  let Hin := fresh "Hin" in
  intros Hin; apply list_elem_of_In in Hin; simpl in Hin;
  repeat (destruct Hin as [Hin|Hin]; [discriminate Hin|]); exact Hin.

(** X22. In a run of the export where no profile is active (and the
    foreign keys followed by the export resolve), the command does not
    raise: it writes the warning about the missing profile, leaves
    [profile.json] as it was, creates no profile and
    changes no table other than the settings table, and writes the skills,
    projects, experience, certifications and blog files. *)
Theorem export_without_active_profile (w : Command.World) :
  (∀ k p, profiles (Command.db w) !! k = Some p → Profile.is_active p = false) →
  references_resolve (Command.db w) →
  ∃ w' log,
    Command.handle w = inr w'
    ∧ Command.stdout w' = (Command.stdout w ++ log)%list
    ∧ (Command.WARNING, "  ✗ No profile found") ∈ log
    ∧ Command.files w' !! exported "profile.json"
      = Command.files w !! exported "profile.json"
    ∧ Command.db w'
      = set_site_settings (site_settings (Command.db w')) (Command.db w)
    ∧ Forall (λ name, is_Some (Command.files w' !! exported name))
        ["skills.json"; "projects.json"; "experience.json";
         "certifications.json"; "blog.json"].
Proof.
  intros Hnp Href. unfold Command.handle.
  rewrite export_profile_missing by exact Hnp. cbn [Py.bind].
  match goal with |- context [Command.export_skills ?w1] =>
    destruct (export_skills_total w1) as (d1 & ->) end.
  cbn [Py.bind].
  match goal with |- context [Command.export_projects ?w1] =>
    destruct (export_projects_total w1 Href) as (d2 & ->) end.
  cbn [Py.bind].
  match goal with |- context [Command.export_experience ?w1] =>
    destruct (export_experience_total w1) as (d3 & ->) end.
  cbn [Py.bind].
  match goal with |- context [Command.export_certifications ?w1] =>
    destruct (export_certifications_total w1) as (d4 & ->) end.
  cbn [Py.bind].
  match goal with |- context [Command.export_blog ?w1] =>
    destruct (export_blog_total w1 Href) as (d5 & ->) end.
  cbn [Py.bind].
  unfold Command.export_site_settings.
  cbn [Command.db Command.write Command.dump Command.files Command.stdout].
  destruct (SiteSettings.get_settings (site_settings (Command.db w)))
    as [e|[settings table]] eqn:Eget; cbn [Py.bind Py.ret].
  - eexists _, _. split; [reflexivity|].
    cbn [Command.db Command.write Command.dump Command.files Command.stdout].
    split_and!.
    + rewrite <- !app_assoc. reflexivity.
    + apply list_elem_of_In. simpl. auto.
    + by lookup_exported.
    + apply set_site_settings_same.
    + repeat constructor; lookup_exported; by eexists.
  - eexists _, _. split; [reflexivity|].
    cbn [Command.db Command.write Command.dump Command.files Command.stdout].
    split_and!.
    + rewrite <- !app_assoc. reflexivity.
    + apply list_elem_of_In. simpl. auto.
    + by lookup_exported.
    + by destruct (Command.db w).
    + repeat constructor; lookup_exported; by eexists.
Qed.

Lemma one_or_none {F} (active : F → bool) (t : gmap Z F) :
  at_most_one_active active t →
  Orm.qs_filter active t = ∅
  ∨ ∃ k r, t !! k = Some r ∧ active r = true
           ∧ Orm.qs_filter active t = {[ k := r ]}.
Proof.
  intros Hinv.
  destruct (decide (Orm.qs_filter active t = ∅)) as [|Hne]; [by left|right].
  apply map_choose in Hne as (k & r & Hkr).
  apply qs_filter_lookup in Hkr as [Hk Ha].
  exists k, r. split_and!; [done..|].
  apply qs_filter_unique; [done..|].
  intros k' r' Hk' Ha'. by eapply Hinv.
Qed.

(** C8, the settings file, as the code has it. On a database where no
    settings row is active, [export_site_settings] does not warn and does
    not skip [site.json]: [get_settings] creates the default settings row
    under a key that was free, and [site.json] is written from that row and
    reported as exported. So does the whole run, whenever it reaches the
    settings (at most one profile is active and the foreign keys followed
    by the export resolve). The claim asks for what [export_profile] does
    in the same situation: a warning, no file, no row. *)
Theorem export_creates_missing_settings (w : Command.World) :
  (∀ k r, site_settings (Command.db w) !! k = Some r →
          SiteSettings.is_active r = false) →
  (∃ k,
      site_settings (Command.db w) !! k = None
      ∧ Command.export_site_settings w
        = inr {| Command.db :=
                   set_site_settings
                     (<[k := SiteSettings.default_row]>
                        (site_settings (Command.db w)))
                     (Command.db w);
                 Command.files :=
                   <[exported "site.json" :=
                      JDict [
                        ("site_title", JStr "Portfolio");
                        ("site_tagline", JStr "");
                        ("site_description", JNull);
                        ("contact_email", JStr "contact@example.com");
                        ("contact_phone", JNull);
                        ("social", JDict [("github", JNull);
                                          ("linkedin", JNull);
                                          ("twitter", JNull)]);
                        ("features",
                           JDict [("enable_blog", JBool true);
                                  ("enable_contact_form", JBool true)])]]>
                     (Command.files w);
                 Command.stdout :=
                   (Command.stdout w
                    ++ [(Command.PLAIN, "  ✓ Exported site.json")])%list |})
  ∧ (at_most_one_active Profile.is_active (profiles (Command.db w)) →
     references_resolve (Command.db w) →
     ∃ w' log,
       Command.handle w = inr w'
       ∧ Command.stdout w' = (Command.stdout w ++ log)%list
       ∧ ((Command.WARNING, "  ✗ No site settings found") ∉ log)
       ∧ (Command.PLAIN, "  ✓ Exported site.json") ∈ log
       ∧ (∃ k, site_settings (Command.db w) !! k = None
               ∧ site_settings (Command.db w')
                 = <[k := SiteSettings.default_row]>
                     (site_settings (Command.db w)))
       ∧ Command.files w' !! exported "site.json"
         = Some (JDict [
             ("site_title", JStr "Portfolio");
             ("site_tagline", JStr "");
             ("site_description", JNull);
             ("contact_email", JStr "contact@example.com");
             ("contact_phone", JNull);
             ("social", JDict [("github", JNull); ("linkedin", JNull);
                               ("twitter", JNull)]);
             ("features", JDict [("enable_blog", JBool true);
                                 ("enable_contact_form", JBool true)])])).
Proof.
  intros Hno. split.
  { exists (fresh (dom (site_settings (Command.db w)))). split.
    - apply not_elem_of_dom, is_fresh.
    - unfold Command.export_site_settings.
      rewrite (get_settings_creates _ Hno). reflexivity. }
  intros Hinv Href. unfold Command.handle.
  assert (∃ w1 out,
            Command.export_profile
              (Command.write Command.PLAIN
                 "Exporting portfolio data to JSON..." w) = inr w1
            ∧ Command.db w1 = Command.db w
            ∧ Command.stdout w1
              = (Command.stdout w
                 ++ [(Command.PLAIN, "Exporting portfolio data to JSON...");
                     out])%list
            ∧ out ≠ (Command.WARNING, "  ✗ No site settings found")
            ∧ Command.files w1 !! exported "site.json"
              = Command.files w !! exported "site.json")
    as (w1 & out & -> & Hdb1 & Hout1 & Hne1 & Hfiles1).
  { unfold Command.export_profile.
    cbn [Command.db Command.write Command.dump Command.files Command.stdout].
    destruct (one_or_none _ _ Hinv) as [He|(k & p & Hk & Ha & He)]; rewrite He.
    - rewrite qs_get_empty.
      eexists _, (Command.WARNING, "  ✗ No profile found").
      split; [reflexivity|].
      cbn [Command.db Command.write Command.files Command.stdout].
      split_and!; [done| |discriminate|done].
      rewrite <- app_assoc. reflexivity.
    - rewrite qs_get_singleton.
      eexists _, (Command.PLAIN, "  ✓ Exported profile.json").
      split; [reflexivity|].
      cbn [Command.db Command.write Command.dump Command.files Command.stdout].
      split_and!; [done| |discriminate|by lookup_exported].
      rewrite <- app_assoc. reflexivity. }
  cbn [Py.bind]. rewrite <- Hdb1 in Href, Hno. clear Hinv.
  match goal with |- context [Command.export_skills ?a] =>
    destruct (export_skills_total a) as (d1 & ->) end.
  cbn [Py.bind].
  match goal with |- context [Command.export_projects ?a] =>
    destruct (export_projects_total a Href) as (d2 & ->) end.
  cbn [Py.bind].
  match goal with |- context [Command.export_experience ?a] =>
    destruct (export_experience_total a) as (d3 & ->) end.
  cbn [Py.bind].
  match goal with |- context [Command.export_certifications ?a] =>
    destruct (export_certifications_total a) as (d4 & ->) end.
  cbn [Py.bind].
  match goal with |- context [Command.export_blog ?a] =>
    destruct (export_blog_total a Href) as (d5 & ->) end.
  cbn [Py.bind].
  unfold Command.export_site_settings.
  cbn [Command.db Command.write Command.dump Command.files Command.stdout].
  rewrite (get_settings_creates _ Hno). cbn [Py.bind Py.ret].
  eexists _, _. split; [reflexivity|].
  cbn [Command.db Command.write Command.dump Command.files Command.stdout].
  rewrite Hout1, Hdb1. split_and!.
  - rewrite <- !app_assoc. reflexivity.
  - intros Hin. apply list_elem_of_In in Hin. simpl in Hin.
    destruct Hin as [Hin|Hin]; [discriminate Hin|].
    destruct Hin as [Hin|Hin]; [by apply Hne1|].
    repeat (destruct Hin as [Hin|Hin]; [discriminate Hin|]). exact Hin.
  - apply list_elem_of_In. simpl. auto 10.
  - exists (fresh (dom (site_settings (Command.db w)))). split.
    + apply not_elem_of_dom, is_fresh.
    + by destruct (Command.db w).
  - by lookup_exported.
Qed.

(** ** Worked examples *)


(** A project created as "Portfolio Site" gets the slug "portfolio-site",
    and keeps it when saved again under a new title. *)
Lemma slug_derivation_example :
  Project.slug
    (fields (@Project.save Sample.ascii_text
               (Obj None (Sample.project "Portfolio Site" "" None)) ∅).1)
  = "portfolio-site"
  ∧ fields (@Project.save Sample.ascii_text
              (Obj (Some 0) (Sample.project "Renamed" "portfolio-site" None)) ∅).1
    = Sample.project "Renamed" "portfolio-site" None.
Proof.
  destruct (@slug_derivation Sample.ascii_text)
    as (_ & _ & Hproject & _ & _ & _ & _ & _ & _ & _ & Hwords).
  split.
  - destruct (Hproject (Obj None (Sample.project "Portfolio Site" "" None)) ∅)
      as (Hcreate & _). rewrite Hcreate by reflexivity.
    apply (Hwords [list_ascii_of_string "Portfolio";
                   list_ascii_of_string "Site"]).
    repeat (constructor; [split; [discriminate|repeat constructor]|]).
    constructor.
  - destruct (Hproject
                (Obj (Some 0) (Sample.project "Renamed" "portfolio-site" None)) ∅)
      as (_ & Hkeep & _). apply Hkeep. discriminate.
Defined.

(** A project created with the title "!!!" has the empty slug, and the
    save after renaming it computes a slug from the new title. *)
Lemma slug_recomputed_when_empty :
  let created :=
    @Project.save Sample.ascii_text (Obj None (Sample.project "!!!" "" None)) ∅ in
  let renamed :=
    Obj (pk created.1) (Project.set_title "Django API" (fields created.1)) in
  let saved_again := @Project.save Sample.ascii_text renamed created.2 in
  Project.slug (fields created.1) = @Text.slugify Sample.ascii_text "!!!"
  ∧ Project.slug (fields created.1) = ""
  ∧ Project.slug (fields saved_again.1) = "django-api"
  ∧ Project.slug (fields saved_again.1) ≠ Project.slug (fields created.1).
Proof. vm_compute. split_and!; try reflexivity. discriminate. Qed.

(** A draft switched to "published" and saved twice keeps the instant of
    the first save. *)
Lemma publish_date_defaulting_example :
  ∃ self1 db1 self2 db2,
    @BlogPost.save Sample.ascii_text Sample.now None
      (Obj None (Sample.post "published" None)) ∅ = inr (self1, db1)
    ∧ BlogPost.published_date (fields self1) = Some Sample.now
    ∧ @BlogPost.save Sample.ascii_text Sample.later None self1 db1
      = inr (self2, db2)
    ∧ BlogPost.published_date (fields self2) = Some Sample.now.
Proof.
  destruct (@publish_date_defaulting Sample.ascii_text Sample.now Sample.later
              (Obj None (Sample.post "published" None)) ∅)
    as (self1 & db1 & self2 & db2 & k & H1 & _ & _ & Hset & _ & H2 & _ & _ & Hkeep).
  exists self1, db1, self2, db2. split_and!.
  - exact H1.
  - apply Hset; reflexivity.
  - exact H2.
  - apply Hkeep; reflexivity.
Defined.

(** Expiry on the current date does not count as expired; the day before
    does. *)
Lemma is_expired_example :
  Certification.is_expired Sample.now
    (Sample.certification (Some (Date.Make 2024 1 15))) = false
  ∧ Certification.is_expired Sample.now
      (Sample.certification (Some (Date.Make 2024 1 14))) = true
  ∧ Certification.is_expired Sample.now (Sample.certification None) = false.
Proof.
  split_and!.
  - apply (is_expired_cases Sample.now
             (Sample.certification (Some (Date.Make 2024 1 15)))).
    reflexivity.
  - apply (proj1 (proj2 (is_expired_cases Sample.now
             (Sample.certification (Some (Date.Make 2024 1 14)))))
             (Date.Make 2024 1 14)); reflexivity.
  - apply (proj1 (is_expired_cases Sample.now (Sample.certification None))).
    reflexivity.
Defined.

Lemma sample_post_named :
  names_published "hello-world" 7 (Sample.post "published" (Some Sample.now))
    {[ 7 := Sample.post "published" (Some Sample.now) ]}.
Proof.
  split_and!.
  - apply lookup_singleton_eq.
  - reflexivity.
  - reflexivity.
  - intros k' p' Hk' _ _. by apply lookup_singleton_Some in Hk' as [<- _].
Defined.

(** Three views of the sample post, which starts at 41 views. *)
Lemma view_count_sequential_example :
  ∃ posts',
    @BlogPostDetailView.views Sample.ascii_text
      [Sample.now; Sample.now; Sample.later] "hello-world"
      {[ 7 := Sample.post "published" (Some Sample.now) ]} = inr posts'
    ∧ posts' !! 7
      = Some (BlogPost.Row "Hello World" "hello-world" None None "excerpt"
                "content" "published" (Some Sample.now) "" "" 5 44 false 0).
Proof.
  destruct (@view_count_sequential Sample.ascii_text
              [Sample.now; Sample.now; Sample.later] Sample.now "hello-world" 7
              (Sample.post "published" (Some Sample.now))
              {[ 7 := Sample.post "published" (Some Sample.now) ]}
              sample_post_named eq_refl)
    as (Hviews & _).
  destruct Hviews as (posts' & Hviews & Hk & _).
  { vm_compute. discriminate. }
  exists posts'. split; [exact Hviews|]. rewrite Hk. reflexivity.
Defined.

(** C6 as stated, refuted: a published post whose counter stands at the
    largest number the column holds. One retrieval of it does not raise
    the stored count by one: the write of the next number fails, the call
    raises, and the table is as before. *)
Lemma view_count_stops_at_top :
  names_published "hello-world" 7 Demo.most_viewed {[ 7 := Demo.most_viewed ]}
  ∧ Orm.integer_in_range (BlogPost.view_count Demo.most_viewed) = true
  ∧ @BlogPostDetailView.views Sample.ascii_text [Sample.now] "hello-world"
      {[ 7 := Demo.most_viewed ]}
    = inl (Py.OverflowError "Python int too large to convert to SQLite INTEGER")
  ∧ ¬ ∃ posts',
        @BlogPostDetailView.views Sample.ascii_text [Sample.now] "hello-world"
          {[ 7 := Demo.most_viewed ]} = inr posts'.
Proof.
  assert (@BlogPostDetailView.views Sample.ascii_text [Sample.now]
            "hello-world" {[ 7 := Demo.most_viewed ]}
          = inl (Py.OverflowError
                   "Python int too large to convert to SQLite INTEGER")) as Hv.
  { vm_compute. reflexivity. }
  split_and!.
  - split_and!.
    + apply lookup_singleton_eq.
    + reflexivity.
    + reflexivity.
    + intros k' p' Hk' _ _. by apply lookup_singleton_Some in Hk' as [<- _].
  - reflexivity.
  - exact Hv.
  - intros (posts' & Hp). rewrite Hv in Hp. discriminate.
Qed.

(** A search for "django" keeps the sample project, whose action text
    says "Django"; and the category "nope", which does not exist, selects
    nothing, with no search at all. *)
Lemma projects_search_example :
  ProjectsListView.get_queryset (Sample.search "django") ∅
    {[ 3 := Sample.project "Shop API" "shop-api" None ]} !! 3
  = Some (Sample.project "Shop API" "shop-api" None)
  ∧ ProjectsListView.get_queryset {| GET := {[ "category" := "nope" ]} |}
      {[ 1 := ProjectCategory.Row "Web" "web" None ]}
      {[ 3 := Sample.project "Shop API" "shop-api" (Some 1) ]} = ∅.
Proof.
  split.
  - destruct (projects_search (Sample.search "django") ∅
                {[ 3 := Sample.project "Shop API" "shop-api" None ]})
      as (_ & Hq & _).
    apply (Hq "django"); [reflexivity|]. split_and!.
    + apply lookup_singleton_eq.
    + exact I.
    + right. right. exists (list_ascii_of_string "built with "),
        (list_ascii_of_string " rest"). reflexivity.
  - destruct (projects_search {| GET := {[ "category" := "nope" ]} |}
                {[ 1 := ProjectCategory.Row "Web" "web" None ]}
                {[ 3 := Sample.project "Shop API" "shop-api" (Some 1) ]})
      as (_ & _ & Hnone).
    apply (Hnone "nope"); [reflexivity|discriminate|].
    intros cid cat Hcat Hs.
    apply lookup_singleton_Some in Hcat as [_ <-]. discriminate.
Defined.

(** C7 as stated, refuted: the project titled "CAFÉ menu" contains the
    search text "café" once case is ignored, and passes the (absent)
    category filter, but the listing for [?q=café] does not hold it: the
    database compares É and é as different characters. *)
Lemma search_misses_accented_capital :
  case_insensitive_substring "café" "CAFÉ menu"
  ∧ category_matches (Sample.search "café") ∅
      (Sample.project "CAFÉ menu" "cafe-menu" None)
  ∧ ProjectsListView.get_queryset (Sample.search "café") ∅
      {[ 3 := Sample.project "CAFÉ menu" "cafe-menu" None ]} !! 3 = None
  ∧ ProjectsListView.get_queryset (Sample.search "cafÉ") ∅
      {[ 3 := Sample.project "CAFÉ menu" "cafe-menu" None ]} !! 3
    = Some (Sample.project "CAFÉ menu" "cafe-menu" None).
Proof.
  split_and!.
  - exists [], (list_ascii_of_string " menu"). reflexivity.
  - exact I.
  - reflexivity.
  - reflexivity.
Qed.

(** The export of a database whose only profile is switched off: the
    warning, no [profile.json], the profile table as it was, and the
    skills file. *)
Lemma export_without_active_profile_example :
  ∃ w' log,
    Command.handle (Demo.world {[ 1 := Demo.retired_profile ]} ∅) = inr w'
    ∧ Command.stdout w' = log
    ∧ (Command.WARNING, "  ✗ No profile found") ∈ log
    ∧ Command.files w' !! exported "profile.json" = None
    ∧ profiles (Command.db w') = {[ 1 := Demo.retired_profile ]}
    ∧ Command.files w' !! exported "skills.json" = Some (JList []).
Proof.
  destruct (export_without_active_profile
              (Demo.world {[ 1 := Demo.retired_profile ]} ∅))
    as (w' & log & Hrun & Hout & Hwarn & Hfile & Hdb & Hothers).
  - intros k p Hk. simpl in Hk.
    by apply lookup_singleton_Some in Hk as [_ <-].
  - split_and!; intros k p ? Hk; simpl in Hk; by rewrite lookup_empty in Hk.
  - exists w', log. split_and!; try done.
    + by rewrite Hdb.
    + assert (Command.handle (Demo.world {[ 1 := Demo.retired_profile ]} ∅)
              = inr w') as Hrun' by exact Hrun.
      vm_compute in Hrun'. injection Hrun' as <-. reflexivity.
Defined.

(** The export of an empty database creates a settings row and writes
    [site.json] without a warning about the settings. *)
Lemma export_creates_settings_row :
  site_settings (Command.db Sample.empty_world) = ∅
  ∧ (∃ w1 k,
       Command.export_site_settings Sample.empty_world = inr w1
       ∧ site_settings (Command.db w1) = {[ k := SiteSettings.default_row ]}
       ∧ Command.stdout w1 = [(Command.PLAIN, "  ✓ Exported site.json")])
  ∧ ∃ w',
      Command.handle Sample.empty_world = inr w'
      ∧ site_settings (Command.db w') = {[ 0 := SiteSettings.default_row ]}
      ∧ is_Some (Command.files w' !! exported "site.json")
      ∧ ((Command.WARNING, "  ✗ No site settings found") ∉ Command.stdout w')
      ∧ (Command.PLAIN, "  ✓ Exported site.json") ∈ Command.stdout w'.
Proof.
  split; [reflexivity|].
  destruct (export_creates_missing_settings Sample.empty_world)
    as ((k0 & _ & Hstep) & Hrun).
  { intros k r Hk. simpl in Hk. by rewrite lookup_empty in Hk. }
  split.
  { eexists _, k0. split; [exact Hstep|]. split; [|reflexivity].
    simpl. apply insert_empty. }
  destruct Hrun
    as (w' & log & Hrun & Hout & Hquiet & Hsaid & (k & Hfree & Hrow) & Hfile).
  - intros k1 k2 r1 r2 Hk. simpl in Hk. by rewrite lookup_empty in Hk.
  - split_and!; intros k p ? Hk; simpl in Hk; by rewrite lookup_empty in Hk.
  - exists w'. split_and!.
    + exact Hrun.
    + assert (Command.handle Sample.empty_world = inr w') as Hrun'
        by exact Hrun.
      vm_compute in Hrun'. injection Hrun' as <-. vm_compute. reflexivity.
    + rewrite Hfile. by eexists.
    + by rewrite Hout.
    + by rewrite Hout.
Defined.

(** C9 as stated, refuted: in the state where two settings rows are
    active (written by a bulk update, say, which does not go through
    [save]) the accessor raises and returns no row. *)
Lemma get_settings_fails_on_two_active_rows :
  SiteSettings.is_active Sample.settings = true
  ∧ SiteSettings.is_active SiteSettings.default_row = true
  ∧ SiteSettings.get_settings
      {[ 4 := Sample.settings; 9 := SiteSettings.default_row ]}
    = inl (Py.MultipleObjectsReturned "SiteSettings")
  ∧ ¬ ∃ settings db',
        SiteSettings.get_settings
          {[ 4 := Sample.settings; 9 := SiteSettings.default_row ]}
        = inr (settings, db').
Proof.
  assert (SiteSettings.get_settings
            {[ 4 := Sample.settings; 9 := SiteSettings.default_row ]}
          = inl (Py.MultipleObjectsReturned "SiteSettings")) as Hraise
    by (vm_compute; reflexivity).
  split_and!; [reflexivity|reflexivity|exact Hraise|].
  intros (settings & db' & Hget). rewrite Hraise in Hget. discriminate.
Qed.

(** On an empty settings table the accessor creates the default row. *)
Lemma get_settings_never_fails_example :
  ∃ settings db' k,
    SiteSettings.get_settings ∅ = inr (settings, db')
    ∧ pk settings = Some k
    ∧ db' !! k = Some (fields settings)
    ∧ SiteSettings.site_title (fields settings) = "Portfolio"
    ∧ SiteSettings.contact_email (fields settings) = "contact@example.com".
Proof.
  destruct (get_settings_never_fails ∅)
    as (settings & db' & k & Hget & Hpk & Hrow & _ & Hdefault & _).
  - intros k1 k2 r1 r2 H1. by rewrite lookup_empty in H1.
  - destruct Hdefault as (_ & _ & _ & Htitle & Hmail).
    { intros j r Hj. by rewrite lookup_empty in Hj. }
    by exists settings, db', k.
Defined.

(** The endpoint on an empty table, and on a table with one active
    profile that has a GitHub and a Twitter address and no LinkedIn one. *)
Lemma profile_json_response_example :
  profile_json (Sample.search "") ∅ = {| status_code := 200; data := JDict [] |}
  ∧ profile_json (Sample.search "") {[ 1 := Demo.linked_profile "Ann" ]}
    = {| status_code := 200;
         data := JDict [
           ("name", JStr "Ann"); ("title", JStr "Engineer");
           ("bio", JStr "bio"); ("summary", JStr "summary");
           ("email", JStr "me@example.com");
           ("social", JDict [
              ("github", JStr "https://github.com/ann");
              ("linkedin", JNull);
              ("twitter", JStr "https://twitter.com/ann")])] |}.
Proof.
  split.
  - apply (profile_json_response (Sample.search "") ∅).
    intros k p Hk. by rewrite lookup_empty in Hk.
  - rewrite (proj2 (profile_json_response (Sample.search "")
                      {[ 1 := Demo.linked_profile "Ann" ]})
               1 (Demo.linked_profile "Ann")).
    + reflexivity.
    + apply lookup_singleton_eq.
    + reflexivity.
    + intros k' p' Hk' _. apply lookup_singleton_Some in Hk' as [<- _]. lia.
Defined.

(** * Further properties of the application *)

(** ** What the administrator sees for a duration *)

(** X1. In the global scope of [core/models.py] the admin column
    [duration_display] shows a dash for every experience. *)
Theorem duration_display_always_dash (now : DateTime.t) (obj : Experience.t) :
  ExperienceAdmin.duration_display Scope.models_globals now obj = "-".
Proof.
  unfold ExperienceAdmin.duration_display.
  rewrite duration_always_raises. by destruct (Experience.end_date obj).
Qed.

(** ** Expiry over time *)

Lemma Date_ltb_lt (a b : Date.t) :
  Date.ltb a b = true ↔
  Date.year a < Date.year b
  ∨ (Date.year a = Date.year b
     ∧ (Date.month a < Date.month b
        ∨ (Date.month a = Date.month b ∧ Date.day a < Date.day b))).
Proof.
  unfold Date.ltb.
  rewrite !orb_true_iff, !andb_true_iff, !orb_true_iff, !andb_true_iff,
    !Z.ltb_lt, !Z.eqb_eq. tauto.
Qed.

(** X2. A certification that is expired stays expired: if [is_expired]
    holds at one instant it holds at every instant whose date is not
    earlier. *)
Theorem is_expired_stays (now later : DateTime.t) (c : Certification.t) :
  Certification.is_expired now c = true →
  Date.ltb (DateTime.date later) (DateTime.date now) = false →
  Certification.is_expired later c = true.
Proof.
  unfold Certification.is_expired.
  destruct (Certification.expiry_date c) as [d|]; [|done].
  intros Hd Hnot. apply Date_ltb_lt in Hd. apply Date_ltb_lt.
  assert (¬ (Date.ltb (DateTime.date later) (DateTime.date now) = true)) as Hn
    by (rewrite Hnot; done).
  rewrite Date_ltb_lt in Hn. lia.
Qed.

Lemma is_expired_stays_example :
  Certification.is_expired Sample.later
    (Sample.certification (Some (Date.Make 2024 1 14))) = true.
Proof.
  apply (is_expired_stays Sample.now Sample.later); reflexivity.
Defined.

(** ** Publication state after a save *)

(** X3. After a plain save a blog post counts as published exactly when
    its status is "published": the save goes through, stores the post, and
    [is_published] of the stored post is true for the status "published"
    (the date is filled in when it was missing) and false for any other
    status. *)
Theorem save_settles_is_published `{Unicode} (now : DateTime.t)
    (self : Instance BlogPost.t) (db : gmap Z BlogPost.t) :
  ∃ self' db' k,
    BlogPost.save now None self db = inr (self', db')
    ∧ pk self' = Some k
    ∧ db' !! k = Some (fields self')
    ∧ BlogPost.is_published (fields self')
      = String.eqb (BlogPost.status (fields self)) "published".
Proof.
  unfold BlogPost.save.
  destruct (Model_save_stores (BlogPost.before_save now self) db)
    as (k & Hk & Hf & Hl).
  eexists _, _, k. split_and!.
  - unfold Py.ret. f_equal. apply surjective_pairing.
  - done.
  - by rewrite Hf.
  - rewrite Hf. unfold BlogPost.is_published.
    rewrite before_save_status, before_save_published_date.
    destruct (String.eqb (BlogPost.status (fields self)) "published");
      [|done].
    by destruct (BlogPost.published_date (fields self)).
Qed.

(** ** Several active rows *)

Lemma qs_get_many {F} model (t : gmap Z F) k1 k2 r1 r2 :
  t !! k1 = Some r1 → t !! k2 = Some r2 → k1 ≠ k2 →
  Orm.qs_get model t = inl (Py.MultipleObjectsReturned model).
Proof.
  intros H1 H2 Hne. unfold Orm.qs_get.
  apply elem_of_map_to_list in H1, H2.
  destruct (map_to_list t) as [|[k r] [|kr l]]; [by inversion H1| |done].
  apply list_elem_of_singleton in H1, H2. congruence.
Qed.

(** X4. When two settings rows are active, [get_settings] raises
    [MultipleObjectsReturned]; the template context processor then puts
    [None] under [site_settings], and the export writes its warning and
    no [site.json]; neither changes the settings table. *)
Theorem two_active_settings (SFIA PORTFOLIO : json) (request : HttpRequest)
    (w : Command.World) (k1 k2 : Z) (r1 r2 : SiteSettings.t) :
  site_settings (Command.db w) !! k1 = Some r1 →
  site_settings (Command.db w) !! k2 = Some r2 →
  k1 ≠ k2 →
  SiteSettings.is_active r1 = true → SiteSettings.is_active r2 = true →
  SiteSettings.get_settings (site_settings (Command.db w))
  = inl (Py.MultipleObjectsReturned "SiteSettings")
  ∧ ContextProcessors.site_settings SFIA PORTFOLIO request
      (site_settings (Command.db w))
    = ({| ctx_site_settings := None; ctx_sfia_levels := SFIA;
          ctx_portfolio_settings := PORTFOLIO |},
       site_settings (Command.db w))
  ∧ Command.export_site_settings w
    = inr (Command.write Command.WARNING "  ✗ No site settings found" w).
Proof.
  intros H1 H2 Hne A1 A2.
  assert (SiteSettings.get_settings (site_settings (Command.db w))
          = inl (Py.MultipleObjectsReturned "SiteSettings")) as Hget.
  { unfold SiteSettings.get_settings.
    rewrite (qs_get_many "SiteSettings" _ k1 k2 r1 r2); [done| | |done];
      by apply qs_filter_lookup. }
  split_and!; [done| |].
  - unfold ContextProcessors.site_settings. by rewrite Hget.
  - unfold Command.export_site_settings. by rewrite Hget.
Qed.

(** X5. When two profiles are active the export stops at its first step:
    [handle] raises [MultipleObjectsReturned], which [export_profile] does
    not catch, so no later export runs. *)
Theorem export_stops_on_two_profiles (w : Command.World) (k1 k2 : Z)
    (p1 p2 : Profile.t) :
  profiles (Command.db w) !! k1 = Some p1 →
  profiles (Command.db w) !! k2 = Some p2 →
  k1 ≠ k2 →
  Profile.is_active p1 = true → Profile.is_active p2 = true →
  Command.export_profile w = inl (Py.MultipleObjectsReturned "Profile")
  ∧ Command.handle w = inl (Py.MultipleObjectsReturned "Profile").
Proof.
  intros H1 H2 Hne A1 A2.
  assert (∀ v, Command.db v = Command.db w →
            Command.export_profile v = inl (Py.MultipleObjectsReturned "Profile"))
    as Hstop.
  { intros v Hv. unfold Command.export_profile. rewrite Hv.
    rewrite (qs_get_many "Profile" _ k1 k2 p1 p2); [done| | |done];
      by apply qs_filter_lookup. }
  split; [by apply Hstop|].
  unfold Command.handle. by rewrite Hstop.
Qed.

(** ** The settings accessor, called again *)

Lemma qs_get_nothing {F} model model' (t : gmap Z F) :
  Orm.qs_get model t = inl (Py.DoesNotExist model') → t = ∅.
Proof.
  unfold Orm.qs_get. intros Hget. apply map_to_list_empty_iff.
  destruct (map_to_list t) as [|[k r] [|kr l]]; [done|discriminate..].
Qed.

Lemma get_settings_again (db db' : gmap Z SiteSettings.t) settings :
  SiteSettings.get_settings db = inr (settings, db') →
  SiteSettings.get_settings db' = inr (settings, db').
Proof.
  intros Hget. pose proof Hget as Hget0. unfold SiteSettings.get_settings in Hget.
  destruct (Orm.qs_get "SiteSettings" (Orm.qs_filter SiteSettings.is_active db))
    as [e|found] eqn:E.
  - destruct e; try discriminate Hget.
    apply qs_get_nothing in E.
    assert (∀ j r, db !! j = Some r → SiteSettings.is_active r = false) as Hno.
    { intros j r Hj. destruct (SiteSettings.is_active r) eqn:Ea; [|done].
      assert (Orm.qs_filter SiteSettings.is_active db !! j = Some r) as Hf
        by by apply qs_filter_lookup.
      by rewrite E in Hf. }
    rewrite (get_settings_creates db Hno) in Hget0.
    injection Hget0 as <- <-.
    unfold SiteSettings.get_settings.
    rewrite (qs_filter_unique _ _ (fresh (dom db)) SiteSettings.default_row).
    + by rewrite qs_get_singleton.
    + apply lookup_insert_eq.
    + done.
    + intros k' r' Hk' Ha'.
      destruct (decide (k' = fresh (dom db))) as [|Hne]; [done|].
      rewrite lookup_insert_ne in Hk' by done.
      rewrite (Hno _ _ Hk') in Ha'. done.
  - injection Hget as <- <-. exact Hget0.
Qed.

(** X6. Calling the template context processor a second time gives the
    same context as the first call and leaves the settings table as the
    first call left it: the default settings row is created at most
    once. *)
Theorem site_settings_settles (SFIA PORTFOLIO : json)
    (request request' : HttpRequest) (db : gmap Z SiteSettings.t) :
  ContextProcessors.site_settings SFIA PORTFOLIO request'
    (ContextProcessors.site_settings SFIA PORTFOLIO request db).2
  = ContextProcessors.site_settings SFIA PORTFOLIO request db.
Proof.
  unfold ContextProcessors.site_settings.
  destruct (SiteSettings.get_settings db) as [e|[settings db']] eqn:E; simpl.
  - by rewrite E.
  - by rewrite (get_settings_again _ _ _ E).
Qed.

(** ** Adding a second settings row *)

Lemma qs_exists_empty_iff {F} (t : gmap Z F) : Orm.qs_exists t = false ↔ t = ∅.
Proof.
  unfold Orm.qs_exists. rewrite <- map_to_list_empty_iff.
  by destruct (map_to_list t).
Qed.

Lemma has_add_permission_stored request (db : gmap Z SiteSettings.t) k r :
  db !! k = Some r → SiteSettingsAdmin.has_add_permission request db = false.
Proof.
  intros Hk. unfold SiteSettingsAdmin.has_add_permission.
  destruct (Orm.qs_exists db) eqn:E; [done|].
  apply qs_exists_empty_iff in E. subst db. by rewrite lookup_empty in Hk.
Qed.

(** X7. The admin offers to add a settings row only while the table is
    empty: after any save of a settings row, and after any call of
    [get_settings] that returned, [has_add_permission] is false. *)
Theorem has_add_permission_once (request : HttpRequest) :
  (∀ db, SiteSettingsAdmin.has_add_permission request db = true ↔ db = ∅)
  ∧ (∀ self db,
       SiteSettingsAdmin.has_add_permission request
         (SiteSettings.save self db).2 = false)
  ∧ (∀ db settings db',
       SiteSettings.get_settings db = inr (settings, db') →
       SiteSettingsAdmin.has_add_permission request db' = false).
Proof.
  split_and!.
  - intros db. unfold SiteSettingsAdmin.has_add_permission.
    rewrite negb_true_iff. apply qs_exists_empty_iff.
  - intros self db. unfold SiteSettings.save.
    match goal with |- context [Orm.Model_save ?s ?t] =>
      destruct (Model_save_stores s t) as (k & _ & _ & Hl) end.
    by eapply has_add_permission_stored.
  - intros db settings db' Hget.
    apply get_settings_again in Hget.
    unfold SiteSettings.get_settings in Hget.
    destruct (Orm.qs_get "SiteSettings"
                (Orm.qs_filter SiteSettings.is_active db')) as [e|found] eqn:E.
    + destruct e; try discriminate Hget.
      apply qs_get_nothing in E.
      injection Hget as _ Hdb.
      match type of Hdb with <[?k := ?r]> ?t = _ =>
        pose proof (lookup_insert_eq t k r) as Hl end.
      rewrite Hdb in Hl. by eapply has_add_permission_stored.
    + clear Hget. unfold Orm.qs_get in E.
      destruct (map_to_list (Orm.qs_filter SiteSettings.is_active db'))
        as [|[k r] [|kr l]] eqn:El; try discriminate E.
      assert ((k, r) ∈ map_to_list (Orm.qs_filter SiteSettings.is_active db'))
        as Hin by (rewrite El; left).
      apply elem_of_map_to_list, qs_filter_lookup in Hin as [Hk _].
      by eapply has_add_permission_stored.
Qed.

(** ** The active profile, after saves *)

(** X8. After a sequence of profile saves that ends with the save of an
    active profile, the export finds exactly that profile: it does not
    raise, and writes [profile.json] from the fields of the profile saved
    last; the JSON endpoint answers with the same name, title, bio, summary
    and e-mail. In both, a social link is the stored address, or [null]
    when the profile has none. *)
Theorem last_saved_profile_is_served (request : HttpRequest)
    (w : Command.World) (db0 : gmap Z Profile.t)
    (earlier : list (Instance Profile.t)) (last : Instance Profile.t) :
  Profile.is_active (fields last) = true →
  profiles (Command.db w) = Profile.save_all (earlier ++ [last]) db0 →
  Command.export_profile w
  = inr {| Command.db := Command.db w;
           Command.files :=
             <["portfolio_project/data/profile.json" :=
                JDict [
                  ("name", JStr (Profile.name (fields last)));
                  ("title", JStr (Profile.job_title (fields last)));
                  ("bio", JStr (Profile.bio (fields last)));
                  ("summary", JStr (Profile.summary (fields last)));
                  ("email", JStr (Profile.email (fields last)));
                  ("phone", JStr (Profile.phone (fields last)));
                  ("location", JStr (Profile.location (fields last)));
                  ("social", JDict [
                     ("github", match Profile.github_url (fields last) with
                                | Some url => JStr url
                                | None => JNull
                                end);
                     ("linkedin", match Profile.linkedin_url (fields last) with
                                  | Some url => JStr url
                                  | None => JNull
                                  end);
                     ("twitter", match Profile.twitter_url (fields last) with
                                 | Some url => JStr url
                                 | None => JNull
                                 end);
                     ("website", match Profile.website_url (fields last) with
                                 | Some url => JStr url
                                 | None => JNull
                                 end)])]]>
               (Command.files w);
           Command.stdout :=
             (Command.stdout w
              ++ [(Command.PLAIN, "  ✓ Exported profile.json")])%list |}
  ∧ profile_json request (profiles (Command.db w))
    = {| status_code := 200;
         data := JDict [
           ("name", JStr (Profile.name (fields last)));
           ("title", JStr (Profile.job_title (fields last)));
           ("bio", JStr (Profile.bio (fields last)));
           ("summary", JStr (Profile.summary (fields last)));
           ("email", JStr (Profile.email (fields last)));
           ("social", JDict [
              ("github", match Profile.github_url (fields last) with
                         | Some url => JStr url
                         | None => JNull
                         end);
              ("linkedin", match Profile.linkedin_url (fields last) with
                           | Some url => JStr url
                           | None => JNull
                           end);
              ("twitter", match Profile.twitter_url (fields last) with
                          | Some url => JStr url
                          | None => JNull
                          end)])] |}.
Proof.
  intros Ha Hdb.
  destruct (save_active_rows Profile.is_active (Profile.set_is_active false)
              (λ r, eq_refl) last (Profile.save_all earlier db0) Ha)
    as (k & _ & Hrows).
  assert (Orm.qs_filter Profile.is_active (profiles (Command.db w))
          = {[ k := fields last ]}) as Hone.
  { rewrite Hdb. unfold Profile.save_all. rewrite foldl_app. exact Hrows. }
  split.
  - unfold Command.export_profile. rewrite Hone, qs_get_singleton.
    reflexivity.
  - unfold profile_json, Orm.qs_first. rewrite Hone, map_to_list_singleton.
    reflexivity.
Qed.

(** ** The sitemap entry of a blog post *)

Lemma slug_char_routable (c : ascii) :
  Text.slug_char c = true → Urls.slug_converter_char c = true.
Proof.
  unfold Text.slug_char, Urls.slug_converter_char.
  rewrite !orb_true_iff. tauto.
Qed.

Lemma forallb_Forall_true {A} (f : A → bool) (l : list A) :
  Forall (λ x, f x = true) l → forallb f l = true.
Proof.
  induction 1 as [|x l Hx _ IH]; [done|]. simpl. by rewrite Hx, IH.
Qed.

(** X9. For a blog post saved with an empty slug, the sitemap location is
    [/blog/<slug>/] with the slug derived from the title whenever that slug
    is not empty; when the title gives the empty slug, reversing the route
    fails with [NoReverseMatch]. *)
Theorem sitemap_location_of_saved_post `{Unicode} (now : DateTime.t)
    (self : Instance BlogPost.t) (db : gmap Z BlogPost.t) :
  BlogPost.slug (fields self) = "" →
  ∃ self' db',
    BlogPost.save now None self db = inr (self', db')
    ∧ BlogPostSitemap.location (fields self')
      = if Py.truthy (Text.slugify (BlogPost.title (fields self)))
        then Urls.Url
               ("/blog/" +:+ Text.slugify (BlogPost.title (fields self)) +:+ "/")
        else Urls.NoReverseMatch.
Proof.
  intros Hs. unfold BlogPost.save.
  destruct (Model_save_stores (BlogPost.before_save now self) db)
    as (k & Hk & Hf & Hl).
  eexists _, _. split.
  - unfold Py.ret. f_equal. apply surjective_pairing.
  - unfold BlogPostSitemap.location. rewrite Hf.
    assert (BlogPost.slug (fields (BlogPost.before_save now self))
            = Text.slugify (BlogPost.title (fields self))) as ->.
    { unfold BlogPost.before_save. apply truthy_false in Hs. rewrite Hs. simpl.
      by match goal with |- context [if ?c then _ else _] => destruct c end. }
    unfold Urls.reverse_blog_post, Urls.slug_converter_matches.
    rewrite (forallb_Forall_true Urls.slug_converter_char).
    + by rewrite andb_true_r.
    + eapply Forall_impl; [apply slugify_chars|]. apply slug_char_routable.
Qed.

(** ** The skills listing *)

Lemma optional_filter_lookup {F} (param : option string)
    (P : string → F → bool) (t : gmap Z F) k r :
  (match param with
   | Some v => if Py.truthy v then Orm.qs_filter (P v) t else t
   | None => t
   end) !! k = Some r
  ↔ t !! k = Some r ∧ ∀ v, param = Some v → v ≠ "" → P v r = true.
Proof.
  destruct param as [v|]; [|naive_solver].
  destruct (Py.truthy v) eqn:Ht.
  - apply truthy_true in Ht. rewrite qs_filter_lookup. naive_solver.
  - apply truthy_false in Ht. naive_solver.
Qed.

(** X10. The skills listing holds exactly the skills whose area exists and
    that pass every filter given with a non-empty value: [level] against
    the SFIA level, [sector] against the sector, [area] against the slug of
    the skill's area. A missing or empty parameter filters nothing. *)
Theorem skills_filters (request : HttpRequest) (areas : gmap Z SkillArea.t)
    (skills : gmap Z Skill.t) (k : Z) (s : Skill.t) :
  SkillsListView.get_queryset request areas skills !! k = Some s
  ↔ skills !! k = Some s
    ∧ (∃ area, areas !! Skill.area_id s = Some area
               ∧ ∀ a, GET request !! "area" = Some a → a ≠ "" →
                      SkillArea.slug area = a)
    ∧ (∀ level, GET request !! "level" = Some level → level ≠ "" →
                Skill.sfia_level s = level)
    ∧ (∀ sector, GET request !! "sector" = Some sector → sector ≠ "" →
                 Skill.sector s = sector).
Proof.
  unfold SkillsListView.get_queryset.
  rewrite (optional_filter_lookup (GET request !! "area")
             (SkillsListView.area_slug_is areas)).
  rewrite (optional_filter_lookup (GET request !! "sector")
             (λ v s, String.eqb (Skill.sector s) v)).
  rewrite (optional_filter_lookup (GET request !! "level")
             (λ v s, String.eqb (Skill.sfia_level s) v)).
  rewrite qs_filter_lookup, bool_decide_eq_true.
  unfold SkillsListView.area_slug_is. split.
  - intros ((((Hk & [area Harea]) & Hlevel) & Hsector) & Hslug).
    split_and!; [done| |..].
    + exists area. split; [done|]. intros a Ha Hne.
      specialize (Hslug a Ha Hne). rewrite Harea in Hslug.
      by apply String.eqb_eq.
    + intros level Hl Hne. by apply String.eqb_eq, Hlevel.
    + intros sector Hs Hne. by apply String.eqb_eq, Hsector.
  - intros (Hk & (area & Harea & Hslug) & Hlevel & Hsector).
    split_and!; [done|by eexists|..].
    + intros level Hl Hne. by apply String.eqb_eq, Hlevel.
    + intros sector Hs Hne. by apply String.eqb_eq, Hsector.
    + intros a Ha Hne. rewrite Harea. by apply String.eqb_eq, Hslug.
Qed.

(** ** The contact form *)

Lemma before_split (sep : ascii) (s : list ascii) :
  ∃ rest, s = (ContactView.before sep s ++ rest)%list
          ∧ (sep ∉ ContactView.before sep s)
          ∧ (rest = [] ∨ ∃ r, rest = sep :: r).
Proof.
  induction s as [|c s (rest & Hs & Hnot & Hrest)]; simpl.
  - exists []. split_and!; [done|by intros ?%elem_of_nil|by left].
  - destruct (Ascii.eqb_spec c sep) as [->|Hne].
    + exists (sep :: s). split_and!; [done|by intros ?%elem_of_nil|right; by eexists].
    + exists rest. split_and!; [simpl; congruence| |done].
      intros [?|?]%elem_of_cons; [congruence|done].
Qed.

(** X11. When the request carries a non-empty [X-Forwarded-For] header, the
    client address is the part of the header before its first comma, taken
    as it is (no comma in it, nothing trimmed); when the header is absent
    or empty, it is [REMOTE_ADDR], which may be absent too. *)
Theorem client_ip_first_entry (META : gmap string string) :
  (∀ x, META !! "HTTP_X_FORWARDED_FOR" = Some x → x ≠ "" →
     ∃ ip rest,
       ContactView.get_client_ip META = Some ip
       ∧ list_ascii_of_string x = (list_ascii_of_string ip ++ rest)%list
       ∧ (","%char ∉ list_ascii_of_string ip)
       ∧ (rest = [] ∨ ∃ r, rest = ","%char :: r))
  ∧ (META !! "HTTP_X_FORWARDED_FOR" = None
     ∨ META !! "HTTP_X_FORWARDED_FOR" = Some "" →
     ContactView.get_client_ip META = META !! "REMOTE_ADDR").
Proof.
  unfold ContactView.get_client_ip. split.
  - intros x -> Hne%truthy_true. rewrite Hne.
    destruct (before_split ","%char (list_ascii_of_string x))
      as (rest & Hs & Hnot & Hrest).
    eexists _, rest. split; [reflexivity|].
    by rewrite list_ascii_of_string_of_list_ascii.
  - by intros [->| ->].
Qed.

Lemma length_string_of_list (l : list ascii) :
  String.length (string_of_list_ascii l) = length l.
Proof. induction l; simpl; congruence. Qed.

Lemma length_list_of_string (s : string) :
  length (list_ascii_of_string s) = String.length s.
Proof. induction s; simpl; congruence. Qed.

Lemma slice_to_prefix (n : nat) (s : string) :
  (String.length (ContactView.slice_to n s) = n `min` String.length s)%nat
  ∧ ∃ rest, list_ascii_of_string s
            = (list_ascii_of_string (ContactView.slice_to n s) ++ rest)%list.
Proof.
  unfold ContactView.slice_to. split.
  - by rewrite length_string_of_list, length_take, length_list_of_string.
  - exists (drop n (list_ascii_of_string s)).
    by rewrite list_ascii_of_string_of_list_ascii, take_drop.
Qed.

Lemma has_colon_spec (s : list ascii) :
  existsb (Ascii.eqb ":"%char) s = true ↔ ":"%char ∈ s.
Proof.
  rewrite existsb_exists, list_elem_of_In. split.
  - intros (c & Hc & ->%Ascii.eqb_eq). done.
  - intros Hin. exists ":"%char. split; [done|]. apply Ascii.eqb_refl.
Qed.

(** X12. A valid contact form adds exactly one message to the table, under
    a key that was free, and changes no other row. The instance and the
    stored row carry the four form fields, the status "new", no notes, no
    reply date, and as user agent the first 500 characters of the header
    (the empty text when there is no header). The instance holds the
    client address of the request as it came; the stored row holds what the
    address field makes of it: nothing when there is no address or an empty
    one, the address itself when it has no colon, and for an address with a
    colon its canonical IPv6 form, or the address itself when it does not
    parse. *)
Theorem form_valid_adds_one_message `{Ipv6} (META : gmap string string)
    (form : ContactView.cleaned_data) (db : gmap Z ContactMessage.t) :
  ∃ k agent rest column,
    ContactView.contact (ContactView.form_valid META form db)
    = Obj (Some k)
        (ContactMessage.Row (ContactView.form_name form)
           (ContactView.form_email form) (ContactView.form_subject form)
           (ContactView.form_message form) "new"
           (ContactView.get_client_ip META) agent None None)
    ∧ db !! k = None
    ∧ ContactView.contact_messages (ContactView.form_valid META form db)
      = <[k := ContactMessage.Row (ContactView.form_name form)
                 (ContactView.form_email form) (ContactView.form_subject form)
                 (ContactView.form_message form) "new" column agent None None]>
          db
    ∧ size (ContactView.contact_messages (ContactView.form_valid META form db))
      = S (size db)
    ∧ list_ascii_of_string (default "" (META !! "HTTP_USER_AGENT"))
      = (list_ascii_of_string agent ++ rest)%list
    ∧ (String.length agent ≤ 500)%nat
    ∧ (rest ≠ [] → String.length agent = 500%nat)
    ∧ (ContactView.get_client_ip META = None
       ∨ ContactView.get_client_ip META = Some "" → column = None)
    ∧ (∀ ip, ContactView.get_client_ip META = Some ip → ip ≠ "" →
             ":"%char ∉ list_ascii_of_string ip → column = Some ip)
    ∧ (∀ ip, ContactView.get_client_ip META = Some ip →
             ":"%char ∈ list_ascii_of_string ip →
             column = match clean_ipv6_address ip with
                      | Some address =>
                          if String.eqb address "" then None else Some address
                      | None => Some ip
                      end).
Proof.
  unfold ContactView.form_valid. simpl.
  destruct (slice_to_prefix 500 (default "" (META !! "HTTP_USER_AGENT")))
    as (Hlen & rest & Hrest).
  assert (db !! fresh (dom db) = None) as Hfresh
    by apply not_elem_of_dom, is_fresh.
  exists (fresh (dom db)),
    (ContactView.slice_to 500 (default "" (META !! "HTTP_USER_AGENT"))),
    rest,
    (ContactMessage.ip_address_column (ContactView.get_client_ip META)).
  split_and!; try done.
  - by apply map_size_insert_None.
  - rewrite Hlen. lia.
  - intros Hne. rewrite Hlen. apply Nat.min_l.
    apply (f_equal length) in Hrest.
    rewrite length_app, !length_list_of_string, Hlen in Hrest.
    destruct rest as [|c rest]; [done|]. cbn [length] in Hrest. lia.
  - by intros [->| ->].
  - intros ip -> Hne%truthy_true Hcolon. simpl. rewrite Hne. simpl.
    destruct (existsb (Ascii.eqb ":"%char) (list_ascii_of_string ip)) eqn:E.
    + by apply has_colon_spec in E.
    + by rewrite Hne.
  - intros ip -> Hcolon. simpl.
    assert (Py.truthy ip = true) as Hne.
    { apply truthy_true. intros ->. by apply elem_of_nil in Hcolon. }
    rewrite Hne, (proj2 (has_colon_spec _) Hcolon). simpl.
    destruct (clean_ipv6_address ip) as [address|].
    + unfold Py.truthy. by destruct (String.eqb address "").
    + by rewrite Hne.
Qed.

Lemma utf8_len_cons (c : ascii) (l : list ascii) :
  Utf8.len (c :: l)
  = if Utf8.is_continuation c then Utf8.len l else S (Utf8.len l).
Proof.
  unfold Utf8.len. rewrite filter_cons.
  destruct (Utf8.is_continuation c); by case_decide.
Qed.

Lemma utf8_len_app (a b : list ascii) :
  Utf8.len (a ++ b) = (Utf8.len a + Utf8.len b)%nat.
Proof. unfold Utf8.len. by rewrite filter_app, length_app. Qed.

Lemma utf8_slice_len (n : nat) (l : list ascii) :
  Utf8.len (Utf8.slice_to n l) = (n `min` Utf8.len l)%nat.
Proof.
  revert n. induction l as [|c l IH]; intros n; simpl.
  - unfold Utf8.len. simpl. lia.
  - rewrite (utf8_len_cons c l).
    destruct (Utf8.is_continuation c) eqn:E.
    + by rewrite utf8_len_cons, E, IH.
    + destruct n as [|n]; [done|]. rewrite utf8_len_cons, E, IH. lia.
Qed.

Lemma utf8_slice_cut (n : nat) (l : list ascii) :
  (n < Utf8.len l)%nat →
  ∃ c rest, l = (Utf8.slice_to n l ++ c :: rest)%list
            ∧ Utf8.is_continuation c = false.
Proof.
  revert n. induction l as [|c l IH]; intros n; simpl.
  - unfold Utf8.len. simpl. lia.
  - rewrite utf8_len_cons. destruct (Utf8.is_continuation c) eqn:E.
    + intros Hlt. destruct (IH n Hlt) as (c' & rest & Hl & Hc').
      exists c', rest. split; [|done]. simpl. by rewrite <- Hl.
    + destruct n as [|n].
      * intros _. by exists c, l.
      * intros Hlt. destruct (IH n) as (c' & rest & Hl & Hc'); [lia|].
        exists c', rest. split; [|done]. simpl. by rewrite <- Hl.
Qed.

Lemma list_of_append (a b : string) :
  list_ascii_of_string (a +:+ b)
  = (list_ascii_of_string a ++ list_ascii_of_string b)%list.
Proof. induction a as [|c a IH]; simpl; [done|by rewrite IH]. Qed.

(** X13. The subject column of the message list shows a subject of at most
    50 characters in full, and of a longer one its first 50 characters
    followed by three dots; what it shows is never longer than 53
    characters. Characters are counted as Python counts them: a letter with
    an accent is one character, whatever number of bytes holds it, and the
    cut falls between two characters. *)
Theorem subject_preview_bounded (obj : ContactMessage.t) :
  (Utf8.len (list_ascii_of_string (ContactMessageAdmin.subject_preview obj))
   ≤ 53)%nat
  ∧ ((Utf8.len (list_ascii_of_string (ContactMessage.subject obj)) ≤ 50)%nat →
     ContactMessageAdmin.subject_preview obj = ContactMessage.subject obj)
  ∧ ((50 < Utf8.len (list_ascii_of_string (ContactMessage.subject obj)))%nat →
     ∃ head c rest,
       list_ascii_of_string (ContactMessageAdmin.subject_preview obj)
       = (head ++ list_ascii_of_string "...")%list
       ∧ list_ascii_of_string (ContactMessage.subject obj)
         = (head ++ c :: rest)%list
       ∧ Utf8.len head = 50%nat
       ∧ Utf8.is_continuation c = false).
Proof.
  unfold ContactMessageAdmin.subject_preview.
  set (subject := list_ascii_of_string (ContactMessage.subject obj)).
  destruct (Nat.ltb_spec 50 (Utf8.len subject)) as [Hlong|Hshort].
  - rewrite list_of_append, list_ascii_of_string_of_list_ascii.
    split_and!.
    + rewrite utf8_len_app, utf8_slice_len.
      change (Utf8.len (list_ascii_of_string "...")) with 3%nat. lia.
    + lia.
    + intros _. destruct (utf8_slice_cut 50 subject Hlong) as (c & rest & Hl & Hc).
      exists (Utf8.slice_to 50 subject), c, rest. split_and!; [done|done| |done].
      rewrite utf8_slice_len. lia.
  - split_and!; [fold subject; lia|done|lia].
Qed.

(** ** The admin actions on blog posts *)

Lemma update_selected_lookup {F} (selected : gset Z) (f : F → F)
    (t : gmap Z F) (k : Z) :
  (Admin.update_selected selected f t).1 !! k
  = (λ r, if bool_decide (k ∈ selected) then f r else r) <$> t !! k.
Proof.
  unfold Admin.update_selected. simpl. rewrite map_lookup_imap.
  by destruct (t !! k).
Qed.

Lemma publish_posts_lookup (now : DateTime.t) (queryset : gset Z)
    (posts : gmap Z BlogPost.t) (k : Z) :
  (BlogPostAdmin.publish_posts now queryset posts).1 !! k
  = (λ p, if bool_decide (k ∈ queryset)
          then BlogPost.set_published_date (Some now)
                 (BlogPostAdmin.set_status "published" p)
          else p) <$> posts !! k.
Proof.
  unfold BlogPostAdmin.publish_posts.
  rewrite <- (update_selected_lookup queryset _ posts k).
  by destruct (Admin.update_selected _ _ posts).
Qed.

(** X14. The admin action "publish" turns every ticked post into a
    published post dated now, replacing a publication date the post already
    had; its title, slug, series, category, excerpt, content, meta texts,
    reading time, view count, featured flag and order stay as they were. A
    post that is not ticked is left as it is and no post is added. Every
    ticked post then counts as published. *)
Theorem publish_posts_overwrites_date (now : DateTime.t) (queryset : gset Z)
    (posts : gmap Z BlogPost.t) (k : Z) :
  (BlogPostAdmin.publish_posts now queryset posts).1 !! k
  = (λ p, if bool_decide (k ∈ queryset)
          then BlogPost.Row (BlogPost.title p) (BlogPost.slug p)
                 (BlogPost.series_id p) (BlogPost.category_id p)
                 (BlogPost.excerpt p) (BlogPost.content p)
                 "published" (Some now)
                 (BlogPost.meta_description p) (BlogPost.meta_keywords p)
                 (BlogPost.reading_time p) (BlogPost.view_count p)
                 (BlogPost.is_featured p) (BlogPost.order p)
          else p) <$> posts !! k
  ∧ (∀ p', k ∈ queryset →
       (BlogPostAdmin.publish_posts now queryset posts).1 !! k = Some p' →
       BlogPost.published_date p' = Some now
       ∧ BlogPost.is_published p' = true).
Proof.
  rewrite publish_posts_lookup.
  split; [reflexivity|].
  intros p' Hin. destruct (posts !! k) as [p|]; [|done]. simpl.
  rewrite bool_decide_eq_true_2 by done. by intros [= <-].
Qed.

Lemma archive_posts_lookup (queryset : gset Z) (posts : gmap Z BlogPost.t) k :
  (BlogPostAdmin.archive_posts queryset posts).1 !! k
  = (λ p, if bool_decide (k ∈ queryset)
          then BlogPostAdmin.set_status "archived" p else p) <$> posts !! k.
Proof.
  unfold BlogPostAdmin.archive_posts.
  rewrite <- (update_selected_lookup queryset _ posts k).
  by destruct (Admin.update_selected _ _ posts).
Qed.

(** X15. Once the admin action "archive" has run on a post, the post keeps
    its publication date but is gone from the public side: the detail
    accessor raises the not-found error for its slug, and neither the blog
    listing nor the sitemap contains it. The slug is assumed to be that of
    this post only. *)
Theorem archived_post_is_hidden `{Unicode} (now : DateTime.t)
    (queryset : gset Z) (posts : gmap Z BlogPost.t) (k : Z) (p : BlogPost.t) :
  posts !! k = Some p →
  k ∈ queryset →
  (∀ k' p', posts !! k' = Some p' → BlogPost.slug p' = BlogPost.slug p → k' = k) →
  let archived := (BlogPostAdmin.archive_posts queryset posts).1 in
  archived !! k = Some (BlogPostAdmin.set_status "archived" p)
  ∧ BlogPost.published_date <$> archived !! k = Some (BlogPost.published_date p)
  ∧ BlogPostDetailView.get_object now (BlogPost.slug p) archived
    = inl Py.Http404
  ∧ BlogListView.get_queryset archived !! k = None
  ∧ BlogPostSitemap.items archived !! k = None.
Proof.
  intros Hk Hin Huniq archived.
  assert (archived !! k = Some (BlogPostAdmin.set_status "archived" p)) as Hrow.
  { subst archived. rewrite archive_posts_lookup, Hk. simpl.
    by rewrite bool_decide_eq_true_2. }
  assert (∀ q, archived !! k = Some q → BlogPost.status q ≠ "published") as Hnot.
  { intros q. rewrite Hrow. by intros [= <-]. }
  split_and!.
  - exact Hrow.
  - by rewrite Hrow.
  - unfold BlogPostDetailView.get_object.
    rewrite super_get_object_missing; [done|].
    intros k' q Hk' Hslug.
    assert (k' = k) as ->.
    { subst archived. rewrite archive_posts_lookup in Hk'.
      destruct (posts !! k') as [p'|] eqn:E; [|done]. simpl in Hk'.
      apply (Huniq k' p' E). injection Hk' as <-.
      rewrite <- Hslug. by destruct (bool_decide (k' ∈ queryset)). }
    by apply Hnot.
  - unfold BlogListView.get_queryset.
    destruct (Orm.qs_filter _ archived !! k) as [q|] eqn:E; [|done].
    apply qs_filter_lookup in E as [E Hs]. apply String.eqb_eq in Hs.
    by destruct (Hnot q E).
  - unfold BlogPostSitemap.items.
    destruct (Orm.qs_filter _ archived !! k) as [q|] eqn:E; [|done].
    apply qs_filter_lookup in E as [E Hs]. apply String.eqb_eq in Hs.
    by destruct (Hnot q E).
Qed.

(** ** A project, saved and looked up *)

(** X16. A project saved with an empty slug is found by the detail page
    under the slug derived from its title, provided no stored project has
    that slug already; and a slug that no stored project has gives the
    not-found error. *)
Theorem saved_project_is_found `{Unicode} (self : Instance Project.t)
    (db : gmap Z Project.t) :
  (Project.slug (fields self) = "" →
   (∀ k p, db !! k = Some p →
           Project.slug p ≠ Text.slugify (Project.title (fields self))) →
   ProjectDetailView.get_object (Text.slugify (Project.title (fields self)))
     (Project.save self db).2
   = inr (Project.save self db).1)
  ∧ (∀ slug, (∀ k p, db !! k = Some p → Project.slug p ≠ slug) →
             ProjectDetailView.get_object slug db = inl Py.Http404).
Proof.
  split.
  - intros Hs Hfree. unfold Project.save.
    apply truthy_false in Hs. rewrite Hs. simpl.
    match goal with |- context [Orm.Model_save ?s ?t] =>
      destruct (Model_save_pk s t) as (k & Hk & Hf & Hdb & _);
      set (saved := Orm.Model_save s t) in * end.
    simpl in Hf. unfold ProjectDetailView.get_object.
    rewrite (qs_filter_unique _ _ k (fields saved.1)).
    + rewrite qs_get_singleton. f_equal.
      destruct saved.1 as [pk0 f0]. simpl in *. by rewrite Hk.
    + rewrite Hdb, Hf. apply lookup_insert_eq.
    + rewrite Hf. simpl. apply String.eqb_refl.
    + intros k' p' Hk' Hslug. apply String.eqb_eq in Hslug.
      destruct (decide (k' = k)) as [|Hne]; [done|].
      rewrite Hdb, lookup_insert_ne in Hk' by done.
      by destruct (Hfree _ _ Hk').
  - intros slug Hnone. unfold ProjectDetailView.get_object.
    rewrite qs_filter_none; [by rewrite qs_get_empty|].
    intros k p Hk. apply String.eqb_neq. by eapply Hnone.
Qed.

(** ** The export, run again *)

Lemma same_content_refl (d : Database) : same_content d d.
Proof. apply set_site_settings_same. Qed.

Lemma export_profile_step (w w' : Command.World) :
  Command.export_profile w = inr w' →
  ∃ out doc, ∀ v, same_content (Command.db w) (Command.db v) →
    Command.export_profile v = inr (after_step "profile.json" out doc v).
Proof.
  unfold Command.export_profile. intros Hrun.
  destruct (Orm.qs_get "Profile"
              (Orm.qs_filter Profile.is_active (profiles (Command.db w))))
    as [e|profile] eqn:E.
  - destruct e; try discriminate Hrun.
    exists (Command.WARNING, "  ✗ No profile found"), None.
    intros v Hv. rewrite Hv. simpl. by rewrite E.
  - eexists (Command.PLAIN, _), (Some _).
    intros v Hv. rewrite Hv. simpl. rewrite E. reflexivity.
Qed.

Lemma export_skills_step (w : Command.World) :
  ∃ out doc, ∀ v, same_content (Command.db w) (Command.db v) →
    Command.export_skills v = inr (after_step "skills.json" out doc v).
Proof.
  eexists (Command.PLAIN, _), (Some _). intros v Hv.
  unfold Command.export_skills. rewrite Hv. simpl. reflexivity.
Qed.

Lemma export_projects_step (w w' : Command.World) :
  Command.export_projects w = inr w' →
  ∃ out doc, ∀ v, same_content (Command.db w) (Command.db v) →
    Command.export_projects v = inr (after_step "projects.json" out doc v).
Proof.
  unfold Command.export_projects. intros Hrun.
  match type of Hrun with context [Command.mapM ?f ?l] =>
    destruct (Command.mapM f l) as [e|data] eqn:E end; [discriminate|].
  eexists (Command.PLAIN, _), (Some _). intros v Hv.
  rewrite Hv. simpl. rewrite E. reflexivity.
Qed.

Lemma export_experience_step (w : Command.World) :
  ∃ out doc, ∀ v, same_content (Command.db w) (Command.db v) →
    Command.export_experience v = inr (after_step "experience.json" out doc v).
Proof.
  eexists (Command.PLAIN, _), (Some _). intros v Hv.
  unfold Command.export_experience. rewrite Hv. simpl. reflexivity.
Qed.

Lemma export_certifications_step (w : Command.World) :
  ∃ out doc, ∀ v, same_content (Command.db w) (Command.db v) →
    Command.export_certifications v
    = inr (after_step "certifications.json" out doc v).
Proof.
  eexists (Command.PLAIN, _), (Some _). intros v Hv.
  unfold Command.export_certifications. rewrite Hv. simpl. reflexivity.
Qed.

Lemma export_blog_step (w w' : Command.World) :
  Command.export_blog w = inr w' →
  ∃ out doc, ∀ v, same_content (Command.db w) (Command.db v) →
    Command.export_blog v = inr (after_step "blog.json" out doc v).
Proof.
  unfold Command.export_blog. intros Hrun.
  match type of Hrun with context [Command.mapM ?f ?l] =>
    destruct (Command.mapM f l) as [e|data] eqn:E end; [discriminate|].
  eexists (Command.PLAIN, _), (Some _). intros v Hv.
  rewrite Hv. simpl. rewrite E. reflexivity.
Qed.

Lemma export_site_settings_step (w : Command.World) :
  ∃ out doc table,
    Command.export_site_settings w
    = inr {| Command.db := set_site_settings table (Command.db w);
             Command.files := put_file "site.json" doc (Command.files w);
             Command.stdout := (Command.stdout w ++ [out])%list |}
    ∧ ∀ v, Command.db v = set_site_settings table (Command.db w) →
        Command.export_site_settings v = inr (after_step "site.json" out doc v).
Proof.
  unfold Command.export_site_settings.
  destruct (SiteSettings.get_settings (site_settings (Command.db w)))
    as [e|[settings table]] eqn:E.
  - exists (Command.WARNING, "  ✗ No site settings found"), None,
      (site_settings (Command.db w)).
    split.
    + unfold Py.ret, Command.write. simpl. do 2 f_equal.
      apply set_site_settings_same.
    + intros v Hv. rewrite <- set_site_settings_same in Hv.
      by rewrite Hv, E.
  - eexists (Command.PLAIN, _), (Some _), table. split; [reflexivity|].
    intros v Hv. unfold after_step. rewrite Hv. simpl.
    rewrite (get_settings_again _ _ _ E). reflexivity.
Qed.

Lemma lookup_put_file_ne (n m : string) doc (files : gmap string json) :
  bool_decide (n = m) = false →
  put_file n doc files !! exported m = files !! exported m.
Proof.
  intros Hne. destruct doc as [c|]; [|done]. simpl.
  by rewrite lookup_insert_ne by by apply exported_ne.
Qed.

Lemma put_file_absorbed (n : string) doc (files : gmap string json) :
  (∀ c, doc = Some c → files !! exported n = Some c) →
  put_file n doc files = files.
Proof.
  intros Hdoc. destruct doc as [c|]; [|done]. simpl.
  apply insert_id. by apply Hdoc.
Qed.

Ltac lookup_put :=
  repeat first
    [ rewrite lookup_put_file_ne by reflexivity
    | progress simpl; rewrite lookup_insert_eq ].

(** X17. Running the export a second time, right after a run that went
    through, goes through as well and changes neither the exported files nor
    the database: every document is written again with the same content. *)
Theorem export_twice (w w1 : Command.World) :
  Command.handle w = inr w1 →
  ∃ w2,
    Command.handle w1 = inr w2
    ∧ Command.files w2 = Command.files w1
    ∧ Command.db w2 = Command.db w1.
Proof.
  unfold Command.handle. intros Hrun.
  set (w0 := Command.write Command.PLAIN "Exporting portfolio data to JSON..." w)
    in *.
  destruct (Command.export_profile w0) as [e|wa] eqn:E1; [discriminate|].
  destruct (export_profile_step _ _ E1) as (o1 & d1 & H1).
  rewrite (H1 w0 (same_content_refl _)) in E1. injection E1 as <-.
  cbn [Py.bind] in Hrun.
  match type of Hrun with context [Command.export_skills ?a] =>
    destruct (export_skills_step a) as (o2 & d2 & H2);
    rewrite (H2 a (same_content_refl _)) in Hrun end.
  cbn [Py.bind] in Hrun.
  match type of Hrun with context [Command.export_projects ?a] =>
    destruct (Command.export_projects a) as [e|wc] eqn:E3; [discriminate|];
    destruct (export_projects_step _ _ E3) as (o3 & d3 & H3);
    rewrite (H3 a (same_content_refl _)) in E3; injection E3 as <- end.
  cbn [Py.bind] in Hrun.
  match type of Hrun with context [Command.export_experience ?a] =>
    destruct (export_experience_step a) as (o4 & d4 & H4);
    rewrite (H4 a (same_content_refl _)) in Hrun end.
  cbn [Py.bind] in Hrun.
  match type of Hrun with context [Command.export_certifications ?a] =>
    destruct (export_certifications_step a) as (o5 & d5 & H5);
    rewrite (H5 a (same_content_refl _)) in Hrun end.
  cbn [Py.bind] in Hrun.
  match type of Hrun with context [Command.export_blog ?a] =>
    destruct (Command.export_blog a) as [e|wf] eqn:E6; [discriminate|];
    destruct (export_blog_step _ _ E6) as (o6 & d6 & H6);
    rewrite (H6 a (same_content_refl _)) in E6; injection E6 as <- end.
  cbn [Py.bind] in Hrun.
  match type of Hrun with context [Command.export_site_settings ?a] =>
    destruct (export_site_settings_step a) as (o7 & d7 & table & E7 & H7);
    rewrite E7 in Hrun end.
  cbn [Py.bind Py.ret] in Hrun. injection Hrun as <-.
  cbn [after_step Command.db Command.files Command.stdout Command.write] in *.
  assert (∀ v, Command.db v = set_site_settings table (Command.db w) →
               same_content (Command.db w) (Command.db v)) as Hsame.
  { intros v ->. reflexivity. }
  rewrite H1 by by apply Hsame. cbn [Py.bind].
  rewrite H2 by by apply Hsame. cbn [Py.bind].
  rewrite H3 by by apply Hsame. cbn [Py.bind].
  rewrite H4 by by apply Hsame. cbn [Py.bind].
  rewrite H5 by by apply Hsame. cbn [Py.bind].
  rewrite H6 by by apply Hsame. cbn [Py.bind].
  rewrite H7 by done. cbn [Py.bind Py.ret].
  eexists. split; [reflexivity|].
  cbn [after_step Command.db Command.files Command.stdout Command.write].
  split; [|done].
  rewrite (put_file_absorbed "profile.json");
    [|intros c ->; by lookup_put].
  rewrite (put_file_absorbed "skills.json");
    [|intros c ->; by lookup_put].
  rewrite (put_file_absorbed "projects.json");
    [|intros c ->; by lookup_put].
  rewrite (put_file_absorbed "experience.json");
    [|intros c ->; by lookup_put].
  rewrite (put_file_absorbed "certifications.json");
    [|intros c ->; by lookup_put].
  rewrite (put_file_absorbed "blog.json");
    [|intros c ->; by lookup_put].
  rewrite (put_file_absorbed "site.json");
    [|intros c ->; by lookup_put].
  done.
Qed.

(** ** The admin actions on contact messages *)

Lemma mark_as_replied_lookup now (queryset : gset Z)
    (msgs : gmap Z ContactMessage.t) k :
  (ContactMessageAdmin.mark_as_replied now queryset msgs).1 !! k
  = (λ m, if bool_decide (k ∈ queryset)
          then ContactMessage.set_replied_at (Some now)
                 (ContactMessage.set_status "replied" m)
          else m) <$> msgs !! k.
Proof.
  unfold ContactMessageAdmin.mark_as_replied.
  rewrite <- (update_selected_lookup queryset _ msgs k).
  by destruct (Admin.update_selected _ _ msgs).
Qed.

Lemma mark_as_read_lookup (queryset : gset Z)
    (msgs : gmap Z ContactMessage.t) k :
  (ContactMessageAdmin.mark_as_read queryset msgs).1 !! k
  = (λ m, if bool_decide (k ∈ queryset)
          then ContactMessage.set_status "read" m else m) <$> msgs !! k.
Proof.
  unfold ContactMessageAdmin.mark_as_read.
  rewrite <- (update_selected_lookup queryset _ msgs k).
  by destruct (Admin.update_selected _ _ msgs).
Qed.

(** X18. "Mark as replied" gives every ticked message the status
    "replied" and the current instant as reply date; its name, e-mail,
    subject, text, address, user agent and notes stay as they were. "Mark
    as read" run on such a message afterwards sets the status back to
    "read" and keeps the reply date, with the same columns untouched.
    Messages that are not ticked are left as they are. *)
Theorem reply_date_survives_mark_as_read (now : DateTime.t)
    (replied read : gset Z) (msgs : gmap Z ContactMessage.t)
    (k : Z) (m : ContactMessage.t) :
  msgs !! k = Some m →
  k ∈ replied →
  (ContactMessageAdmin.mark_as_replied now replied msgs).1 !! k
  = Some (ContactMessage.Row (ContactMessage.name m) (ContactMessage.email m)
            (ContactMessage.subject m) (ContactMessage.message m) "replied"
            (ContactMessage.ip_address m) (ContactMessage.user_agent m)
            (ContactMessage.admin_notes m) (Some now))
  ∧ (∀ j, j ∉ replied →
       (ContactMessageAdmin.mark_as_replied now replied msgs).1 !! j
       = msgs !! j)
  ∧ (k ∈ read →
     (ContactMessageAdmin.mark_as_read read
        (ContactMessageAdmin.mark_as_replied now replied msgs).1).1 !! k
     = Some (ContactMessage.Row (ContactMessage.name m)
               (ContactMessage.email m) (ContactMessage.subject m)
               (ContactMessage.message m) "read"
               (ContactMessage.ip_address m) (ContactMessage.user_agent m)
               (ContactMessage.admin_notes m) (Some now)))
  ∧ (∀ j, j ∉ read →
       (ContactMessageAdmin.mark_as_read read
          (ContactMessageAdmin.mark_as_replied now replied msgs).1).1 !! j
       = (ContactMessageAdmin.mark_as_replied now replied msgs).1 !! j).
Proof.
  intros Hk Hin.
  assert ((ContactMessageAdmin.mark_as_replied now replied msgs).1 !! k
          = Some (ContactMessage.Row (ContactMessage.name m)
                    (ContactMessage.email m) (ContactMessage.subject m)
                    (ContactMessage.message m) "replied"
                    (ContactMessage.ip_address m) (ContactMessage.user_agent m)
                    (ContactMessage.admin_notes m) (Some now))) as H1.
  { rewrite mark_as_replied_lookup, Hk. simpl.
    by rewrite bool_decide_eq_true_2. }
  split_and!.
  - exact H1.
  - intros j Hj. rewrite mark_as_replied_lookup.
    rewrite bool_decide_eq_false_2 by done. by destruct (msgs !! j).
  - intros Hread. rewrite mark_as_read_lookup, H1. simpl.
    by rewrite bool_decide_eq_true_2.
  - intros j Hj. rewrite mark_as_read_lookup.
    rewrite bool_decide_eq_false_2 by done.
    by destruct ((ContactMessageAdmin.mark_as_replied now replied msgs).1 !! j).
Qed.

(** ** What the blog export lists *)

Lemma mapM_length {A B} (f : A → Py.result B) (l : list A) (bs : list B) :
  Command.mapM f l = inr bs → length bs = length l.
Proof.
  revert bs. induction l as [|a l IH]; intros bs; simpl.
  - by intros [= <-].
  - destruct (f a) as [e|b]; [done|]. simpl.
    destruct (Command.mapM f l) as [e|bs']; [done|]. simpl.
    intros [= <-]. simpl. f_equal. by apply IH.
Qed.

Lemma mapM_elem {A B} (f : A → Py.result B) (l : list A) (bs : list B) :
  Command.mapM f l = inr bs →
  ∀ b, b ∈ bs ↔ ∃ a, a ∈ l ∧ f a = inr b.
Proof.
  revert bs. induction l as [|a l IH]; intros bs; simpl.
  - intros [= <-] b. split.
    + intros Hb. by apply elem_of_nil in Hb.
    + intros (a & Ha & _). by apply elem_of_nil in Ha.
  - destruct (f a) as [e|b0] eqn:Efa; [done|]. simpl.
    destruct (Command.mapM f l) as [e|bs'] eqn:E; [done|]. simpl.
    intros [= <-] b. rewrite elem_of_cons, (IH bs' eq_refl b). split.
    + intros [->|(a' & Ha' & Hf)].
      * exists a. split; [left|done].
      * exists a'. split; [by right|done].
    + intros (a' & Ha' & Hf). apply elem_of_cons in Ha' as [->|Ha'].
      * left. congruence.
      * right. by exists a'.
Qed.

Lemma rows_elem_iff {F} (t : gmap Z F) (r : F) :
  r ∈ Command.rows t ↔ ∃ k, t !! k = Some r.
Proof.
  split; [apply rows_elem|].
  intros (k & Hk). unfold Command.rows. apply list_elem_of_fmap.
  exists (k, r). split; [done|]. by apply elem_of_map_to_list.
Qed.

Lemma related_name_cases {F} model (name : F → string) (t : gmap Z F) fk j :
  Command.related_name model name t fk = inr j
  ↔ match fk with
    | None => j = JNull
    | Some k => ∃ r, t !! k = Some r ∧ j = JStr (name r)
    end.
Proof.
  unfold Command.related_name. destruct fk as [k|].
  - destruct (t !! k) as [r|]; simpl.
    + split; [intros [= <-]; by exists r|by intros (r' & [= <-] & ->)].
    + split; [done|]. by intros (r' & ? & _).
  - simpl. split; [by intros [= <-]|by intros ->].
Qed.

(** X19. When the blog export goes through, [blog.json] is a list with
    exactly one entry for each post whose status is "published", and every
    entry is the entry of such a post: its title, slug, excerpt, content,
    reading time and featured flag, its publication date in ISO form, and
    the names of its series and category ([null] where it has none). No
    draft and no archived post is exported; the database is not changed. *)
Theorem blog_export_lists_published (w w' : Command.World) :
  Command.export_blog w = inr w' →
  ∃ data,
    Command.files w' !! exported "blog.json" = Some (JList data)
    ∧ length data
      = size (Orm.qs_filter (λ p, String.eqb (BlogPost.status p) "published")
                (blog_posts (Command.db w)))
    ∧ (∀ entry,
         entry ∈ data
         ↔ ∃ k post series category,
             blog_posts (Command.db w) !! k = Some post
             ∧ BlogPost.status post = "published"
             ∧ match BlogPost.series_id post with
               | None => series = JNull
               | Some sid =>
                   ∃ s, blog_series (Command.db w) !! sid = Some s
                        ∧ series = JStr (BlogSeries.name s)
               end
             ∧ match BlogPost.category_id post with
               | None => category = JNull
               | Some cid =>
                   ∃ c, blog_categories (Command.db w) !! cid = Some c
                        ∧ category = JStr (BlogCategory.name c)
               end
             ∧ entry
               = JDict [
                   ("title", JStr (BlogPost.title post));
                   ("slug", JStr (BlogPost.slug post));
                   ("series", series);
                   ("category", category);
                   ("excerpt", JStr (BlogPost.excerpt post));
                   ("content", JStr (BlogPost.content post));
                   ("published_date",
                      match BlogPost.published_date post with
                      | Some d => JStr (DateTime.isoformat d)
                      | None => JNull
                      end);
                   ("reading_time", JInt (BlogPost.reading_time post));
                   ("is_featured", JBool (BlogPost.is_featured post))])
    ∧ Command.db w' = Command.db w.
Proof.
  unfold Command.export_blog. intros Hrun.
  match type of Hrun with context [Command.mapM ?f ?l] =>
    destruct (Command.mapM f l) as [e|data] eqn:E end; [discriminate|].
  simpl in Hrun. injection Hrun as <-. exists data. split_and!.
  - apply lookup_insert_eq.
  - rewrite (mapM_length _ _ _ E). unfold Command.rows.
    by rewrite length_fmap, length_map_to_list.
  - intros entry. rewrite (mapM_elem _ _ _ E entry). split.
    + intros (post & (k & [Hk Hs]%qs_filter_lookup)%rows_elem_iff & Hentry).
      apply String.eqb_eq in Hs.
      destruct (Command.related_name "BlogSeries" BlogSeries.name
                  (blog_series (Command.db w)) (BlogPost.series_id post))
        as [e|series] eqn:Es; [discriminate|].
      destruct (Command.related_name "BlogCategory" BlogCategory.name
                  (blog_categories (Command.db w)) (BlogPost.category_id post))
        as [e|category] eqn:Ec; [discriminate|].
      simpl in Hentry. injection Hentry as <-.
      apply related_name_cases in Es, Ec.
      by exists k, post, series, category.
    + intros (k & post & series & category & Hk & Hs & Hser & Hcat & ->).
      exists post. split.
      * apply rows_elem_iff. exists k. apply qs_filter_lookup.
        split; [done|]. by apply String.eqb_eq.
      * apply (related_name_cases "BlogSeries" BlogSeries.name) in Hser.
        apply (related_name_cases "BlogCategory" BlogCategory.name) in Hcat.
        by rewrite Hser, Hcat.
  - done.
Qed.

(** ** The shape of a derived slug *)

Lemma lstrip_head (P : ascii → bool) (l : list ascii) c rest :
  Text.lstrip P l = c :: rest → P c = false.
Proof.
  induction l as [|a l IH]; simpl; [done|].
  destruct (P a) eqn:E; [done|]. by intros [= <- _].
Qed.

Lemma lstrip_suffix (P : ascii → bool) (l : list ascii) :
  ∃ dropped, l = (dropped ++ Text.lstrip P l)%list.
Proof.
  induction l as [|a l (dropped & IH)]; simpl; [by exists []|].
  destruct (P a).
  - exists (a :: dropped). simpl. congruence.
  - by exists [].
Qed.

Lemma strip_inside (P : ascii → bool) (l : list ascii) :
  ∃ left right, l = (left ++ Text.strip P l ++ right)%list.
Proof.
  unfold Text.strip, Text.rstrip.
  destruct (lstrip_suffix P l) as (left & Hl).
  destruct (lstrip_suffix P (rev (Text.lstrip P l))) as (dropped & Hr).
  exists left, (rev dropped).
  rewrite <- rev_app_distr, <- Hr, rev_involutive. exact Hl.
Qed.

Lemma strip_ends (P : ascii → bool) (l : list ascii) :
  (∀ c rest, Text.strip P l = c :: rest → P c = false)
  ∧ (∀ front c, Text.strip P l = (front ++ [c])%list → P c = false).
Proof.
  unfold Text.strip, Text.rstrip.
  destruct (lstrip_suffix P (rev (Text.lstrip P l))) as (dropped & Hr).
  split.
  - intros c rest Hs.
    apply (f_equal (@rev ascii)) in Hr.
    rewrite rev_involutive, rev_app_distr, Hs in Hr. simpl in Hr.
    by eapply lstrip_head.
  - intros front c Hs.
    apply (f_equal (@rev ascii)) in Hs.
    rewrite rev_involutive, rev_app_distr in Hs. simpl in Hs.
    by eapply lstrip_head.
Qed.

Lemma sub_runs_true_head (l : list ascii) rest :
  Text.sub_runs true l ≠ "-"%char :: rest.
Proof.
  induction l as [|c l IH]; simpl; [done|].
  destruct (Text.is_hyphen c || Text.is_space c) eqn:E; [done|].
  intros [= -> _]. discriminate E.
Qed.

Lemma sub_runs_no_double (in_run : bool) (l pre post : list ascii) :
  Text.sub_runs in_run l ≠ (pre ++ "-"%char :: "-"%char :: post)%list.
Proof.
  revert in_run pre. induction l as [|c l IH]; intros in_run pre; simpl.
  - by destruct pre.
  - destruct (Text.is_hyphen c || Text.is_space c) eqn:E.
    + destruct in_run; [apply IH|].
      destruct pre as [|x pre]; simpl.
      * intros [= Hs]. by apply sub_runs_true_head in Hs.
      * intros [= _ Hs]. by apply IH in Hs.
    + destruct pre as [|x pre]; simpl.
      * intros [= -> _]. discriminate E.
      * intros [= _ Hs]. by apply IH in Hs.
Qed.

(** X20. A slug derived on save never begins or ends with a hyphen or an
    underscore and never has two hyphens in a row: this holds for every
    text [slugify] returns. *)
Theorem derived_slug_shape `{Unicode} (value : string) :
  let slug := list_ascii_of_string (Text.slugify value) in
  (∀ c rest, slug = c :: rest → c ≠ "-"%char ∧ c ≠ "_"%char)
  ∧ (∀ front c, slug = (front ++ [c])%list → c ≠ "-"%char ∧ c ≠ "_"%char)
  ∧ (∀ pre post, slug ≠ (pre ++ "-"%char :: "-"%char :: post)%list).
Proof.
  intros slug. subst slug. unfold Text.slugify.
  rewrite list_ascii_of_string_of_list_ascii.
  match goal with |- context [Text.strip ?P (Text.sub_runs false ?l)] =>
    set (runs := Text.sub_runs false l);
    destruct (strip_ends P runs) as (Hhead & Hlast);
    destruct (strip_inside P runs) as (left & right & Hin) end.
  assert (∀ c, (Text.is_hyphen c || Text.is_underscore c) = false →
               c ≠ "-"%char ∧ c ≠ "_"%char) as Hends.
  { intros c Hc. split; intros ->; discriminate Hc. }
  split_and!.
  - intros c rest Hs. by eapply Hends, Hhead.
  - intros front c Hs. by eapply Hends, Hlast.
  - intros pre post Hs. rewrite Hs in Hin.
    assert (∀ pre post, runs ≠ (pre ++ "-"%char :: "-"%char :: post)%list)
      as Hnd by (intros; apply sub_runs_no_double).
    apply (Hnd (left ++ pre)%list (post ++ right)%list).
    rewrite Hin. by rewrite <- !app_assoc.
Qed.

(** ** When the export goes through *)

Lemma export_profile_total (w : Command.World) :
  at_most_one_active Profile.is_active (profiles (Command.db w)) →
  ∃ out doc,
    Command.export_profile w = inr (after_step "profile.json" out doc w)
    ∧ ((∃ k p, profiles (Command.db w) !! k = Some p
               ∧ Profile.is_active p = true) → is_Some doc).
Proof.
  intros Hinv. unfold Command.export_profile.
  destruct (one_or_none _ _ Hinv) as [He|(k & p & Hk & Ha & He)]; rewrite He.
  - rewrite qs_get_empty.
    exists (Command.WARNING, "  ✗ No profile found"), None. split; [done|].
    intros (k & p & Hk & Ha).
    assert (Orm.qs_filter Profile.is_active (profiles (Command.db w)) !! k
            = Some p) as Hf by by apply qs_filter_lookup.
    by rewrite He in Hf.
  - rewrite qs_get_singleton. eexists (Command.PLAIN, _), (Some _).
    split; [reflexivity|]. by eexists.
Qed.

(** X21. The export goes through whenever at most one profile is active
    and the foreign keys it follows resolve: it then writes the skills,
    projects, experience, certifications and blog files, writes
    [profile.json] if a profile is active, and changes no table other than
    the settings table. *)
Theorem export_goes_through (w : Command.World) :
  at_most_one_active Profile.is_active (profiles (Command.db w)) →
  references_resolve (Command.db w) →
  ∃ w',
    Command.handle w = inr w'
    ∧ same_content (Command.db w) (Command.db w')
    ∧ Forall (λ name, is_Some (Command.files w' !! exported name))
        ["skills.json"; "projects.json"; "experience.json";
         "certifications.json"; "blog.json"]
    ∧ ((∃ k p, profiles (Command.db w) !! k = Some p
               ∧ Profile.is_active p = true) →
       is_Some (Command.files w' !! exported "profile.json")).
Proof.
  intros Hinv Href. unfold Command.handle.
  match goal with |- context [Command.export_profile ?a] =>
    destruct (export_profile_total a Hinv) as (o1 & d1 & -> & Hd1) end.
  cbn [Py.bind].
  match goal with |- context [Command.export_skills ?a] =>
    destruct (export_skills_total a) as (d2 & ->) end.
  cbn [Py.bind].
  match goal with |- context [Command.export_projects ?a] =>
    destruct (export_projects_total a Href) as (d3 & ->) end.
  cbn [Py.bind].
  match goal with |- context [Command.export_experience ?a] =>
    destruct (export_experience_total a) as (d4 & ->) end.
  cbn [Py.bind].
  match goal with |- context [Command.export_certifications ?a] =>
    destruct (export_certifications_total a) as (d5 & ->) end.
  cbn [Py.bind].
  match goal with |- context [Command.export_blog ?a] =>
    destruct (export_blog_total a Href) as (d6 & ->) end.
  cbn [Py.bind].
  match goal with |- context [Command.export_site_settings ?a] =>
    destruct (export_site_settings_step a) as (o7 & d7 & table & -> & _) end.
  cbn [Py.bind Py.ret]. eexists. split; [reflexivity|].
  cbn [after_step Command.db Command.files Command.stdout Command.write
       Command.dump].
  split_and!.
  - reflexivity.
  - repeat constructor; rewrite lookup_put_file_ne by reflexivity;
      lookup_exported; by eexists.
  - intros Hactive. destruct (Hd1 Hactive) as (c & ->).
    rewrite lookup_put_file_ne by reflexivity. lookup_exported.
    simpl. rewrite lookup_insert_eq. by eexists.
Qed.

(** ** Further worked examples *)

Lemma two_active_settings_example :
  SiteSettings.get_settings Demo.two_settings
  = inl (Py.MultipleObjectsReturned "SiteSettings").
Proof.
  apply (two_active_settings JNull JNull (Sample.search "")
           (Demo.world ∅ Demo.two_settings) 1 2
           Sample.settings SiteSettings.default_row);
    [reflexivity|reflexivity|lia|reflexivity|reflexivity].
Defined.

Lemma export_stops_on_two_profiles_example :
  Command.handle (Demo.world Demo.two_profiles ∅)
  = inl (Py.MultipleObjectsReturned "Profile").
Proof.
  apply (export_stops_on_two_profiles (Demo.world Demo.two_profiles ∅) 1 2
           (Sample.profile "Ann") (Sample.profile "Bao"));
    [reflexivity|reflexivity|lia|reflexivity|reflexivity].
Defined.

Lemma last_saved_profile_is_served_example :
  (∃ w',
      Command.export_profile
        (Demo.world
           (Profile.save_all
              [Obj None (Sample.profile "Ann");
               Obj None (Demo.linked_profile "Bao")] ∅) ∅) = inr w'
      ∧ Command.files w' !! "portfolio_project/data/profile.json"
        = Some (JDict [("name", JStr "Bao"); ("title", JStr "Engineer");
                       ("bio", JStr "bio"); ("summary", JStr "summary");
                       ("email", JStr "me@example.com");
                       ("phone", JStr "+84 24 0000");
                       ("location", JStr "Hanoi");
                       ("social", JDict [
                          ("github", JStr "https://github.com/ann");
                          ("linkedin", JNull);
                          ("twitter", JStr "https://twitter.com/ann");
                          ("website", JStr "https://ann.example.com")])]))
  ∧ profile_json (Sample.search "")
      (Profile.save_all
         [Obj None (Sample.profile "Ann");
          Obj None (Demo.linked_profile "Bao")] ∅)
    = {| status_code := 200;
         data := JDict [("name", JStr "Bao"); ("title", JStr "Engineer");
                        ("bio", JStr "bio"); ("summary", JStr "summary");
                        ("email", JStr "me@example.com");
                        ("social", JDict [
                           ("github", JStr "https://github.com/ann");
                           ("linkedin", JNull);
                           ("twitter", JStr "https://twitter.com/ann")])] |}.
Proof.
  destruct (last_saved_profile_is_served (Sample.search "")
              (Demo.world
                 (Profile.save_all
                    [Obj None (Sample.profile "Ann");
                     Obj None (Demo.linked_profile "Bao")] ∅) ∅)
              ∅ [Obj None (Sample.profile "Ann")]
              (Obj None (Demo.linked_profile "Bao")))
    as (Hfile & Hjson); [reflexivity|reflexivity|].
  split; [|exact Hjson].
  eexists. split; [exact Hfile|]. apply lookup_insert_eq.
Defined.

Lemma sitemap_location_of_saved_post_example :
  ∃ self' db',
    @BlogPost.save Sample.ascii_text Sample.now None
      (Obj None Demo.untitled_post) ∅ = inr (self', db')
    ∧ BlogPostSitemap.location (fields self') = Urls.Url "/blog/hello-world/".
Proof.
  destruct (@sitemap_location_of_saved_post Sample.ascii_text Sample.now
              (Obj None Demo.untitled_post) ∅)
    as (self' & db' & Hsave & Hloc); [reflexivity|].
  exists self', db'. split; [exact Hsave|]. rewrite Hloc. reflexivity.
Defined.

Lemma skills_filters_example :
  SkillsListView.get_queryset {| GET := {[ "level" := "L3" ]} |}
    {[ 1 := Demo.backend ]} {[ 5 := Demo.python ]} !! 5
  = Some Demo.python.
Proof.
  apply skills_filters. split_and!.
  - reflexivity.
  - exists Demo.backend. split; [reflexivity|]. intros a Ha. discriminate Ha.
  - intros level Hl _. vm_compute in Hl. by injection Hl as <-.
  - intros sector Hs. discriminate Hs.
Defined.

Lemma client_ip_first_entry_example :
  ContactView.get_client_ip Demo.behind_proxy = Some "203.0.113.7".
Proof.
  destruct (proj1 (client_ip_first_entry Demo.behind_proxy)
              "203.0.113.7, 10.0.0.1")
    as (ip & rest & Hip & _); [reflexivity|discriminate|].
  rewrite Hip. vm_compute in Hip. by injection Hip as <-.
Defined.

(** A message sent from an IPv6 address written at full length: the
    instance keeps the address as it came, the table holds its short
    form. *)
Lemma form_valid_adds_one_message_example :
  ContactView.contact_messages
    (@ContactView.form_valid Demo.known_addresses Demo.from_ipv6
       (ContactView.Form "Ann" "ann@example.com" "Question" "Hello") ∅)
  = {[ 0 := ContactMessage.Row "Ann" "ann@example.com" "Question" "Hello"
              "new" (Some "2001:db8::1") "curl/8.5.0" None None ]}
  ∧ ContactView.contact
      (@ContactView.form_valid Demo.known_addresses Demo.from_ipv6
         (ContactView.Form "Ann" "ann@example.com" "Question" "Hello") ∅)
    = Obj (Some 0)
        (ContactMessage.Row "Ann" "ann@example.com" "Question" "Hello" "new"
           (Some "2001:0DB8:0000:0000:0000:0000:0000:0001") "curl/8.5.0"
           None None).
Proof.
  destruct (@form_valid_adds_one_message Demo.known_addresses Demo.from_ipv6
              (ContactView.Form "Ann" "ann@example.com" "Question" "Hello") ∅)
    as (k & agent & rest & column & Hc & _ & Hm & _ & _ & _ & _ & _ & _ & Hv6).
  split; [|reflexivity].
  rewrite Hm.
  assert (Some k = Some 0 ∧ agent = "curl/8.5.0") as [[= ->] ->].
  { vm_compute in Hc. by injection Hc as -> ->. }
  rewrite (Hv6 "2001:0DB8:0000:0000:0000:0000:0000:0001").
  - reflexivity.
  - reflexivity.
  - apply list_elem_of_In. vm_compute. auto 10.
Defined.

Lemma subject_preview_bounded_example :
  ContactMessageAdmin.subject_preview
    (Demo.message "éééééééééééééééééééééééééééééé")
  = "éééééééééééééééééééééééééééééé"
  ∧ ∃ head c rest,
      list_ascii_of_string
        (ContactMessageAdmin.subject_preview
           (Demo.message
              "ééééééééééééééééééééééééééééééééééééééééééééééééééand more"))
      = (head ++ list_ascii_of_string "...")%list
      ∧ list_ascii_of_string
          "ééééééééééééééééééééééééééééééééééééééééééééééééééand more"
        = (head ++ c :: rest)%list
      ∧ Utf8.len head = 50%nat
      ∧ Utf8.is_continuation c = false.
Proof.
  split.
  - apply (proj1 (proj2 (subject_preview_bounded
                           (Demo.message "éééééééééééééééééééééééééééééé")))).
    vm_compute. lia.
  - apply (proj2 (proj2 (subject_preview_bounded
                           (Demo.message
                              "ééééééééééééééééééééééééééééééééééééééééééééééééééand more")))).
    vm_compute. lia.
Defined.

Lemma publish_posts_overwrites_date_example :
  (BlogPostAdmin.publish_posts Sample.later {[ 7 ]}
     {[ 7 := Sample.post "draft" (Some Sample.now) ]}).1 !! 7
  = Some (BlogPost.Row "Hello World" "hello-world" None None "excerpt"
            "content" "published" (Some Sample.later) "" "" 5 41 false 0).
Proof.
  rewrite (proj1 (publish_posts_overwrites_date Sample.later {[ 7 ]}
                    {[ 7 := Sample.post "draft" (Some Sample.now) ]} 7)).
  reflexivity.
Defined.

Lemma archived_post_is_hidden_example :
  @BlogPostDetailView.get_object Sample.ascii_text Sample.later "hello-world"
    (BlogPostAdmin.archive_posts {[ 7 ]}
       {[ 7 := Sample.post "published" (Some Sample.now) ]}).1
  = inl Py.Http404.
Proof.
  apply (@archived_post_is_hidden Sample.ascii_text Sample.later {[ 7 ]}
           {[ 7 := Sample.post "published" (Some Sample.now) ]} 7
           (Sample.post "published" (Some Sample.now))).
  - reflexivity.
  - by apply elem_of_singleton.
  - intros k' p' Hk' _. by apply lookup_singleton_Some in Hk' as [<- _].
Defined.

Lemma saved_project_is_found_example :
  ProjectDetailView.get_object
    (@Text.slugify Sample.ascii_text "Portfolio Site")
    (@Project.save Sample.ascii_text
       (Obj None (Sample.project "Portfolio Site" "" None)) ∅).2
  = inr (@Project.save Sample.ascii_text
           (Obj None (Sample.project "Portfolio Site" "" None)) ∅).1.
Proof.
  apply (proj1 (@saved_project_is_found Sample.ascii_text
                  (Obj None (Sample.project "Portfolio Site" "" None)) ∅)).
  - reflexivity.
  - intros k p Hk. by rewrite lookup_empty in Hk.
Defined.

Lemma export_twice_example :
  ∃ w1 w2,
    Command.handle Sample.empty_world = inr w1
    ∧ Command.handle w1 = inr w2
    ∧ Command.files w2 = Command.files w1
    ∧ Command.db w2 = Command.db w1.
Proof.
  destruct (Command.handle Sample.empty_world) as [e|w1] eqn:Hrun;
    [vm_compute in Hrun; discriminate Hrun|].
  destruct (export_twice Sample.empty_world w1 Hrun) as (w2 & H2 & Hf & Hd).
  by exists w1, w2.
Defined.

Lemma reply_date_survives_mark_as_read_example :
  (ContactMessageAdmin.mark_as_read {[ 3 ]}
     (ContactMessageAdmin.mark_as_replied Sample.now {[ 3 ]}
        {[ 3 := Demo.message "Question" ]}).1).1 !! 3
  = Some (ContactMessage.Row "Ann" "ann@example.com" "Question" "Hello" "read"
            None "" None (Some Sample.now)).
Proof.
  destruct (reply_date_survives_mark_as_read Sample.now {[ 3 ]} {[ 3 ]}
              {[ 3 := Demo.message "Question" ]} 3 (Demo.message "Question"))
    as (_ & _ & Hread & _);
    [reflexivity|by apply elem_of_singleton|].
  rewrite Hread; [reflexivity|by apply elem_of_singleton].
Defined.

(** The export of a published post and a draft: one entry, that of the
    published post. *)
Lemma blog_export_lists_published_example :
  ∃ w',
    Command.export_blog Demo.blog_world = inr w'
    ∧ Command.files w' !! exported "blog.json"
      = Some (JList [
          JDict [("title", JStr "Hello World"); ("slug", JStr "hello-world");
                 ("series", JStr "Django notes"); ("category", JNull);
                 ("excerpt", JStr "excerpt"); ("content", JStr "content");
                 ("published_date", JStr "2024-01-15T09:30:00+00:00");
                 ("reading_time", JInt 5); ("is_featured", JBool true)]]).
Proof.
  destruct (Command.export_blog Demo.blog_world) as [e|w'] eqn:Hrun;
    [vm_compute in Hrun; discriminate Hrun|].
  destruct (blog_export_lists_published Demo.blog_world w' Hrun)
    as (data & Hfile & Hlen & Hentries & _).
  exists w'. split; [done|]. rewrite Hfile. do 2 f_equal.
  assert (JDict [("title", JStr "Hello World"); ("slug", JStr "hello-world");
                 ("series", JStr "Django notes"); ("category", JNull);
                 ("excerpt", JStr "excerpt"); ("content", JStr "content");
                 ("published_date", JStr "2024-01-15T09:30:00+00:00");
                 ("reading_time", JInt 5); ("is_featured", JBool true)]
          ∈ data) as Hin.
  { apply Hentries.
    exists 1, (BlogPost.Row "Hello World" "hello-world" (Some 2) None
                 "excerpt" "content" "published" (Some Sample.now)
                 "" "" 5 41 true 0), (JStr "Django notes"), JNull.
    split_and!; try reflexivity.
    by exists (BlogSeries.Row "Django notes" "django-notes" "" 0). }
  assert (length data = 1%nat) as Hone by (rewrite Hlen; reflexivity).
  destruct data as [|d [|d' data]]; [discriminate Hone| |discriminate Hone].
  apply elem_of_cons in Hin as [Hin|Hin]; [by rewrite Hin|].
  by apply elem_of_nil in Hin.
Defined.

Lemma derived_slug_shape_example :
  bool_decide
    (default "-"%char
       (head (list_ascii_of_string
                (@Text.slugify Sample.ascii_text "__Back-End__")))
     = "-"%char) = false.
Proof.
  destruct (@derived_slug_shape Sample.ascii_text "__Back-End__")
    as (Hhead & _).
  apply bool_decide_eq_false_2.
  exact (proj1 (Hhead "b"%char (list_ascii_of_string "ack-end") eq_refl)).
Defined.

Lemma has_add_permission_once_example :
  SiteSettingsAdmin.has_add_permission (Sample.search "") ∅ = true
  ∧ SiteSettingsAdmin.has_add_permission (Sample.search "")
      (SiteSettings.save (Obj None Sample.settings) ∅).2 = false.
Proof.
  destruct (has_add_permission_once (Sample.search "")) as (Hempty & Hsave & _).
  split; [by apply Hempty|apply Hsave].
Defined.

Lemma export_goes_through_example :
  ∃ w',
    Command.handle
      (Demo.world {[ 1 := Sample.profile "Ann" ]} ∅) = inr w'
    ∧ is_Some (Command.files w' !! exported "profile.json").
Proof.
  destruct (export_goes_through (Demo.world {[ 1 := Sample.profile "Ann" ]} ∅))
    as (w' & Hrun & _ & _ & Hprofile).
  - intros k1 k2 r1 r2 H1 H2 _ _. simpl in H1, H2.
    apply lookup_singleton_Some in H1 as [<- _].
    by apply lookup_singleton_Some in H2 as [<- _].
  - split_and!; intros k p ? Hk; simpl in Hk; by rewrite lookup_empty in Hk.
  - exists w'. split; [exact Hrun|]. apply Hprofile.
    exists 1, (Sample.profile "Ann"). split; reflexivity.
Defined.
